(** * Snippetbox: the request pipeline, the render helper and the snippet model

    A shallow embedding of the Go sources of the snippetbox web application
    (cmd/web: helpers, handlers, routes; internal/models: snippets, errors,
    mocks) together with the properties its specification states about them.

    Conventions.
    - Go's [int] is [Z]; Go strings are [string]; [time.Time] is a number of
      seconds ([Z]).
    - A Go function returning [(v, err)] returns a pair whose second
      component is [option error] ([None] is [nil]).
    - A handler [func(w http.ResponseWriter, r *http.Request)] is a function
      from the request and the state of everything the handler can reach (the
      response writer, the loggers, the session, the database, the template
      cache) to the new state.  The response writer is kept as the sequence
      of calls made on it; what reaches the client is computed from it by
      [statusOf] and [bodyOf].
    - Go packages are modules of the same name. *)

From Stdlib Require Import Ascii.
From stdpp Require Import gmap strings list fin_maps pretty sorting.

Local Open Scope Z_scope.

(** The line feed that [fmt.Fprintln] appends. *)
Definition nl : string := String "010"%char "".

(** ** errors *)

(** The error values that occur: the three sentinels of
    internal/models/errors.go, [sql.ErrNoRows] of database/sql, and errors
    built from a message ([errors.New], [fmt.Errorf], driver and template
    errors). *)
Inductive error : Type :=
| ErrNoRecord
| ErrInvalidCredentials
| ErrDuplicateEmail
| sql_ErrNoRows
| errorString (msg : string).

#[global] Instance error_eq_dec : EqDecision error.
Proof. solve_decision. Defined.

(** [err.Error()] *)
Definition Error (e : error) : string :=
  match e with
  | ErrNoRecord => "models: no matching records found"
  | ErrInvalidCredentials => "models: no matching record found"
  | ErrDuplicateEmail => "models: duplicate email"
  | sql_ErrNoRows => "sql: no rows in result set"
  | errorString msg => msg
  end.

(** [errors.Is(err, target)] for a sentinel [target]: none of the errors
    here wraps another one, so it is identity. *)
Definition errors_Is (err target : error) : bool := bool_decide (err = target).

(** ** net/http: the response writer *)

(** One call on the [http.ResponseWriter] of a request. *)
Inductive RespCall : Type :=
| HeaderSet (key value : string)
| HeaderDel (key : string)
| WriteHeader (code : Z)
| Write (b : string).

#[global] Instance RespCall_eq_dec : EqDecision RespCall.
Proof. solve_decision. Defined.

Module http.

Definition StatusOK : Z := 200.
Definition StatusSeeOther : Z := 303.
Definition StatusBadRequest : Z := 400.
Definition StatusNotFound : Z := 404.
Definition StatusMethodNotAllowed : Z := 405.
Definition StatusUnprocessableEntity : Z := 422.
Definition StatusInternalServerError : Z := 500.

Definition MethodGet : string := "GET".
Definition MethodHead : string := "HEAD".
Definition MethodPost : string := "POST".

(** [http.StatusText], on the codes the application uses. *)
Definition StatusText (code : Z) : string :=
  if decide (code = 200) then "OK"
  else if decide (code = 303) then "See Other"
  else if decide (code = 400) then "Bad Request"
  else if decide (code = 404) then "Not Found"
  else if decide (code = 405) then "Method Not Allowed"
  else if decide (code = 422) then "Unprocessable Entity"
  else if decide (code = 500) then "Internal Server Error"
  else "".

(** [http.Error(w, msg, code)]: the calls it makes on [w]. *)
Definition Error (msg : string) (code : Z) : list RespCall :=
  [ HeaderSet "Content-Type" "text/plain; charset=utf-8";
    HeaderSet "X-Content-Type-Options" "nosniff";
    WriteHeader code;
    Write (msg +:+ nl) ].

End http.

(** The status line the client receives: the first [WriteHeader], or 200
    when the body is written first; a later [WriteHeader] is superfluous
    and ignored by net/http. *)
Fixpoint statusOf (calls : list RespCall) : option Z :=
  match calls with
  | [] => None
  | WriteHeader code :: _ => Some code
  | Write _ :: _ => Some http.StatusOK
  | _ :: rest => statusOf rest
  end.

(** The body the client receives: every [Write], in order. *)
Fixpoint bodyOf (calls : list RespCall) : string :=
  match calls with
  | [] => ""
  | Write b :: rest => b +:+ bodyOf rest
  | _ :: rest => bodyOf rest
  end.

(** The header map [w.Header()] after the calls. *)
Fixpoint headerOf (calls : list RespCall) (h : gmap string string) : gmap string string :=
  match calls with
  | [] => h
  | HeaderSet k v :: rest => headerOf rest (<[k := v]> h)
  | HeaderDel k :: rest => headerOf rest (delete k h)
  | _ :: rest => headerOf rest h
  end.

(** Whether a call commits the response (status line and headers). *)
Definition commits (c : RespCall) : bool :=
  match c with
  | WriteHeader _ | Write _ => true
  | _ => false
  end.

(** ** internal/models *)

Module models.

(** [type Snippet struct] *)
Record Snippet : Type := {
  ID : Z;
  Title : string;
  Content : string;
  Created : Z;
  Expires : Z
}.

#[global] Instance Snippet_eq_dec : EqDecision Snippet.
Proof. solve_decision. Defined.

(** A row of the users table, as the specification's data model has it. *)
Record User : Type := {
  UserID : Z;
  Name : string;
  Email : string;
  HashedPassword : string;
  UserCreated : Z
}.

(** The MySQL database behind [*sql.DB]: the rows of its two tables, the
    server clock that [UTC_TIMESTAMP()] reads, the next auto-increment
    key of the snippets table, and the error, if any, with which the
    driver answers a statement (lost connection and the like). *)
Record DB : Type := {
  snippets : list Snippet;
  users : list User;
  UTC_TIMESTAMP : Z;
  AUTO_INCREMENT : Z;
  driverErr : option error
}.

(** [DATE_ADD(t, INTERVAL n DAY)] *)
Definition DATE_ADD_DAY (t n : Z) : Z := t + n * 86400.

(** [m.DB.Exec(stmt, title, content, expires)] for the INSERT statement of
    [Insert]: the new database and the key of the inserted row, or the
    driver's error. *)
Definition Exec_INSERT (title content : string) (expires : Z) (d : DB) : DB * (Z + error) :=
  match driverErr d with
  | Some err => (d, inr err)
  | None =>
      let row := {| ID := AUTO_INCREMENT d; Title := title; Content := content;
                    Created := UTC_TIMESTAMP d;
                    Expires := DATE_ADD_DAY (UTC_TIMESTAMP d) expires |} in
      ({| snippets := snippets d ++ [row]; users := users d;
          UTC_TIMESTAMP := UTC_TIMESTAMP d;
          AUTO_INCREMENT := AUTO_INCREMENT d + 1;
          driverErr := driverErr d |}, inl (ID row))
  end.

(** The rows a SELECT on snippets yields for a WHERE condition, or the
    driver's error. *)
Definition Query (where_ : Snippet -> bool) (d : DB) : list Snippet + error :=
  match driverErr d with
  | Some err => inr err
  | None => inl (filter (fun s => where_ s = true) (snippets d))
  end.

(** [row.Scan(...)] on the result of [QueryRow]: the first row,
    [sql.ErrNoRows] when there is none, or the deferred query error. *)
Definition Scan (row : list Snippet + error) : Snippet + error :=
  match row with
  | inr err => inr err
  | inl [] => inr sql_ErrNoRows
  | inl (s :: _) => inl s
  end.

(** [ORDER BY id DESC] *)
Definition id_DESC (a b : Snippet) : Prop := ID b <= ID a.

#[global] Instance id_DESC_dec : RelDecision id_DESC.
Proof. intros a b. unfold id_DESC. apply _. Defined.

Definition ORDER_BY_id_DESC (rows : list Snippet) : list Snippet :=
  merge_sort id_DESC rows.

Module SnippetModel.

(** [func (m *SnippetModel) Insert(title, content string, expires int) (int, error)] *)
Definition Insert (title content : string) (expires : Z) (d : DB) : DB * (Z * option error) :=
  match Exec_INSERT title content expires d with
  | (d', inr err) => (d', (0, Some err))
  | (d', inl id) => (d', (id, None))
  end.

(** The WHERE clause of [Get]: [expires > UTC_TIMESTAMP() AND id = ?] *)
Definition Get_where (d : DB) (id : Z) (s : Snippet) : bool :=
  bool_decide (UTC_TIMESTAMP d < Expires s) && bool_decide (ID s = id).

(** [func (m *SnippetModel) Get(id int)], returning a [Snippet] pointer and an error *)
Definition Get (id : Z) (d : DB) : option Snippet * option error :=
  let row := Query (Get_where d id) d in
  match Scan row with
  | inr err =>
      if errors_Is err sql_ErrNoRows then (None, Some ErrNoRecord)
      else (None, Some err)
  | inl s => (Some s, None)
  end.

(** [func (m *SnippetModel) Latest() ([]*Snippet, error)] *)
Definition Latest (d : DB) : list Snippet * option error :=
  match Query (fun s => bool_decide (UTC_TIMESTAMP d < Expires s)) d with
  | inr err => ([], Some err)
  | inl rows => (take 10 (ORDER_BY_id_DESC rows), None)
  end.

End SnippetModel.

(** [type SnippetModelInterface interface]: an implementation acts on the
    database it holds. *)
Module SnippetModelInterface.
Record t : Type := {
  Insert : string -> string -> Z -> DB -> DB * (Z * option error);
  Get : Z -> DB -> DB * (option Snippet * option error);
  Latest : DB -> DB * (list Snippet * option error)
}.
End SnippetModelInterface.

(** [&models.SnippetModel{DB: db}] as a [SnippetModelInterface] *)
Definition SnippetModel_impl : SnippetModelInterface.t := {|
  SnippetModelInterface.Insert := SnippetModel.Insert;
  SnippetModelInterface.Get := fun id d => (d, SnippetModel.Get id d);
  SnippetModelInterface.Latest := fun d => (d, SnippetModel.Latest d)
|}.

(** [type UserModelInterface interface].  internal/models/users.go is not
    among the sources; the handlers call [Insert], and the authenticate
    step of the specification needs [ExistsByID]. *)
Module UserModelInterface.
Record t : Type := {
  Insert : string -> string -> string -> DB -> DB * option error;
  ExistsByID : Z -> DB -> DB * bool
}.
End UserModelInterface.

Module UserModel.

(** Modelled from the spec: internal/models/users.go is missing.
    "InsertUser(name, email, password) -> new id or DuplicateEmail when
    email uniqueness is violated"; the handler only sees the error.  The
    password hash is the function [hash]. *)
Definition Insert (hash : string -> string) (name email password : string) (d : DB)
  : DB * option error :=
  match driverErr d with
  | Some err => (d, Some err)
  | None =>
      if bool_decide (Exists (fun u => Email u = email) (users d))
      then (d, Some ErrDuplicateEmail)
      else
        let u := {| UserID := Z.of_nat (length (users d)) + 1; Name := name;
                    Email := email; HashedPassword := hash password;
                    UserCreated := UTC_TIMESTAMP d |} in
        ({| snippets := snippets d; users := users d ++ [u];
            UTC_TIMESTAMP := UTC_TIMESTAMP d;
            AUTO_INCREMENT := AUTO_INCREMENT d;
            driverErr := driverErr d |}, None)
  end.

(** Modelled from the spec: "ExistsByID(id) -> boolean". *)
Definition ExistsByID (id : Z) (d : DB) : bool :=
  bool_decide (Exists (fun u => UserID u = id) (users d)).

End UserModel.

Definition UserModel_impl (hash : string -> string) : UserModelInterface.t := {|
  UserModelInterface.Insert := UserModel.Insert hash;
  UserModelInterface.ExistsByID := fun id d => (d, UserModel.ExistsByID id d)
|}.

End models.

(** ** internal/models/mocks *)

Module mocks.

(** [var mockSnippet]; [t0] is what [time.Now()] returned when the package
    was initialised. *)
Definition mockSnippet (t0 : Z) : models.Snippet := {|
  models.ID := 1;
  models.Title := "An old silent pond";
  models.Content := "with an old rusted sword in it";
  models.Created := t0;
  models.Expires := t0
|}.

Module SnippetModel.

Definition Insert (title content : string) (expires : Z) : Z * option error :=
  (2, None).

Definition Get (t0 : Z) (id : Z) : option models.Snippet * option error :=
  if decide (id = 1) then (Some (mockSnippet t0), None)
  else (None, Some ErrNoRecord).

Definition Latest (t0 : Z) : list models.Snippet * option error :=
  ([mockSnippet t0], None).

End SnippetModel.

(** [&mocks.SnippetModel{}] as a [SnippetModelInterface] *)
Definition SnippetModel_impl (t0 : Z) : models.SnippetModelInterface.t := {|
  models.SnippetModelInterface.Insert := fun title content expires d =>
    (d, SnippetModel.Insert title content expires);
  models.SnippetModelInterface.Get := fun id d => (d, SnippetModel.Get t0 id);
  models.SnippetModelInterface.Latest := fun d => (d, SnippetModel.Latest t0)
|}.

End mocks.

(** ** strconv *)

Module strconv.

Definition digit (c : ascii) : option Z :=
  let n := Z.of_nat (nat_of_ascii c) in
  if bool_decide (48 <= n <= 57) then Some (n - 48) else None.

(** The value of a string of decimal digits, read left to right. *)
Fixpoint digits (s : string) (acc : Z) : option Z :=
  match s with
  | EmptyString => Some acc
  | String c rest =>
      match digit c with
      | Some d => digits rest (acc * 10 + d)
      | None => None
      end
  end.

Definition ErrSyntax (fn s : string) : error :=
  errorString ("strconv." +:+ fn +:+ ": parsing " +:+ s +:+ ": invalid syntax").
Definition ErrRange (fn s : string) : error :=
  errorString ("strconv." +:+ fn +:+ ": parsing " +:+ s +:+ ": value out of range").

Definition minInt : Z := - 2 ^ 63.
Definition maxInt : Z := 2 ^ 63 - 1.

(** [strconv.ParseInt(s, 10, 64)]: an optional sign, then one or more
    decimal digits; a value outside the 64-bit range is an error. *)
Definition ParseInt (fn s : string) : Z * option error :=
  let '(neg, body) :=
    match s with
    | String "-"%char rest => (true, rest)
    | String "+"%char rest => (false, rest)
    | _ => (false, s)
    end in
  match body with
  | EmptyString => (0, Some (ErrSyntax fn s))
  | _ =>
      match digits body 0 with
      | None => (0, Some (ErrSyntax fn s))
      | Some n =>
          let v := if neg then - n else n in
          if bool_decide (v < minInt) then (minInt, Some (ErrRange fn s))
          else if bool_decide (maxInt < v) then (maxInt, Some (ErrRange fn s))
          else (v, None)
      end
  end.

(** [strconv.Atoi(s)], on a platform whose [int] has 64 bits. *)
Definition Atoi (s : string) : Z * option error := ParseInt "Atoi" s.

End strconv.

(** ** internal/validator *)

Module validator.

(** Modelled from the spec: internal/validator is missing.  "fieldErrors:
    mapping field -> ordered list of messages". *)
Record Validator : Type := { FieldErrors : gmap string (list string) }.

Definition zero : Validator := {| FieldErrors := ∅ |}.

(** Modelled from the spec: "Valid iff fieldErrors is empty". *)
Definition Valid (v : Validator) : bool := bool_decide (FieldErrors v = ∅).

(** Modelled from the spec: a failing check "appends a field-keyed
    message". *)
Definition AddFieldError (key message : string) (v : Validator) : Validator :=
  {| FieldErrors := <[key := default [] (FieldErrors v !! key) ++ [message]]> (FieldErrors v) |}.

(** Modelled from the spec: "each failing check appends a field-keyed
    message rather than aborting on first failure". *)
Definition CheckField (ok : bool) (key message : string) (v : Validator) : Validator :=
  if ok then v else AddFieldError key message v.

Definition isSpace (c : ascii) : bool :=
  let n := nat_of_ascii c in
  bool_decide (n = 32%nat) || bool_decide (9 <= n <= 13)%nat.

Fixpoint allSpace (s : string) : bool :=
  match s with
  | EmptyString => true
  | String c rest => isSpace c && allSpace rest
  end.

(** Modelled from the spec: the "not-blank" check; a value is blank when
    it is empty or consists of white space only. *)
Definition NotBlank (value : string) : bool := negb (allSpace value).

(** Where the decoding of UTF-8 stands between two bytes: at the start of
    a character, or inside one, with the number of its bytes seen, the
    number still to come, and the range the next byte has to lie in. *)
Inductive utf8State : Type :=
| AtStart
| Inside (seen remaining lo hi : nat).

(** A byte at the start of a character: the state after it, and the number
    of characters it completes.  A byte below 128 is a character; a byte
    that cannot begin a character counts as one. *)
Definition utf8First (b : nat) : utf8State * nat :=
  if bool_decide (b < 128)%nat then (AtStart, 1%nat)
  else if bool_decide (194 <= b <= 223)%nat then (Inside 1 1 128 191, 0%nat)
  else if bool_decide (b = 224)%nat then (Inside 1 2 160 191, 0%nat)
  else if bool_decide (b = 237)%nat then (Inside 1 2 128 159, 0%nat)
  else if bool_decide (225 <= b <= 239)%nat then (Inside 1 2 128 191, 0%nat)
  else if bool_decide (b = 240)%nat then (Inside 1 3 144 191, 0%nat)
  else if bool_decide (241 <= b <= 243)%nat then (Inside 1 3 128 191, 0%nat)
  else if bool_decide (b = 244)%nat then (Inside 1 3 128 143, 0%nat)
  else (AtStart, 1%nat).

(** One byte further.  A byte that does not continue the character breaks
    it off: each of the bytes seen counts as a character, and the byte is
    read as the start of the next. *)
Definition utf8Step (st : utf8State) (b : nat) : utf8State * nat :=
  match st with
  | AtStart => utf8First b
  | Inside seen remaining lo hi =>
      if bool_decide (lo <= b <= hi)%nat then
        match remaining with
        | 1%nat => (AtStart, 1%nat)
        | _ => (Inside (S seen) (remaining - 1) 128 191, 0%nat)
        end
      else
        let '(st', k) := utf8First b in (st', (seen + k)%nat)
  end.

Fixpoint countFrom (st : utf8State) (s : string) : nat :=
  match s with
  | EmptyString =>
      match st with
      | AtStart => 0%nat
      | Inside seen _ _ _ => seen
      end
  | String c rest =>
      let '(st', k) := utf8Step st (nat_of_ascii c) in
      (k + countFrom st' rest)%nat
  end.

(** The number of characters of a string, which is a sequence of bytes in
    UTF-8 ([utf8.RuneCountInString]): a character of several bytes counts
    once, a byte outside of a well-formed character counts as one. *)
Definition RuneCountInString (s : string) : nat := countFrom AtStart s.

(** Modelled from the spec: the "max-length" check, on the number of
    characters of the value. *)
Definition MaxChars (value : string) (n : Z) : bool :=
  bool_decide (Z.of_nat (RuneCountInString value) <= n).

(** Modelled from the spec: the "min-length" check, on the number of
    characters of the value. *)
Definition MinChars (value : string) (n : Z) : bool :=
  bool_decide (n <= Z.of_nat (RuneCountInString value)).

(** Modelled from the spec: the "membership-in-set" check. *)
Definition PermittedInt (value : Z) (permittedValues : list Z) : bool :=
  bool_decide (value ∈ permittedValues).

(** Modelled from the spec: the "pattern match" check; a compiled regular
    expression is the set of strings it matches. *)
Definition Matches (value : string) (rx : string -> bool) : bool := rx value.

End validator.

(** ** cmd/web: the form structs of handlers.go *)

Module snippetCreateForm.
Record t : Type := {
  Title : string;
  Content : string;
  Expires : Z;
  Validator : validator.Validator
}.

Definition zero : t :=
  {| Title := ""; Content := ""; Expires := 0; Validator := validator.zero |}.

(** The methods promoted from the embedded [validator.Validator]. *)
Definition CheckField (ok : bool) (key message : string) (f : t) : t :=
  {| Title := Title f; Content := Content f; Expires := Expires f;
     Validator := validator.CheckField ok key message (Validator f) |}.
Definition Valid (f : t) : bool := validator.Valid (Validator f).
End snippetCreateForm.

Module userSignupForm.
Record t : Type := {
  Name : string;
  Email : string;
  Password : string;
  Validator : validator.Validator
}.

Definition zero : t :=
  {| Name := ""; Email := ""; Password := ""; Validator := validator.zero |}.

Definition CheckField (ok : bool) (key message : string) (f : t) : t :=
  {| Name := Name f; Email := Email f; Password := Password f;
     Validator := validator.CheckField ok key message (Validator f) |}.
Definition AddFieldError (key message : string) (f : t) : t :=
  {| Name := Name f; Email := Email f; Password := Password f;
     Validator := validator.AddFieldError key message (Validator f) |}.
Definition Valid (f : t) : bool := validator.Valid (Validator f).
End userSignupForm.

(** Go's [any], for the values the application stores in it: the [Form]
    field of the template data and the destination of the form decoder. *)
Inductive any : Type :=
| anyNil
| anySnippetCreateForm (f : snippetCreateForm.t)
| anyUserSignupForm (f : userSignupForm.t).

(** ** github.com/go-playground/form *)

Module form.

(** [url.Values] *)
Abbreviation Values := (gmap string (list string)).

Inductive DecodeError : Type :=
| InvalidDecoderError
| DecodeErrors (errs : list error).

(** A string field takes the first value submitted under its name and is
    left alone when there is none. *)
Definition setString (values : Values) (name : string) (old : string) : string :=
  match values !! name with
  | Some (v :: _) => v
  | _ => old
  end.

(** An integer field takes the first value submitted under its name,
    parsed; an empty or missing value leaves it alone, and one that does
    not parse is a decode error. *)
Definition setInt (values : Values) (name : string) (old : Z) : Z * list error :=
  match values !! name with
  | Some (v :: _) =>
      if bool_decide (v = "") then (old, [])
      else match strconv.ParseInt "ParseInt" v with
           | (n, None) => (n, [])
           | (_, Some err) => (old, [err])
           end
  | _ => (old, [])
  end.

(** [decoder.Decode(dst, values)] for a pointer [dst] to one of the form
    structs, following their [form:] tags; any other [dst] is an
    [InvalidDecoderError].  The struct behind [dst] is updated in place,
    so it is returned. *)
Definition Decode (dst : any) (values : Values) : any * option DecodeError :=
  match dst with
  | anyNil => (anyNil, Some InvalidDecoderError)
  | anySnippetCreateForm f =>
      let '(expires, errs) := setInt values "expires" (snippetCreateForm.Expires f) in
      let f' := {| snippetCreateForm.Title := setString values "title" (snippetCreateForm.Title f);
                   snippetCreateForm.Content := setString values "content" (snippetCreateForm.Content f);
                   snippetCreateForm.Expires := expires;
                   snippetCreateForm.Validator := snippetCreateForm.Validator f |} in
      (anySnippetCreateForm f', match errs with [] => None | _ => Some (DecodeErrors errs) end)
  | anyUserSignupForm f =>
      let f' := {| userSignupForm.Name := setString values "name" (userSignupForm.Name f);
                   userSignupForm.Email := setString values "email" (userSignupForm.Email f);
                   userSignupForm.Password := setString values "password" (userSignupForm.Password f);
                   userSignupForm.Validator := userSignupForm.Validator f |} in
      (anyUserSignupForm f', None)
  end.

End form.

(** ** The request, the template data and the state a handler acts on *)

(** A value stored in the session ([scs] keeps [interface{}] values). *)
Inductive Value : Type :=
| VString (s : string)
| VInt (n : Z).

#[global] Instance Value_eq_dec : EqDecision Value.
Proof. solve_decision. Defined.

(** [*http.Request], with what the middleware has put into its context. *)
Record Request : Type := {
  Method : string;
  URLPath : string;
  RemoteAddr : string;
  (** the session token of the cookie, when the request carries one *)
  Cookie : option string;
  (** what [r.ParseForm()] makes of the body: [r.PostForm], or its error *)
  ParseForm : form.Values + error;
  (** [httprouter.ParamsFromContext(r.Context())] *)
  Params : list (string * string);
  (** [r.Context().Value(isAuthenticatedContextKey)] *)
  ctxIsAuthenticated : option bool;
  (** the user id the authenticate step has put into the context *)
  ctxUserID : option Z;
  (** [nosurf.Token(r)] *)
  ctxCSRFToken : string
}.

(** [r.WithContext(ctx)] for each of the context values. *)
Definition withParams (ps : list (string * string)) (r : Request) : Request :=
  {| Method := Method r; URLPath := URLPath r; RemoteAddr := RemoteAddr r;
     Cookie := Cookie r; ParseForm := ParseForm r; Params := ps;
     ctxIsAuthenticated := ctxIsAuthenticated r; ctxUserID := ctxUserID r;
     ctxCSRFToken := ctxCSRFToken r |}.

Definition withAuthenticated (id : Z) (r : Request) : Request :=
  {| Method := Method r; URLPath := URLPath r; RemoteAddr := RemoteAddr r;
     Cookie := Cookie r; ParseForm := ParseForm r; Params := Params r;
     ctxIsAuthenticated := Some true; ctxUserID := Some id;
     ctxCSRFToken := ctxCSRFToken r |}.

Definition withCSRFToken (token : string) (r : Request) : Request :=
  {| Method := Method r; URLPath := URLPath r; RemoteAddr := RemoteAddr r;
     Cookie := Cookie r; ParseForm := ParseForm r; Params := Params r;
     ctxIsAuthenticated := ctxIsAuthenticated r; ctxUserID := ctxUserID r;
     ctxCSRFToken := token |}.

Definition PostForm (r : Request) : form.Values :=
  match ParseForm r with
  | inl values => values
  | inr _ => ∅
  end.

(** [params.ByName(name)]: the first parameter of that name, or "". *)
Fixpoint ByName (params : list (string * string)) (name : string) : string :=
  match params with
  | [] => ""
  | (k, v) :: rest => if bool_decide (k = name) then v else ByName rest name
  end.

(** [type templateData struct] (cmd/web/templates.go), with the fields the
    helpers and handlers set. *)
Record templateData : Type := {
  CurrentYear : Z;
  Snippet : option models.Snippet;
  Snippets : list models.Snippet;
  Form : any;
  Flash : string;
  IsAuthenticated : bool;
  CSRFToken : string
}.

Definition withSnippet (snippet : option models.Snippet) (data : templateData) : templateData :=
  {| CurrentYear := CurrentYear data; Snippet := snippet; Snippets := Snippets data;
     Form := Form data; Flash := Flash data; IsAuthenticated := IsAuthenticated data;
     CSRFToken := CSRFToken data |}.

Definition withSnippets (snippets : list models.Snippet) (data : templateData) : templateData :=
  {| CurrentYear := CurrentYear data; Snippet := Snippet data; Snippets := snippets;
     Form := Form data; Flash := Flash data; IsAuthenticated := IsAuthenticated data;
     CSRFToken := CSRFToken data |}.

Definition withForm (f : any) (data : templateData) : templateData :=
  {| CurrentYear := CurrentYear data; Snippet := Snippet data; Snippets := Snippets data;
     Form := f; Flash := Flash data; IsAuthenticated := IsAuthenticated data;
     CSRFToken := CSRFToken data |}.

(** A compiled template set ([*template.Template]), seen through
    [ExecuteTemplate(wr, name, data)]: the bytes it writes to [wr], in
    order, until it is done or fails, and the error it returns.  A template
    that fails half way has already written the first half. *)
Record Template : Type := {
  ExecuteTemplate : string -> templateData -> string * option error
}.

(** A call on the session backend. *)
Inductive SessionCall : Type :=
| SessionLoad (token : string)
| SessionCommit (token : string).

#[global] Instance SessionCall_eq_dec : EqDecision SessionCall.
Proof. solve_decision. Defined.

(** A call on [app.snippets] or [app.users]. *)
Inductive StoreCall : Type :=
| CallInsert (title content : string) (expires : Z)
| CallGet (id : Z)
| CallLatest
| CallUserInsert (name email password : string)
| CallUserExists (id : Z).

#[global] Instance StoreCall_eq_dec : EqDecision StoreCall.
Proof. solve_decision. Defined.

(** What serving a request can read and change.  [errorLog], [infoLog],
    [templateCache] and the session manager are the objects the fields of
    [application] point to; [resp] is the response writer of the request;
    [panicking] holds the value of a panic that is unwinding the stack. *)
Record World : Type := {
  resp : list RespCall;
  errorLog : list string;
  infoLog : list string;
  templateCache : gmap string Template;
  session : gmap string Value;
  sessionToken : string;
  sessionStore : gmap string (gmap string Value);
  sessionCalls : list SessionCall;
  db : models.DB;
  storeCalls : list StoreCall;
  panicking : option string;
  (** what [time.Now().Year()] returns *)
  timeNowYear : Z;
  (** how many random tokens have been drawn *)
  randDrawn : nat
}.

Definition w_call (cs : list RespCall) (s : World) : World :=
  {| resp := resp s ++ cs; errorLog := errorLog s; infoLog := infoLog s;
     templateCache := templateCache s; session := session s;
     sessionToken := sessionToken s; sessionStore := sessionStore s;
     sessionCalls := sessionCalls s; db := db s; storeCalls := storeCalls s;
     panicking := panicking s; timeNowYear := timeNowYear s; randDrawn := randDrawn s |}.

Definition errorLog_Output (line : string) (s : World) : World :=
  {| resp := resp s; errorLog := errorLog s ++ [line]; infoLog := infoLog s;
     templateCache := templateCache s; session := session s;
     sessionToken := sessionToken s; sessionStore := sessionStore s;
     sessionCalls := sessionCalls s; db := db s; storeCalls := storeCalls s;
     panicking := panicking s; timeNowYear := timeNowYear s; randDrawn := randDrawn s |}.

Definition infoLog_Printf (line : string) (s : World) : World :=
  {| resp := resp s; errorLog := errorLog s; infoLog := infoLog s ++ [line];
     templateCache := templateCache s; session := session s;
     sessionToken := sessionToken s; sessionStore := sessionStore s;
     sessionCalls := sessionCalls s; db := db s; storeCalls := storeCalls s;
     panicking := panicking s; timeNowYear := timeNowYear s; randDrawn := randDrawn s |}.

Definition setSession (data : gmap string Value) (s : World) : World :=
  {| resp := resp s; errorLog := errorLog s; infoLog := infoLog s;
     templateCache := templateCache s; session := data;
     sessionToken := sessionToken s; sessionStore := sessionStore s;
     sessionCalls := sessionCalls s; db := db s; storeCalls := storeCalls s;
     panicking := panicking s; timeNowYear := timeNowYear s; randDrawn := randDrawn s |}.

Definition setDB (d : models.DB) (call : StoreCall) (s : World) : World :=
  {| resp := resp s; errorLog := errorLog s; infoLog := infoLog s;
     templateCache := templateCache s; session := session s;
     sessionToken := sessionToken s; sessionStore := sessionStore s;
     sessionCalls := sessionCalls s; db := d; storeCalls := storeCalls s ++ [call];
     panicking := panicking s; timeNowYear := timeNowYear s; randDrawn := randDrawn s |}.

Definition setPanicking (p : option string) (s : World) : World :=
  {| resp := resp s; errorLog := errorLog s; infoLog := infoLog s;
     templateCache := templateCache s; session := session s;
     sessionToken := sessionToken s; sessionStore := sessionStore s;
     sessionCalls := sessionCalls s; db := db s; storeCalls := storeCalls s;
     panicking := p; timeNowYear := timeNowYear s; randDrawn := randDrawn s |}.

(** [panic(v)] *)
Definition panic (v : string) (s : World) : World := setPanicking (Some v) s.

(** ** github.com/alexedwards/scs: the session data of the request *)

Module sessionManager.

(** [app.sessionManager.Put(r.Context(), key, val)] *)
Definition Put (key : string) (val : Value) (s : World) : World :=
  setSession (<[key := val]> (session s)) s.

(** [app.sessionManager.PopString(r.Context(), key)]: the value is removed
    from the session; the result is "" unless it was a string. *)
Definition PopString (key : string) (s : World) : string * World :=
  match session s !! key with
  | None => ("", s)
  | Some (VString str) => (str, setSession (delete key (session s)) s)
  | Some _ => ("", setSession (delete key (session s)) s)
  end.

End sessionManager.

(** ** cmd/web/helpers.go *)

(** [app.serverError(w, err)].  The line written to the error log is the
    message of [err] followed by the stack trace, which is left out. *)
Definition serverError (err : error) (s : World) : World :=
  let trace := Error err in
  let s := errorLog_Output trace s in
  w_call (http.Error (http.StatusText http.StatusInternalServerError)
                     http.StatusInternalServerError) s.

(** [app.clientError(w, status)] *)
Definition clientError (status : Z) (s : World) : World :=
  w_call (http.Error (http.StatusText status) status) s.

(** [app.notFound(w)] *)
Definition notFound (s : World) : World :=
  clientError http.StatusNotFound s.

(** [buf.WriteTo(w)]: one [Write] of the contents, none for an empty
    buffer. *)
Definition WriteTo (buf : string) : list RespCall :=
  if bool_decide (buf = "") then [] else [Write buf].

(** [app.render(w, status, page, data)] *)
Definition render (status : Z) (page : string) (data : templateData) (s : World) : World :=
  match templateCache s !! page with
  | None =>
      let err := errorString ("the template " +:+ page +:+ " does not exist") in
      serverError err s
  | Some ts =>
      let buf := "" in
      let '(written, err) := ExecuteTemplate ts "base" data in
      let buf := buf +:+ written in
      match err with
      | Some err => serverError err s
      | None =>
          let s := w_call [WriteHeader status] s in
          w_call (WriteTo buf) s
      end
  end.

(** [app.isAuthenticated(r)] *)
Definition isAuthenticated (r : Request) : bool :=
  match ctxIsAuthenticated r with
  | None => false
  | Some isAuthenticated => isAuthenticated
  end.

(** [app.newTemplateData(r)] *)
Definition newTemplateData (r : Request) (s : World) : templateData * World :=
  let year := timeNowYear s in
  let '(flash, s) := sessionManager.PopString "flash" s in
  ({| CurrentYear := year;
      Snippet := None;
      Snippets := [];
      Form := anyNil;
      Flash := flash;
      IsAuthenticated := isAuthenticated r;
      CSRFToken := ctxCSRFToken r |}, s).

(** The error value of a failed [Decode] that is not an
    [InvalidDecoderError]. *)
Definition DecodeErrors_error (errs : list error) : error :=
  errorString (fold_right (fun e acc => Error e +:+ nl +:+ acc) "" errs).

(** [app.decodePostForm(r, dst)]: the struct behind [dst] after the call
    and the error returned, or the value of the panic when the decoder was
    given an invalid destination. *)
Definition decodePostForm (r : Request) (dst : any) : any * option error + string :=
  match ParseForm r with
  | inr err => inl (dst, Some err)
  | inl values =>
      match form.Decode dst values with
      | (dst, Some form.InvalidDecoderError) => inr "form: InvalidDecoderError"
      | (dst, Some (form.DecodeErrors errs)) => inl (dst, Some (DecodeErrors_error errs))
      | (dst, None) => inl (dst, None)
      end
  end.

(** The calls of a generic 500 response. *)
Definition generic500 : list RespCall :=
  [ HeaderSet "Content-Type" "text/plain; charset=utf-8";
    HeaderSet "X-Content-Type-Options" "nosniff";
    WriteHeader 500;
    Write ("Internal Server Error" +:+ nl) ].

(** The double quote character. *)
Definition dq : string := String "034"%char "".

(** [http.Redirect(w, r, url, code)] for a [url] that is a clean absolute
    path of ASCII characters without HTML special characters, which net/http
    leaves as it is. *)
Definition http_Redirect (r : Request) (url : string) (code : Z) (s : World) : World :=
  let hadCT := bool_decide (is_Some (headerOf (resp s) ∅ !! "Content-Type")) in
  let s := w_call [HeaderSet "Location" url] s in
  let s :=
    if negb hadCT && (bool_decide (Method r = "GET") || bool_decide (Method r = "HEAD"))
    then w_call [HeaderSet "Content-Type" "text/html; charset=utf-8"] s
    else s in
  let s := w_call [WriteHeader code] s in
  if negb hadCT && bool_decide (Method r = "GET")
  then
    let body := "<a href=" +:+ dq +:+ url +:+ dq +:+ ">" +:+ http.StatusText code +:+ "</a>." +:+ nl in
    w_call [Write (body +:+ nl)] s
  else s.

(** ** cmd/web/main.go: the application struct *)

(** [type application struct]: the two models, which are interface values.
    The loggers, the template cache, the form decoder and the session
    manager are reached through the state. *)
Record application : Type := {
  snippets : models.SnippetModelInterface.t;
  users : models.UserModelInterface.t
}.

(** ** cmd/web/handlers.go *)

Definition theSnippetCreateForm (dst : any) : snippetCreateForm.t :=
  match dst with
  | anySnippetCreateForm f => f
  | _ => snippetCreateForm.zero
  end.

Definition theUserSignupForm (dst : any) : userSignupForm.t :=
  match dst with
  | anyUserSignupForm f => f
  | _ => userSignupForm.zero
  end.

(** The four checks of [snippetCreatePost], in the order of the source. *)
Definition snippetCreateChecks (form : snippetCreateForm.t) : snippetCreateForm.t :=
  let form := snippetCreateForm.CheckField
    (validator.NotBlank (snippetCreateForm.Title form))
    "title" "This field cannot be blank" form in
  let form := snippetCreateForm.CheckField
    (validator.MaxChars (snippetCreateForm.Title form) 100)
    "title" "This field cannot be more than 100 characters long" form in
  let form := snippetCreateForm.CheckField
    (validator.NotBlank (snippetCreateForm.Content form))
    "content" "This field cannot be blank" form in
  let form := snippetCreateForm.CheckField
    (validator.PermittedInt (snippetCreateForm.Expires form) [1; 7; 365])
    "expires" "This field must equal 1, 7 or 365" form in
  form.

(** The request carries a snippet-create submission that the decoder
    accepts and turns into [f]. *)
Definition decodesTo (r : Request) (f : snippetCreateForm.t) : Prop :=
  ∃ values, ParseForm r = inl values ∧
    form.Decode (anySnippetCreateForm snippetCreateForm.zero) values
      = (anySnippetCreateForm f, None).

(** The request carries a signup submission that the decoder turns into
    [f]. *)
Definition signupDecodesTo (r : Request) (f : userSignupForm.t) : Prop :=
  ∃ values, ParseForm r = inl values ∧
    form.Decode (anyUserSignupForm userSignupForm.zero) values
      = (anyUserSignupForm f, None).

Section Handlers.

Variable app : application.

(** [validator.EmailRX], the compiled pattern of an email address
    (internal/validator is missing). *)
Variable EmailRX : string -> bool.

(** [func (app *application) home(w, r)] *)
Definition home (r : Request) (s : World) : World :=
  let '(d, (snippets, err)) := models.SnippetModelInterface.Latest (snippets app) (db s) in
  let s := setDB d CallLatest s in
  match err with
  | Some err => serverError err s
  | None =>
      let '(data, s) := newTemplateData r s in
      let data := withSnippets snippets data in
      render http.StatusOK "home.tmpl" data s
  end.

(** [func (app *application) snippetView(w, r)] *)
Definition snippetView (r : Request) (s : World) : World :=
  let params := Params r in
  let '(id, err) := strconv.Atoi (ByName params "id") in
  if bool_decide (err ≠ None) || bool_decide (id < 1) then notFound s
  else
    let '(d, (snippet, err)) := models.SnippetModelInterface.Get (snippets app) id (db s) in
    let s := setDB d (CallGet id) s in
    match err with
    | Some err =>
        if errors_Is err ErrNoRecord then notFound s
        else serverError err s
    | None =>
        let '(data, s) := newTemplateData r s in
        let data := withSnippet snippet data in
        render http.StatusOK "view.tmpl" data s
    end.

(** [func (app *application) snippetCreate(w, r)] *)
Definition snippetCreate (r : Request) (s : World) : World :=
  let '(data, s) := newTemplateData r s in
  let data := withForm (anySnippetCreateForm
    {| snippetCreateForm.Title := ""; snippetCreateForm.Content := "";
       snippetCreateForm.Expires := 365;
       snippetCreateForm.Validator := validator.zero |}) data in
  render http.StatusOK "create.tmpl" data s.

(** [func (app *application) snippetCreatePost(w, r)] *)
Definition snippetCreatePost (r : Request) (s : World) : World :=
  let form := anySnippetCreateForm snippetCreateForm.zero in
  match decodePostForm r form with
  | inr v => panic v s
  | inl (form, Some err) => clientError http.StatusBadRequest s
  | inl (form, None) =>
      let '(form, err) := form.Decode form (PostForm r) in
      if bool_decide (err ≠ None) then clientError http.StatusBadRequest s
      else
        let form := snippetCreateChecks (theSnippetCreateForm form) in
        if negb (snippetCreateForm.Valid form) then
          let '(data, s) := newTemplateData r s in
          let data := withForm (anySnippetCreateForm form) data in
          render http.StatusUnprocessableEntity "create.tmpl" data s
        else
          let '(d, (id, err)) :=
            models.SnippetModelInterface.Insert (snippets app)
              (snippetCreateForm.Title form) (snippetCreateForm.Content form)
              (snippetCreateForm.Expires form) (db s) in
          let s := setDB d (CallInsert (snippetCreateForm.Title form)
                              (snippetCreateForm.Content form)
                              (snippetCreateForm.Expires form)) s in
          match err with
          | Some err => serverError err s
          | None =>
              let s := sessionManager.Put "flash" (VString "Snippet successfully created!") s in
              http_Redirect r ("/snippet/view/" +:+ pretty id) http.StatusSeeOther s
          end
  end.

(** [func (app *application) userSignup(w, r)] *)
Definition userSignup (r : Request) (s : World) : World :=
  let '(data, s) := newTemplateData r s in
  let data := withForm (anyUserSignupForm userSignupForm.zero) data in
  render http.StatusOK "signup.tmpl" data s.

(** The five checks of [userSignupPost], in the order of the source. *)
Definition userSignupChecks (form : userSignupForm.t) : userSignupForm.t :=
  let form := userSignupForm.CheckField
    (validator.NotBlank (userSignupForm.Name form))
    "name" "This field cannot be blank" form in
  let form := userSignupForm.CheckField
    (validator.NotBlank (userSignupForm.Email form))
    "email" "This field cannot be blank" form in
  let form := userSignupForm.CheckField
    (validator.Matches (userSignupForm.Email form) EmailRX)
    "email" "This field must be a valid email address" form in
  let form := userSignupForm.CheckField
    (validator.NotBlank (userSignupForm.Password form))
    "password" "This field cannot be blank" form in
  let form := userSignupForm.CheckField
    (validator.MinChars (userSignupForm.Password form) 8)
    "password" "This field must be at least 8 characters long" form in
  form.

(** [func (app *application) userSignupPost(w, r)].  The [if err != nil]
    block around the insert has no [return]: whatever the insert yields,
    control reaches the flash message and the redirect below it. *)
Definition userSignupPost (r : Request) (s : World) : World :=
  let form := anyUserSignupForm userSignupForm.zero in
  match decodePostForm r form with
  | inr v => panic v s
  | inl (form, Some err) => clientError http.StatusBadRequest s
  | inl (form, None) =>
      let form := userSignupChecks (theUserSignupForm form) in
      if negb (userSignupForm.Valid form) then
        let '(data, s) := newTemplateData r s in
        let data := withForm (anyUserSignupForm form) data in
        render http.StatusUnprocessableEntity "signup.tmpl" data s
      else
        let '(d, err) :=
          models.UserModelInterface.Insert (users app)
            (userSignupForm.Name form) (userSignupForm.Email form)
            (userSignupForm.Password form) (db s) in
        let s := setDB d (CallUserInsert (userSignupForm.Name form)
                            (userSignupForm.Email form)
                            (userSignupForm.Password form)) s in
        let s :=
          match err with
          | Some err =>
              if errors_Is err ErrDuplicateEmail then
                let form := userSignupForm.AddFieldError "email" "Email address is already in use" form in
                let '(data, s) := newTemplateData r s in
                let data := withForm (anyUserSignupForm form) data in
                render http.StatusUnprocessableEntity "signup.tmpl" data s
              else serverError err s
          | None => s
          end in
        let s := sessionManager.Put "flash" (VString "Your signup was succesful. Please log in") s in
        http_Redirect r "/user/login" http.StatusSeeOther s
  end.

(** [func (app *application) userLogin(w, r)] *)
Definition userLogin (r : Request) (s : World) : World :=
  w_call [Write ("Display a HTML form for logging in  a user" +:+ nl)] s.

(** [func (app *application) userLoginPost(w, r)] *)
Definition userLoginPost (r : Request) (s : World) : World :=
  w_call [Write ("Authenticate and login the user..." +:+ nl)] s.

(** [func (app *application) userLogoutPost(w, r)] *)
Definition userLogoutPost (r : Request) (s : World) : World :=
  w_call [Write ("Logout the user..." +:+ nl)] s.

End Handlers.

(** ** Handlers and middleware *)

(** [http.Handler] *)
Definition http_Handler : Type := Request -> World -> World.

(** ** github.com/justinas/alice *)

Module alice.

(** [type Constructor func(http.Handler) http.Handler] *)
Definition Constructor : Type := http_Handler -> http_Handler.

(** [type Chain struct] *)
Record Chain : Type := { constructors : list Constructor }.

(** [alice.New(constructors...)] *)
Definition New (cs : list Constructor) : Chain := {| constructors := cs |}.

(** [c.Then(h)]: the loop applies the constructors to [h] from the last
    one to the first. *)
Definition Then (c : Chain) (h : http_Handler) : http_Handler :=
  fold_left (fun h constructor => constructor h) (rev (constructors c)) h.

(** [c.ThenFunc(fn)] *)
Definition ThenFunc (c : Chain) (fn : http_Handler) : http_Handler := Then c fn.

(** [c.Append(constructors...)] *)
Definition Append (c : Chain) (cs : list Constructor) : Chain :=
  {| constructors := constructors c ++ cs |}.

End alice.

(** ** github.com/julienschmidt/httprouter *)

Module httprouter.

Record Route : Type := {
  method : string;
  pattern : string;
  handle : http_Handler
}.

(** The router: its routes in the order of registration and the
    [NotFound] handler.  The redirects it offers for a path that differs
    from a registered one by a trailing slash or by case are left out. *)
Record Router : Type := {
  table : list Route;
  NotFound : option http_Handler
}.

Definition New : Router := {| table := []; NotFound := None |}.

Definition setNotFound (h : http_Handler) (router : Router) : Router :=
  {| table := table router; NotFound := Some h |}.

(** [router.Handler(method, path, handler)] *)
Definition Handler (method path : string) (handler : http_Handler) (router : Router) : Router :=
  {| table := table router ++ [{| method := method; pattern := path; handle := handler |}];
     NotFound := NotFound router |}.

(** [router.HandlerFunc(method, path, handler)] *)
Definition HandlerFunc (method path : string) (handler : http_Handler) (router : Router) : Router :=
  Handler method path handler router.

(** The segments of a path between its slashes: "/a/b" is [a; b] and "/"
    is one empty segment. *)
Fixpoint splitAcc (s : string) (cur : string) : list string :=
  match s with
  | EmptyString => [cur]
  | String c rest =>
      if bool_decide (c = "/"%char) then cur :: splitAcc rest ""
      else splitAcc rest (cur +:+ String c "")
  end.

Definition segments (path : string) : list string :=
  match path with
  | String "/"%char rest => splitAcc rest ""
  | _ => splitAcc path ""
  end.

Fixpoint joinSegments (segs : list string) : string :=
  match segs with
  | [] => ""
  | seg :: rest => "/" +:+ seg +:+ joinSegments rest
  end.

(** Matching the segments of a pattern against those of a path: a segment
    [:name] takes one non-empty segment, [*name] takes the rest of the
    path, any other segment has to be equal. *)
Fixpoint matchSegments (pat path : list string) : option (list (string * string)) :=
  match pat, path with
  | [], [] => Some []
  | String "*"%char name :: _, _ :: _ => Some [(name, joinSegments path)]
  | String ":"%char name :: pat', seg :: path' =>
      if bool_decide (seg = "") then None
      else (fun ps => (name, seg) :: ps) <$> matchSegments pat' path'
  | p :: pat', seg :: path' =>
      if bool_decide (p = seg) then matchSegments pat' path' else None
  | _, _ => None
  end.

Definition matchPath (pattern path : string) : option (list (string * string)) :=
  matchSegments (segments pattern) (segments path).

(** The first route registered for the method whose pattern matches. *)
Fixpoint lookupRoute (routes : list Route) (method path : string)
  : option (Route * list (string * string)) :=
  match routes with
  | [] => None
  | rt :: rest =>
      if bool_decide (httprouter.method rt = method) then
        match matchPath (pattern rt) path with
        | Some ps => Some (rt, ps)
        | None => lookupRoute rest method path
        end
      else lookupRoute rest method path
  end.

#[global] Instance string_leb_dec : RelDecision (fun a b : string => String.leb a b = true).
Proof. intros a b. apply _. Defined.

(** [r.allowed(path, reqMethod)]: the other methods registered for the
    path and OPTIONS, sorted and joined. *)
Definition allowed (router : Router) (path reqMethod : string) : string :=
  let ms := remove_dups
    (omap (fun rt =>
       if bool_decide (method rt ≠ reqMethod) && bool_decide (method rt ≠ "OPTIONS")
          && bool_decide (is_Some (matchPath (pattern rt) path))
       then Some (method rt) else None) (table router)) in
  match ms with
  | [] => ""
  | _ =>
      let sorted := merge_sort (fun a b : string => String.leb a b = true) (ms ++ ["OPTIONS"]) in
      match sorted with
      | [] => ""
      | m :: rest => fold_left (fun acc m => acc +:+ ", " +:+ m) rest m
      end
  end.

(** [router.ServeHTTP(w, req)]: the matching route's handler, with the
    parameters of the path in the context of the request; 405 with an
    [Allow] header when the path is registered for other methods only; the
    [NotFound] handler otherwise. *)
Definition ServeHTTP (router : Router) : http_Handler := fun req s =>
  match lookupRoute (table router) (Method req) (URLPath req) with
  | Some (rt, ps) =>
      handle rt (match ps with [] => req | _ => withParams ps req end) s
  | None =>
      let allow := allowed router (URLPath req) (Method req) in
      if negb (bool_decide (Method req = "OPTIONS")) && negb (bool_decide (allow = "")) then
        let s := w_call [HeaderSet "Allow" allow] s in
        w_call (http.Error (http.StatusText http.StatusMethodNotAllowed)
                           http.StatusMethodNotAllowed) s
      else if bool_decide (Method req = "OPTIONS") && negb (bool_decide (allow = "")) then
        w_call [HeaderSet "Allow" allow] s
      else
        match NotFound router with
        | Some h => h req s
        | None => w_call (http.Error "404 page not found" http.StatusNotFound) s
        end
  end.

End httprouter.

(** ** cmd/web/middleware.go *)

(** The functions of cmd/web/middleware.go and the two handlers of
    [routes] that are not in handlers.go, which [routes] is given. *)
Record Interceptors : Type := {
  recoverPanic : alice.Constructor;
  logRequest : alice.Constructor;
  secureHeaders : alice.Constructor;
  LoadAndSave : alice.Constructor;
  noSurf : alice.Constructor;
  authenticate : alice.Constructor;
  requireAuthentication : alice.Constructor;
  ping : http_Handler;
  fileServer : http_Handler
}.

(** What the specification leaves open about the middleware: the security
    headers, the random tokens, the file server and the email pattern. *)
Record Env : Type := {
  securityHeaders : list (string * string);
  newToken : nat -> string;
  staticFiles : http_Handler;
  emailRX : string -> bool
}.

Definition setSessionData (token : string) (data : gmap string Value) (s : World) : World :=
  {| resp := resp s; errorLog := errorLog s; infoLog := infoLog s;
     templateCache := templateCache s; session := data;
     sessionToken := token; sessionStore := sessionStore s;
     sessionCalls := sessionCalls s ++ [SessionLoad token]; db := db s;
     storeCalls := storeCalls s;
     panicking := panicking s; timeNowYear := timeNowYear s; randDrawn := randDrawn s |}.

Definition commitSession (s : World) : World :=
  {| resp := resp s; errorLog := errorLog s; infoLog := infoLog s;
     templateCache := templateCache s; session := session s;
     sessionToken := sessionToken s;
     sessionStore := <[sessionToken s := session s]> (sessionStore s);
     sessionCalls := sessionCalls s ++ [SessionCommit (sessionToken s)]; db := db s;
     storeCalls := storeCalls s;
     panicking := panicking s; timeNowYear := timeNowYear s; randDrawn := randDrawn s |}.

Definition drawToken (s : World) : World :=
  {| resp := resp s; errorLog := errorLog s; infoLog := infoLog s;
     templateCache := templateCache s; session := session s;
     sessionToken := sessionToken s; sessionStore := sessionStore s;
     sessionCalls := sessionCalls s; db := db s; storeCalls := storeCalls s;
     panicking := panicking s; timeNowYear := timeNowYear s; randDrawn := S (randDrawn s) |}.

(** The session keys of the CSRF secret, of the authenticated user and of
    the path requested before login. *)
Definition csrfSecretKey : string := "csrfSecret".
Definition authenticatedUserIDKey : string := "authenticatedUserID".
Definition redirectPathKey : string := "redirectPathAfterLogin".

(** The name of the hidden form field that carries the CSRF token. *)
Definition csrfFormField : string := "csrf_token".

(** Whether any call so far has committed the response. *)
Definition committed (s : World) : bool := existsb commits (resp s).

Section Middleware.

Variable env : Env.
Variable app : application.

(** Modelled from the spec: cmd/web/middleware.go is missing.  recoverPanic
    "catches any panic occurring anywhere downstream, logs message+stack,
    writes a generic 500 if no response has been committed yet, and marks
    the connection for closure". *)
Definition spec_recoverPanic (next : http_Handler) : http_Handler := fun r s =>
  let s := next r s in
  match panicking s with
  | None => s
  | Some v =>
      let s := setPanicking None s in
      let s := w_call [HeaderSet "Connection" "close"] s in
      if committed s then errorLog_Output v s
      else serverError (errorString v) s
  end.

(** Modelled from the spec: cmd/web/middleware.go is missing.  logRequest
    "records method, URL, remote address before dispatch; pure side effect,
    never errors". *)
Definition spec_logRequest (next : http_Handler) : http_Handler := fun r s =>
  let s := infoLog_Printf (RemoteAddr r +:+ " - " +:+ Method r +:+ " " +:+ URLPath r) s in
  next r s.

(** Modelled from the spec: cmd/web/middleware.go is missing.
    secureHeaders "unconditionally sets security-related response headers
    before dispatch". *)
Definition spec_secureHeaders (next : http_Handler) : http_Handler := fun r s =>
  let s := w_call (map (fun kv => HeaderSet kv.1 kv.2) (securityHeaders env)) s in
  next r s.

(** Modelled from the spec: the session manager is a library.
    sessionLoadAndSave "loads session data for the request's token before
    the inner chain runs; after the inner chain returns, persists any
    session mutation and, if the session was new or rotated, sets the
    response cookie"; a session is "created (empty) on first request lacking
    a valid token".  A panic of the inner chain passes through. *)
Definition spec_LoadAndSave (next : http_Handler) : http_Handler := fun r s =>
  let known :=
    match Cookie r with
    | Some token => (fun data => (token, data)) <$> sessionStore s !! token
    | None => None
    end in
  let '(token, data, isNew, s) :=
    match known with
    | Some (token, data) => (token, data, false, s)
    | None => (newToken env (randDrawn s), ∅, true, drawToken s)
    end in
  let s := setSessionData token data s in
  let s := next r s in
  if bool_decide (panicking s ≠ None) then s
  else
    let s := commitSession s in
    if isNew then w_call [HeaderSet "Set-Cookie" ("session=" +:+ token +:+ "; Secure")] s
    else s.

(** The methods that do not change state. *)
Definition safeMethod (m : string) : bool :=
  bool_decide (m ∈ ["GET"; "HEAD"; "OPTIONS"; "TRACE"]).

(** The token submitted with the form, when there is one. *)
Definition submittedToken (r : Request) : option string :=
  match PostForm r !! csrfFormField with
  | Some (v :: _) => Some v
  | _ => None
  end.

(** Modelled from the spec: cmd/web/middleware.go is missing.  The CSRF
    guard, "for state-changing methods (POST and equivalents), compares a
    submitted token against the session-bound secret; mismatch or absence
    short-circuits with a 400 and never invokes the inner handler or mutates
    application state.  For safe methods, ensures a fresh token is available
    for embedding in rendered forms". *)
Definition spec_noSurf (next : http_Handler) : http_Handler := fun r s =>
  if safeMethod (Method r) then
    match session s !! csrfSecretKey with
    | Some (VString secret) => next (withCSRFToken secret r) s
    | _ =>
        let secret := newToken env (randDrawn s) in
        let s := drawToken s in
        let s := sessionManager.Put csrfSecretKey (VString secret) s in
        next (withCSRFToken secret r) s
    end
  else
    match session s !! csrfSecretKey, submittedToken r with
    | Some (VString secret), Some token =>
        if bool_decide (token = secret) then next (withCSRFToken secret r) s
        else clientError http.StatusBadRequest s
    | _, _ => clientError http.StatusBadRequest s
    end.

(** Modelled from the spec: cmd/web/middleware.go is missing.  authenticate
    "reads an optional user id from the session; if present, confirms the
    referenced user still exists in the Store; on success sets
    isAuthenticated=true and userID; on a stale/removed user, clears the
    session's auth entry and proceeds as anonymous.  This step never aborts
    the request". *)
Definition spec_authenticate (next : http_Handler) : http_Handler := fun r s =>
  match session s !! authenticatedUserIDKey with
  | Some (VInt id) =>
      let '(d, exists_) := models.UserModelInterface.ExistsByID (users app) id (db s) in
      let s := setDB d (CallUserExists id) s in
      if exists_ then next (withAuthenticated id r) s
      else
        let s := setSession (delete authenticatedUserIDKey (session s)) s in
        next r s
  | _ => next r s
  end.

(** Modelled from the spec: cmd/web/middleware.go is missing.
    requireAuthentication, "if isAuthenticated is false, stores the
    originally requested path for post-login redirect and issues a redirect
    to the login route, short-circuiting before the handler executes". *)
Definition spec_requireAuthentication (next : http_Handler) : http_Handler := fun r s =>
  if negb (isAuthenticated r) then
    let s := sessionManager.Put redirectPathKey (VString (URLPath r)) s in
    http_Redirect r "/user/login" http.StatusSeeOther s
  else next r s.

(** Modelled from the spec: the ping handler is missing.  "GET /ping always
    returns 200 with body OK". *)
Definition spec_ping : http_Handler := fun r s => w_call [Write "OK"] s.

Definition specInterceptors : Interceptors := {|
  recoverPanic := spec_recoverPanic;
  logRequest := spec_logRequest;
  secureHeaders := spec_secureHeaders;
  LoadAndSave := spec_LoadAndSave;
  noSurf := spec_noSurf;
  authenticate := spec_authenticate;
  requireAuthentication := spec_requireAuthentication;
  ping := spec_ping;
  fileServer := staticFiles env
|}.

End Middleware.

(** ** cmd/web/routes.go *)

Section Routes.

Variable app : application.
Variable EmailRX : string -> bool.
Variable mw : Interceptors.

(** The [dynamic] chain of [routes]. *)
Definition dynamic : alice.Chain :=
  alice.New [LoadAndSave mw; noSurf mw; authenticate mw].

(** The [protected] chain of [routes]. *)
Definition protected : alice.Chain :=
  alice.Append dynamic [requireAuthentication mw].

(** The [standard] chain of [routes]. *)
Definition standard : alice.Chain :=
  alice.New [recoverPanic mw; logRequest mw; secureHeaders mw].

(** The router that [routes] sets up, with its registrations in the order
    of the source. *)
Definition router : httprouter.Router :=
  let router := httprouter.New in
  let router := httprouter.setNotFound (fun r s => notFound s) router in
  let router := httprouter.Handler http.MethodGet "/static/*filepath" (fileServer mw) router in
  let router := httprouter.HandlerFunc http.MethodGet "/ping" (ping mw) router in
  let router := httprouter.Handler http.MethodGet "/" (alice.ThenFunc dynamic (home app)) router in
  let router := httprouter.Handler http.MethodGet "/snippet/view/:id"
                  (alice.ThenFunc dynamic (snippetView app)) router in
  let router := httprouter.Handler http.MethodGet "/user/signup"
                  (alice.ThenFunc dynamic userSignup) router in
  let router := httprouter.Handler http.MethodPost "/user/signup"
                  (alice.ThenFunc dynamic (userSignupPost app EmailRX)) router in
  let router := httprouter.Handler http.MethodGet "/user/login"
                  (alice.ThenFunc dynamic userLogin) router in
  let router := httprouter.Handler http.MethodPost "/user/login"
                  (alice.ThenFunc dynamic userLoginPost) router in
  let router := httprouter.Handler http.MethodGet "/snippet/create"
                  (alice.ThenFunc protected snippetCreate) router in
  let router := httprouter.Handler http.MethodPost "/snippet/create"
                  (alice.ThenFunc protected (snippetCreatePost app)) router in
  let router := httprouter.Handler http.MethodPost "/user/logout"
                  (alice.ThenFunc protected userLogoutPost) router in
  router.

(** [func (app *application) routes() http.Handler] *)
Definition routes : http_Handler :=
  alice.Then standard (httprouter.ServeHTTP router).

End Routes.

(** ** cmd/web/main.go: start-up and serving *)

(** The state in which a request is served: a new response writer, the
    rest as the previous request left it. *)
Definition newRequestState (s : World) : World :=
  {| resp := []; errorLog := errorLog s; infoLog := infoLog s;
     templateCache := templateCache s; session := ∅;
     sessionToken := ""; sessionStore := sessionStore s;
     sessionCalls := sessionCalls s; db := db s; storeCalls := storeCalls s;
     panicking := None; timeNowYear := timeNowYear s; randDrawn := randDrawn s |}.

(** [srv.ListenAndServeTLS]: the requests are served one after the other
    by the handler; the result is the state at the end of each request. *)
Fixpoint ListenAndServe (handler : http_Handler) (requests : list Request) (s : World)
  : list World :=
  match requests with
  | [] => []
  | r :: rest =>
      let s := handler r (newRequestState s) in
      s :: ListenAndServe handler rest s
  end.

(** [main]: the database is opened and the template cache is built, once;
    a failure of either is fatal; then the server serves.  [year] is the
    year of the wall clock. *)
Definition main (env : Env) (openDB : models.DB + error)
    (newTemplateCache : gmap string Template + error) (hash : string -> string)
    (year : Z) (requests : list Request) : list World + error :=
  match openDB with
  | inr err => inr err
  | inl db =>
      match newTemplateCache with
      | inr err => inr err
      | inl templateCache =>
          let app := {| snippets := models.SnippetModel_impl;
                        users := models.UserModel_impl hash |} in
          let s := {| resp := []; errorLog := []; infoLog := [];
                      templateCache := templateCache; session := ∅;
                      sessionToken := ""; sessionStore := ∅; sessionCalls := [];
                      db := db; storeCalls := []; panicking := None;
                      timeNowYear := year; randDrawn := 0 |} in
          let s := infoLog_Printf "Starting server on :4000" s in
          inl (ListenAndServe (routes app (emailRX env) (specInterceptors env app)) requests s)
      end
  end.

(** ** A small installation, for running the definitions *)

Module Sample.

(** A page that prints the form it is given. *)
Definition formPage : Template := {|
  ExecuteTemplate := fun name data =>
    match Form data with
    | anySnippetCreateForm f =>
        ("title=" +:+ snippetCreateForm.Title f +:+ ";content=" +:+ snippetCreateForm.Content f, None)
    | anyUserSignupForm f => ("email=" +:+ userSignupForm.Email f, None)
    | anyNil => ("", None)
    end
|}.

(** A page that fails after it has written the start of its output. *)
Definition brokenPage : Template := {|
  ExecuteTemplate := fun name data => ("<html><body>", Some (errorString "template: no such field"))
|}.

Definition cache : gmap string Template :=
  <["create.tmpl" := formPage]> (<["signup.tmpl" := formPage]> (<["home.tmpl" := brokenPage]> ∅)).

Definition oldSnippet : models.Snippet :=
  {| models.ID := 1; models.Title := "An old silent pond"; models.Content := "...";
     models.Created := 0; models.Expires := 86400 |}.

Definition freshSnippet : models.Snippet :=
  {| models.ID := 2; models.Title := "Over the wintry forest"; models.Content := "...";
     models.Created := 0; models.Expires := 31536000 |}.

Definition alice_ : models.User :=
  {| models.UserID := 1; models.Name := "Alice"; models.Email := "alice@example.com";
     models.HashedPassword := "$2a$12$"; models.UserCreated := 0 |}.

(** A database whose clock stands at the expiry of the first snippet. *)
Definition database : models.DB :=
  {| models.snippets := [oldSnippet; freshSnippet];
     models.users := [alice_];
     models.UTC_TIMESTAMP := 86400;
     models.AUTO_INCREMENT := 3;
     models.driverErr := None |}.

Definition hash (password : string) : string := "$2a$12$" +:+ password.

Definition env : Env :=
  {| securityHeaders := [("X-Frame-Options", "deny"); ("X-Content-Type-Options", "nosniff")];
     newToken := fun n => "token" +:+ pretty n;
     staticFiles := fun r s => w_call [Write "body { }"] s;
     emailRX := fun s => bool_decide ("@"%char ∈ String.list_ascii_of_string s) |}.

Definition app : application :=
  {| snippets := models.SnippetModel_impl; users := models.UserModel_impl hash |}.

(** One session is stored: a signed-in user with a CSRF secret. *)
Definition world : World :=
  {| resp := []; errorLog := []; infoLog := [];
     templateCache := cache;
     session := ∅; sessionToken := "";
     sessionStore := <["c0ffee" := <[csrfSecretKey := VString "s3cret"]>
                                    (<[authenticatedUserIDKey := VInt 1]> ∅)]> ∅;
     sessionCalls := []; db := database; storeCalls := [];
     panicking := None; timeNowYear := 2024; randDrawn := 0 |}.

(** The session of that user, loaded. *)
Definition loaded : World :=
  {| resp := []; errorLog := []; infoLog := [];
     templateCache := cache;
     session := <[csrfSecretKey := VString "s3cret"]> (<[authenticatedUserIDKey := VInt 1]> ∅);
     sessionToken := "c0ffee";
     sessionStore := sessionStore world;
     sessionCalls := [SessionLoad "c0ffee"]; db := database; storeCalls := [];
     panicking := None; timeNowYear := 2024; randDrawn := 0 |}.

Definition request (method path : string) (fields : list (string * string)) : Request :=
  {| Method := method; URLPath := path; RemoteAddr := "203.0.113.7:4711";
     Cookie := Some "c0ffee";
     ParseForm := inl (list_to_map ((fun kv => (kv.1, [kv.2])) <$> fields));
     Params := []; ctxIsAuthenticated := None; ctxUserID := None; ctxCSRFToken := "" |}.

Definition data : templateData :=
  {| CurrentYear := 2024; Snippet := None; Snippets := []; Form := anyNil;
     Flash := ""; IsAuthenticated := false; CSRFToken := "" |}.

End Sample.

(** ** Notions used in the statements *)

(** What only the session middleware, a panic or start-up ever sets: the
    template cache, the calls on the session backend, the token and the
    store of the sessions, and the panic that is unwinding. *)
Definition backstage (s : World)
  : gmap string Template * list SessionCall * string * gmap string (gmap string Value)
    * option string :=
  (templateCache s, sessionCalls s, sessionToken s, sessionStore s, panicking s).

(** A handler that leaves the backstage alone. *)
Definition quiet (h : http_Handler) : Prop :=
  ∀ r s, backstage (h r s) = backstage s.

(** The request does not carry the CSRF secret of the session that its
    cookie names: there is no such session, or the session has no secret,
    or no token was submitted, or the token differs from the secret. *)
Definition csrfMismatch (r : Request) (s : World) : Prop :=
  ∀ token data secret,
    Cookie r = Some token → sessionStore s !! token = Some data →
    data !! csrfSecretKey = Some (VString secret) →
    submittedToken r ≠ Some secret.

(** A handler that leaves the template cache as it finds it. *)
Definition keepsCache (h : http_Handler) : Prop :=
  ∀ r s, templateCache (h r s) = templateCache s.

(** The keys of the snippets table are distinct and below the next
    auto-increment key, as MySQL keeps the AUTO_INCREMENT primary key of a
    table. *)
Definition wellKeyed (d : models.DB) : Prop :=
  NoDup (models.ID <$> models.snippets d) ∧
  ∀ s, s ∈ models.snippets d → models.ID s < models.AUTO_INCREMENT d.

(** The row that [Insert] adds to a database. *)
Definition insertedRow (title content : string) (expires : Z) (d : models.DB) : models.Snippet :=
  {| models.ID := models.AUTO_INCREMENT d;
     models.Title := title;
     models.Content := content;
     models.Created := models.UTC_TIMESTAMP d;
     models.Expires := models.UTC_TIMESTAMP d + expires * 86400 |}.

(** ** The sample installation with its database out of reach *)

Module Offline.

Definition database : models.DB :=
  {| models.snippets := models.snippets Sample.database;
     models.users := models.users Sample.database;
     models.UTC_TIMESTAMP := models.UTC_TIMESTAMP Sample.database;
     models.AUTO_INCREMENT := models.AUTO_INCREMENT Sample.database;
     models.driverErr := Some (errorString "invalid connection") |}.

Definition loaded : World :=
  {| resp := []; errorLog := []; infoLog := [];
     templateCache := Sample.cache;
     session := <["flash" := VString "Snippet successfully created!"]> (session Sample.loaded);
     sessionToken := "c0ffee";
     sessionStore := sessionStore Sample.world;
     sessionCalls := [SessionLoad "c0ffee"]; db := database; storeCalls := [];
     panicking := None; timeNowYear := 2024; randDrawn := 0 |}.

End Offline.

(** ** The handlers of the first version of handlers.go *)

(** The three handlers as they were when the routes still went through
    [http.ServeMux]: the path and the method are checked by hand, and the id
    of a snippet comes from the query string. *)
Module early.

(** The request with its query string parsed ([r.URL.Query()]). *)
Record Request' : Type := {
  base : Request;
  URLQuery : form.Values
}.

(** [values.Get(key)]: the first value of the key, or "". *)
Definition Values_Get (values : form.Values) (key : string) : string :=
  match values !! key with
  | Some (v :: _) => v
  | _ => ""
  end.

(** [&templateData{}] *)
Definition zeroData : templateData :=
  {| CurrentYear := 0; Snippet := None; Snippets := []; Form := anyNil;
     Flash := ""; IsAuthenticated := false; CSRFToken := "" |}.

(** The en dash, in UTF-8. *)
Definition endash : string := String "226"%char (String "128"%char (String "147"%char "")).

(** The content of the snippet that the first [snippetCreate] inserts. *)
Definition haiku : string :=
  "O snail" +:+ nl +:+ "Climb Mount Fuji," +:+ nl +:+ "But slowly, slowly!"
  +:+ nl +:+ nl +:+ endash +:+ " Kobayashi Issa".

Section Handlers.

Variable app : application.

(** [func (app *application) home(w, r)] *)
Definition home (r : Request') (s : World) : World :=
  if bool_decide (URLPath (base r) ≠ "/") then notFound s
  else
    let '(d, (snippets, err)) := models.SnippetModelInterface.Latest (snippets app) (db s) in
    let s := setDB d CallLatest s in
    match err with
    | Some err => serverError err s
    | None => render http.StatusOK "home.tmpl" (withSnippets snippets zeroData) s
    end.

(** [func (app *application) snippetView(w, r)] *)
Definition snippetView (r : Request') (s : World) : World :=
  let '(id, err) := strconv.Atoi (Values_Get (URLQuery r) "id") in
  if bool_decide (err ≠ None) || bool_decide (id < 1) then notFound s
  else
    let '(d, (snippet, err)) := models.SnippetModelInterface.Get (snippets app) id (db s) in
    let s := setDB d (CallGet id) s in
    match err with
    | Some err =>
        if errors_Is err ErrNoRecord then notFound s
        else serverError err s
    | None => render http.StatusOK "view.tmpl" (withSnippet snippet zeroData) s
    end.

(** [func (app *application) snippetCreate(w, r)].  [http.Redirect] leaves
    the query string of the target as it is. *)
Definition snippetCreate (r : Request') (s : World) : World :=
  if bool_decide (Method (base r) ≠ http.MethodPost) then
    let s := w_call [HeaderSet "Allow" http.MethodPost] s in
    clientError http.StatusMethodNotAllowed s
  else
    let title := "0 snail" in
    let content := haiku in
    let expires := 7 in
    let '(d, (id, err)) :=
      models.SnippetModelInterface.Insert (snippets app) title content expires (db s) in
    let s := setDB d (CallInsert title content expires) s in
    match err with
    | Some err => serverError err s
    | None => http_Redirect (base r) ("/snippet/view?id=" +:+ pretty id) http.StatusSeeOther s
    end.

End Handlers.

End early.

(** ** The sample installation with a create page that reports the errors *)

Module Report.

(** The messages a form holds under a key, each followed by a semicolon. *)
Definition messages (f : snippetCreateForm.t) (key : string) : string :=
  foldr (λ message acc, key +:+ ": " +:+ message +:+ "; " +:+ acc) ""
    (default [] (validator.FieldErrors (snippetCreateForm.Validator f) !! key)).

(** A create page that prints the field errors of its form. *)
Definition page : Template := {|
  ExecuteTemplate := fun name data =>
    match Form data with
    | anySnippetCreateForm f =>
        (messages f "title" +:+ messages f "content" +:+ messages f "expires", None)
    | _ => ("", None)
    end
|}.

Definition loaded : World :=
  {| resp := []; errorLog := []; infoLog := [];
     templateCache := <["create.tmpl" := page]> Sample.cache;
     session := session Sample.loaded;
     sessionToken := "c0ffee";
     sessionStore := sessionStore Sample.world;
     sessionCalls := [SessionLoad "c0ffee"]; db := Sample.database; storeCalls := [];
     panicking := None; timeNowYear := 2024; randDrawn := 0 |}.

End Report.

(** * Properties *)

(** ** Frame lemmas: what the helpers leave alone *)

Ltac break_match :=
  match goal with
  | H : context [match ?x with _ => _ end] |- _ => destruct x eqn:?
  | |- context [match ?x with _ => _ end] => destruct x eqn:?
  end.

Ltac frame := intros; repeat (simplify_eq/=; try reflexivity; try break_match).

Lemma resp_w_call cs s : resp (w_call cs s) = resp s ++ cs.
Proof. reflexivity. Qed.

Lemma resp_serverError err s : resp (serverError err s) = resp s ++ generic500.
Proof. reflexivity. Qed.

Lemma errorLog_serverError err s : errorLog (serverError err s) = errorLog s ++ [Error err].
Proof. reflexivity. Qed.

Lemma string_app_assoc (a b c : string) : (a +:+ b) +:+ c = a +:+ (b +:+ c).
Proof.
  induction a as [|ch a IH]; [reflexivity|].
  change (String ch ((a +:+ b) +:+ c) = String ch (a +:+ (b +:+ c))).
  by f_equal.
Qed.

Lemma bodyOf_app (cs1 cs2 : list RespCall) :
  bodyOf (cs1 ++ cs2) = bodyOf cs1 +:+ bodyOf cs2.
Proof.
  induction cs1 as [|c cs1 IH]; [reflexivity|].
  destruct c; cbn [bodyOf app]; try assumption.
  rewrite IH. symmetry. apply string_app_assoc.
Qed.

(** ** The render helper *)

(** C1. For every call of render: when the page is not in the template
    cache, or the template returns an error after writing any part of its
    output into the buffer, the calls made on the response writer are those
    of the generic 500 response and nothing else, so no byte of template
    output reaches the connection; when the template runs to its end without
    an error, the calls are the given status and then the buffer; and
    whenever the calls are not those of the generic 500, the template was
    found and ran without an error. *)
Theorem render_commits_after_execution (status : Z) (page : string) (data : templateData) (s : World) :
  ((templateCache s !! page = None ∨
    ∃ ts written err, templateCache s !! page = Some ts ∧
                      ExecuteTemplate ts "base" data = (written, Some err)) →
   resp (render status page data s) = resp s ++ generic500 ∧
   bodyOf (resp (render status page data s)) = bodyOf (resp s) +:+ "Internal Server Error" +:+ nl) ∧
  (∀ ts written, templateCache s !! page = Some ts →
                 ExecuteTemplate ts "base" data = (written, None) →
   resp (render status page data s) = resp s ++ WriteHeader status :: WriteTo written) ∧
  (resp (render status page data s) ≠ resp s ++ generic500 →
   ∃ ts written, templateCache s !! page = Some ts ∧
                 ExecuteTemplate ts "base" data = (written, None)).
Proof.
  unfold render. split; [|split].
  - intros [Hnone | (ts & written & err & Hts & Hexec)].
    + rewrite Hnone, resp_serverError. split; [reflexivity|].
      by rewrite bodyOf_app.
    + rewrite Hts, Hexec, resp_serverError. split; [reflexivity|].
      by rewrite bodyOf_app.
  - intros ts written Hts Hexec. rewrite Hts, Hexec. simpl.
    by rewrite <- app_assoc.
  - intros Hne. destruct (templateCache s !! page) as [ts|] eqn:Hts.
    + destruct (ExecuteTemplate ts "base" data) as [written [err|]] eqn:Hexec.
      * exfalso. apply Hne. apply resp_serverError.
      * by exists ts, written.
    + exfalso. apply Hne. apply resp_serverError.
Qed.

(** The broken page of the sample cache has written the start of its output
    when it fails; the response is the generic 500. *)
Lemma render_commits_after_execution_witness :
  resp (render 200 "home.tmpl" Sample.data Sample.world) = generic500 ∧
  bodyOf (resp (render 200 "home.tmpl" Sample.data Sample.world))
    = "Internal Server Error" +:+ nl.
Proof.
  apply (proj1 (render_commits_after_execution 200 "home.tmpl" Sample.data Sample.world)).
  right. exists Sample.brokenPage, "<html><body>", (errorString "template: no such field").
  split; reflexivity.
Defined.

(** ** The snippet model *)

Lemma Query_ok (where_ : models.Snippet → bool) (d : models.DB) :
  models.driverErr d = None →
  models.Query where_ d = inl (filter (λ s, where_ s = true) (models.snippets d)).
Proof. intros H. unfold models.Query. by rewrite H. Qed.

Lemma Get_where_true (d : models.DB) (id : Z) (s : models.Snippet) :
  models.SnippetModel.Get_where d id s = true ↔
  models.UTC_TIMESTAMP d < models.Expires s ∧ models.ID s = id.
Proof.
  unfold models.SnippetModel.Get_where.
  rewrite andb_true_iff, !bool_decide_eq_true. reflexivity.
Qed.

(** The rows the query of [Get] selects are empty when every row with the
    id has expired. *)
Lemma Get_filter_expired (d : models.DB) (id : Z) :
  (∀ s, s ∈ models.snippets d → models.ID s = id →
        models.Expires s ≤ models.UTC_TIMESTAMP d) →
  filter (λ s, models.SnippetModel.Get_where d id s = true) (models.snippets d) = [].
Proof.
  intros Hexp. induction (models.snippets d) as [|row rows IH]; [reflexivity|].
  rewrite filter_cons. destruct (decide _) as [Hrow|_].
  - apply Get_where_true in Hrow as [Hlt Hid].
    specialize (Hexp row (list_elem_of_here _ _) Hid). lia.
  - apply IH. intros s Hs. apply Hexp. by apply list_elem_of_further.
Qed.

(** C8. For every id and every database: if each row with that id has an
    expiry at or before the clock of the query, Get returns no snippet, and
    when the database answers the query the error is ErrNoRecord; the rows
    are still in the table, which the call leaves as it is.  Whenever Get
    returns a snippet, it is a row of the table with that id whose expiry
    is strictly after the clock. *)
Theorem Get_hides_expired (d : models.DB) (id : Z) :
  ((∀ s, s ∈ models.snippets d → models.ID s = id →
         models.Expires s ≤ models.UTC_TIMESTAMP d) →
   (models.SnippetModel.Get id d).1 = None ∧
   (models.driverErr d = None →
    models.SnippetModel.Get id d = (None, Some ErrNoRecord)) ∧
   (models.SnippetModelInterface.Get models.SnippetModel_impl id d).1 = d) ∧
  (∀ s, (models.SnippetModel.Get id d).1 = Some s →
        s ∈ models.snippets d ∧ models.ID s = id ∧
        models.UTC_TIMESTAMP d < models.Expires s).
Proof.
  split.
  - intros Hexp. unfold models.SnippetModel.Get.
    destruct (models.driverErr d) as [err|] eqn:Herr.
    + unfold models.Query. rewrite Herr. simpl.
      split; [by destruct (errors_Is err sql_ErrNoRows)|].
      split; [discriminate | reflexivity].
    + rewrite Query_ok, Get_filter_expired by assumption. simpl.
      repeat split; reflexivity.
  - intros s. unfold models.SnippetModel.Get, models.Query.
    destruct (models.driverErr d) as [err|]; simpl.
    + by destruct (errors_Is err sql_ErrNoRows).
    + destruct (filter _ (models.snippets d)) as [|row rows] eqn:Hrows; simpl.
      * discriminate.
      * intros [= ->].
        assert (Hin : s ∈ filter (λ s, models.SnippetModel.Get_where d id s = true)
                                 (models.snippets d))
          by (rewrite Hrows; apply list_elem_of_here).
        apply list_elem_of_filter in Hin as [Hw Hin].
        apply Get_where_true in Hw as [Hlt Hid]. by repeat split.
Qed.

(** The first snippet of the sample database expires at the very second
    of the query: it is not found, although its row is in the table. *)
Lemma Get_hides_expired_witness :
  Sample.oldSnippet ∈ models.snippets Sample.database ∧
  models.SnippetModel.Get 1 Sample.database = (None, Some ErrNoRecord).
Proof.
  split; [apply list_elem_of_here|].
  apply (proj1 (Get_hides_expired Sample.database 1)); [|reflexivity].
  intros s Hs Hid. simpl in Hs.
  apply elem_of_cons in Hs as [->|Hs]; [simpl; lia|].
  apply elem_of_cons in Hs as [->|Hs]; [discriminate Hid|].
  by apply elem_of_nil in Hs.
Defined.

(** ** snippetView *)

Lemma db_clientError status s : db (clientError status s) = db s.
Proof. reflexivity. Qed.

Lemma storeCalls_clientError status s : storeCalls (clientError status s) = storeCalls s.
Proof. reflexivity. Qed.

Lemma storeCalls_serverError err s : storeCalls (serverError err s) = storeCalls s.
Proof. reflexivity. Qed.

Lemma storeCalls_render status page data s :
  storeCalls (render status page data s) = storeCalls s.
Proof. unfold render. frame. Qed.

Lemma db_render status page data s : db (render status page data s) = db s.
Proof. unfold render. frame. Qed.

Lemma storeCalls_newTemplateData r s :
  storeCalls (newTemplateData r s).2 = storeCalls s.
Proof. unfold newTemplateData, sessionManager.PopString. frame. Qed.

Lemma db_newTemplateData r s : db (newTemplateData r s).2 = db s.
Proof. unfold newTemplateData, sessionManager.PopString. frame. Qed.

(** C10. For every request and state: when the id parameter of the path is
    refused by Atoi or is an integer below 1, snippetView answers with the
    404 of notFound, and neither calls the store nor changes the database;
    and whatever the request, the only call snippetView can add to those on
    the store is one Get, with the id that Atoi read, which is at least 1. *)
Theorem snippetView_guards_id (app : application) (r : Request) (s : World) :
  (((strconv.Atoi (ByName (Params r) "id")).2 ≠ None ∨
    (strconv.Atoi (ByName (Params r) "id")).1 < 1) →
   snippetView app r s = notFound s ∧
   resp (snippetView app r s)
     = resp s ++ http.Error "Not Found" http.StatusNotFound ∧
   storeCalls (snippetView app r s) = storeCalls s ∧
   db (snippetView app r s) = db s) ∧
  (storeCalls (snippetView app r s) = storeCalls s ∨
   ∃ id, strconv.Atoi (ByName (Params r) "id") = (id, None) ∧ 1 ≤ id ∧
         storeCalls (snippetView app r s) = storeCalls s ++ [CallGet id]).
Proof.
  unfold snippetView.
  destruct (strconv.Atoi (ByName (Params r) "id")) as [id err] eqn:Hatoi. simpl.
  split.
  - intros Hbad.
    assert (Hguard : bool_decide (err ≠ None) || bool_decide (id < 1) = true).
    { apply orb_true_iff. destruct Hbad as [H|H]; [left|right]; by apply bool_decide_eq_true. }
    rewrite Hguard. repeat split; reflexivity.
  - destruct (bool_decide (err ≠ None) || bool_decide (id < 1)) eqn:Hguard.
    + left. reflexivity.
    + right. apply orb_false_iff in Hguard as [Herr Hid].
      apply bool_decide_eq_false in Herr, Hid.
      exists id. split; [|split; [lia|]].
      * destruct err; [by destruct Herr | reflexivity].
      * destruct (models.SnippetModelInterface.Get _ _ _) as [d [snippet [e|]]].
        -- destruct (errors_Is e ErrNoRecord); reflexivity.
        -- destruct (newTemplateData r _) as [data s'] eqn:Hdata.
           rewrite storeCalls_render.
           change s' with (data, s').2. rewrite <- Hdata.
           by rewrite storeCalls_newTemplateData.
Qed.

(** The router hands over "0" as the id: the answer is the 404, and the
    store is not called. *)
Lemma snippetView_guards_id_witness :
  let r := withParams [("id", "0")] (Sample.request "GET" "/snippet/view/0" []) in
  statusOf (resp (snippetView Sample.app r Sample.loaded)) = Some 404 ∧
  storeCalls (snippetView Sample.app r Sample.loaded) = [].
Proof.
  intros r.
  destruct (proj1 (snippetView_guards_id Sample.app r Sample.loaded)) as (_ & Hresp & Hcalls & _).
  - right. vm_compute. reflexivity.
  - split; [by rewrite Hresp | exact Hcalls].
Defined.
(** ** snippetCreatePost *)

(** What the decoder makes of a submission, field by field. *)
Lemma Decode_snippetCreateForm (f0 : snippetCreateForm.t) (values : form.Values) (a : any) :
  form.Decode (anySnippetCreateForm f0) values = (a, None) →
  ∃ f, a = anySnippetCreateForm f ∧
       snippetCreateForm.Title f = form.setString values "title" (snippetCreateForm.Title f0) ∧
       snippetCreateForm.Content f = form.setString values "content" (snippetCreateForm.Content f0) ∧
       (form.setInt values "expires" (snippetCreateForm.Expires f0)) = (snippetCreateForm.Expires f, []) ∧
       snippetCreateForm.Validator f = snippetCreateForm.Validator f0.
Proof.
  unfold form.Decode.
  destruct (form.setInt values "expires" (snippetCreateForm.Expires f0)) as [n errs] eqn:Hint.
  destruct errs; [|discriminate]. intros [= <-].
  eexists. repeat split.
Qed.

Lemma setString_idem values name old :
  form.setString values name (form.setString values name old) = form.setString values name old.
Proof. unfold form.setString. by destruct (values !! name) as [[|v vs]|]. Qed.

Lemma setInt_idem values name old n :
  form.setInt values name old = (n, []) → form.setInt values name n = (n, []).
Proof.
  unfold form.setInt. destruct (values !! name) as [[|v vs]|]; [congruence| |congruence].
  destruct (bool_decide (v = "")); [congruence|].
  destruct (strconv.ParseInt "ParseInt" v) as [m [e|]]; [discriminate|congruence].
Qed.

(** Decoding the same values a second time, as [snippetCreatePost] does,
    changes nothing. *)
Lemma Decode_again (f : snippetCreateForm.t) (values : form.Values) :
  form.Decode (anySnippetCreateForm snippetCreateForm.zero) values = (anySnippetCreateForm f, None) →
  form.Decode (anySnippetCreateForm f) values = (anySnippetCreateForm f, None).
Proof.
  intros Hdec. destruct (Decode_snippetCreateForm _ _ _ Hdec) as (f' & [= <-] & Ht & Hc & He & Hv).
  unfold form.Decode. rewrite (setInt_idem _ _ _ _ He).
  rewrite Ht, Hc, !setString_idem, <- Ht, <- Hc. by destruct f.
Qed.

Lemma decodesTo_Validator r f :
  decodesTo r f → snippetCreateForm.Validator f = validator.zero.
Proof.
  intros (values & _ & Hdec).
  by destruct (Decode_snippetCreateForm _ _ _ Hdec) as (f' & [= <-] & _ & _ & _ & Hv).
Qed.

(** After a successful decode the handler goes on with the checks. *)
Lemma snippetCreatePost_decoded (app : application) (r : Request) (s : World) f :
  decodesTo r f →
  snippetCreatePost app r s =
    let form := snippetCreateChecks f in
    if negb (snippetCreateForm.Valid form) then
      render http.StatusUnprocessableEntity "create.tmpl"
        (withForm (anySnippetCreateForm form) (newTemplateData r s).1) (newTemplateData r s).2
    else
      let res := models.SnippetModelInterface.Insert (snippets app)
            (snippetCreateForm.Title form) (snippetCreateForm.Content form)
            (snippetCreateForm.Expires form) (db s) in
      let s := setDB res.1 (CallInsert (snippetCreateForm.Title form)
                              (snippetCreateForm.Content form)
                              (snippetCreateForm.Expires form)) s in
      match res.2.2 with
      | Some err => serverError err s
      | None =>
          http_Redirect r ("/snippet/view/" +:+ pretty res.2.1) http.StatusSeeOther
            (sessionManager.Put "flash" (VString "Snippet successfully created!") s)
      end.
Proof.
  intros (values & Hparse & Hdec).
  unfold snippetCreatePost, decodePostForm, PostForm. rewrite Hparse, Hdec.
  rewrite (Decode_again _ _ Hdec). cbn [bool_decide decide_rel theSnippetCreateForm].
  rewrite bool_decide_eq_false_2 by (intros H; by apply H).
  cbv zeta. destruct (negb _).
  - by destruct (newTemplateData r s).
  - by destruct (models.SnippetModelInterface.Insert _ _ _ _ _) as [d [id err]].
Qed.

Lemma snippetCreateChecks_fields f :
  snippetCreateForm.Title (snippetCreateChecks f) = snippetCreateForm.Title f ∧
  snippetCreateForm.Content (snippetCreateChecks f) = snippetCreateForm.Content f ∧
  snippetCreateForm.Expires (snippetCreateChecks f) = snippetCreateForm.Expires f.
Proof. repeat split. Qed.

Ltac decide_elem :=
  match goal with
  | |- _ ∈ _ ↔ _ =>
      split; intros Hx;
      [ first [ reflexivity
              | exfalso; revert Hx;
                match goal with
                | |- ?P → False => apply (proj1 (bool_decide_eq_false P)); vm_compute; reflexivity
                end ]
      | first [ discriminate Hx
              | match goal with
                | |- ?P => apply (proj1 (bool_decide_eq_true P)); vm_compute; reflexivity
                end ] ]
  end.

Lemma resp_render_ok status page data s ts written :
  templateCache s !! page = Some ts →
  ExecuteTemplate ts "base" data = (written, None) →
  resp (render status page data s) = resp s ++ WriteHeader status :: WriteTo written.
Proof.
  intros Hts Hexec. unfold render. rewrite Hts, Hexec. simpl. by rewrite <- app_assoc.
Qed.

Lemma resp_newTemplateData r s : resp (newTemplateData r s).2 = resp s.
Proof. unfold newTemplateData, sessionManager.PopString. frame. Qed.

Lemma templateCache_newTemplateData r s :
  templateCache (newTemplateData r s).2 = templateCache s.
Proof. unfold newTemplateData, sessionManager.PopString. frame. Qed.

(** C5. For every submission that decodes to a form: each of the four
    checks of snippetCreatePost leaves its message under its field key
    exactly when it fails, whatever the outcome of the other three; no other
    key gets a message; the form is valid exactly when the mapping of field
    errors is empty, which is exactly when all four checks pass.  When the
    form is not valid, the template data that the handler renders holds in
    its Form field the form with all these messages, and the response is
    the one rendering of create.tmpl on that data: when the page is in the
    cache and executes without an error, the calls on the response writer
    are the status 422 followed by what the template wrote for that data,
    and no others. *)
Theorem snippetCreate_checks_accumulate (app : application) (r : Request) (s : World)
    (f : snippetCreateForm.t) :
  decodesTo r f →
  let form := snippetCreateChecks f in
  let errors key := default [] (validator.FieldErrors (snippetCreateForm.Validator form) !! key) in
  ("This field cannot be blank" ∈ errors "title" ↔
     validator.NotBlank (snippetCreateForm.Title f) = false) ∧
  ("This field cannot be more than 100 characters long" ∈ errors "title" ↔
     validator.MaxChars (snippetCreateForm.Title f) 100 = false) ∧
  ("This field cannot be blank" ∈ errors "content" ↔
     validator.NotBlank (snippetCreateForm.Content f) = false) ∧
  ("This field must equal 1, 7 or 365" ∈ errors "expires" ↔
     validator.PermittedInt (snippetCreateForm.Expires f) [1; 7; 365] = false) ∧
  (∀ key, key ∉ ["title"; "content"; "expires"] → errors key = []) ∧
  (snippetCreateForm.Valid form = true ↔
     validator.FieldErrors (snippetCreateForm.Validator form) = ∅) ∧
  (snippetCreateForm.Valid form = true ↔
     validator.NotBlank (snippetCreateForm.Title f) = true ∧
     validator.MaxChars (snippetCreateForm.Title f) 100 = true ∧
     validator.NotBlank (snippetCreateForm.Content f) = true ∧
     validator.PermittedInt (snippetCreateForm.Expires f) [1; 7; 365] = true) ∧
  (snippetCreateForm.Valid form = false →
     let data := withForm (anySnippetCreateForm form) (newTemplateData r s).1 in
     Form data = anySnippetCreateForm form ∧
     snippetCreatePost app r s =
       render http.StatusUnprocessableEntity "create.tmpl" data (newTemplateData r s).2 ∧
     (∀ ts written,
        templateCache s !! "create.tmpl" = Some ts →
        ExecuteTemplate ts "base" data = (written, None) →
        resp (snippetCreatePost app r s) = resp s ++ WriteHeader 422 :: WriteTo written)).
Proof.
  intros Hdec form errors.
  pose proof (decodesTo_Validator r f Hdec) as Hzero.
  subst form errors.
  destruct f as [title content expires v]. simpl in Hzero. subst v.
  unfold snippetCreateChecks in *. cbn [snippetCreateForm.Title snippetCreateForm.Content
    snippetCreateForm.Expires snippetCreateForm.CheckField snippetCreateForm.Validator] in *.
  split; [|split; [|split; [|split; [|split; [|split; [|split]]]]]].
  - destruct (validator.NotBlank title), (validator.MaxChars title 100),
      (validator.NotBlank content), (validator.PermittedInt expires [1; 7; 365]); decide_elem.
  - destruct (validator.NotBlank title), (validator.MaxChars title 100),
      (validator.NotBlank content), (validator.PermittedInt expires [1; 7; 365]); decide_elem.
  - destruct (validator.NotBlank title), (validator.MaxChars title 100),
      (validator.NotBlank content), (validator.PermittedInt expires [1; 7; 365]); decide_elem.
  - destruct (validator.NotBlank title), (validator.MaxChars title 100),
      (validator.NotBlank content), (validator.PermittedInt expires [1; 7; 365]); decide_elem.
  - intros key Hkey.
    assert (key ≠ "title" ∧ key ≠ "content" ∧ key ≠ "expires") as (H1 & H2 & H3).
    { repeat split; intros ->; apply Hkey; set_solver. }
    destruct (validator.NotBlank title), (validator.MaxChars title 100),
      (validator.NotBlank content), (validator.PermittedInt expires [1; 7; 365]);
      cbn [validator.CheckField validator.AddFieldError validator.FieldErrors validator.zero];
      rewrite ?lookup_insert_ne by congruence; by rewrite lookup_empty.
  - unfold snippetCreateForm.Valid, validator.Valid. apply bool_decide_eq_true.
  - unfold snippetCreateForm.Valid.
    destruct (validator.NotBlank title), (validator.MaxChars title 100),
      (validator.NotBlank content), (validator.PermittedInt expires [1; 7; 365]);
      (split; [intros Hx; try (vm_compute in Hx; discriminate Hx); by repeat split
              | intros (?&?&?&?); try discriminate; reflexivity]).
  - intros Hinvalid. cbv zeta. split; [reflexivity|].
    match goal with |- ?equation ∧ _ => assert (Hpost : equation) end.
    { rewrite (snippetCreatePost_decoded app r s _ Hdec). cbv zeta.
      unfold snippetCreateChecks.
      cbn [snippetCreateForm.Title snippetCreateForm.Content snippetCreateForm.Expires
           snippetCreateForm.CheckField snippetCreateForm.Validator].
      by rewrite Hinvalid. }
    split; [exact Hpost|].
    intros ts written Hts Hexec. rewrite Hpost.
    rewrite (resp_render_ok _ _ _ _ ts written);
      [by rewrite resp_newTemplateData | by rewrite templateCache_newTemplateData | exact Hexec].
Qed.

(** A submission with a title of 101 blanks, a blank content and an expiry
    that is not offered, to an installation whose create page prints the
    field errors: all four checks fail, and the one response is the 422
    whose body has the four messages, two of them for the title. *)
Lemma snippetCreate_checks_accumulate_witness :
  let blanks := String.string_of_list_ascii (replicate 101 " "%char) in
  let r := Sample.request "POST" "/snippet/create"
             [("title", blanks); ("content", "  "); ("expires", "2")] in
  let s' := snippetCreatePost Sample.app r Report.loaded in
  resp s' = [WriteHeader 422;
             Write ("title: This field cannot be blank; "
                    +:+ "title: This field cannot be more than 100 characters long; "
                    +:+ "content: This field cannot be blank; "
                    +:+ "expires: This field must equal 1, 7 or 365; ")] ∧
  statusOf (resp s') = Some 422 ∧
  storeCalls s' = [].
Proof.
  intros blanks r s'.
  pose (f := {| snippetCreateForm.Title := blanks; snippetCreateForm.Content := "  ";
                snippetCreateForm.Expires := 2;
                snippetCreateForm.Validator := validator.zero |}).
  assert (Hdec : decodesTo r f).
  { eexists. split; [reflexivity|]. vm_compute. reflexivity. }
  destruct (snippetCreate_checks_accumulate Sample.app r Report.loaded f Hdec)
    as (_ & _ & _ & _ & _ & _ & _ & Hinvalid).
  destruct (Hinvalid ltac:(vm_compute; reflexivity)) as (_ & Hpost & Hresp).
  assert (Hcalls : resp s' = [WriteHeader 422;
             Write ("title: This field cannot be blank; "
                    +:+ "title: This field cannot be more than 100 characters long; "
                    +:+ "content: This field cannot be blank; "
                    +:+ "expires: This field must equal 1, 7 or 365; ")]).
  { subst s'. rewrite (Hresp Report.page _ eq_refl eq_refl). vm_compute. reflexivity. }
  split; [exact Hcalls|]. split; [by rewrite Hcalls|].
  subst s'. rewrite Hpost. reflexivity.
Defined.

Lemma decodesTo_content r f values v vs :
  decodesTo r f → ParseForm r = inl values → values !! "content" = Some (v :: vs) →
  snippetCreateForm.Content f = v.
Proof.
  intros (values' & Hparse & Hdec) Hparse' Hv.
  rewrite Hparse in Hparse'. injection Hparse' as ->.
  destruct (Decode_snippetCreateForm _ _ _ Hdec) as (f' & [= <-] & _ & Hc & _).
  rewrite Hc. unfold form.setString. by rewrite Hv.
Qed.

(** C6. For every submission that decodes to a form which the checks find
    invalid: the handler's answer is the rendering of the create page at
    422, given the decoded form with its Title, Content and Expires as they
    were decoded (the content is the very string that was submitted) and
    with a mapping of field errors that is not empty; the store is not
    called and the database is as before. *)
Theorem snippetCreatePost_invalid_rerenders (app : application) (r : Request) (s : World)
    (f : snippetCreateForm.t) :
  decodesTo r f →
  snippetCreateForm.Valid (snippetCreateChecks f) = false →
  let form := snippetCreateChecks f in
  snippetCreatePost app r s =
    render 422 "create.tmpl"
      (withForm (anySnippetCreateForm form) (newTemplateData r s).1) (newTemplateData r s).2 ∧
  snippetCreateForm.Title form = snippetCreateForm.Title f ∧
  snippetCreateForm.Content form = snippetCreateForm.Content f ∧
  snippetCreateForm.Expires form = snippetCreateForm.Expires f ∧
  (∀ values v vs, ParseForm r = inl values → values !! "content" = Some (v :: vs) →
                  snippetCreateForm.Content form = v) ∧
  validator.FieldErrors (snippetCreateForm.Validator form) ≠ ∅ ∧
  storeCalls (snippetCreatePost app r s) = storeCalls s ∧
  db (snippetCreatePost app r s) = db s.
Proof.
  intros Hdec Hinvalid form.
  assert (Hpost : snippetCreatePost app r s =
    render 422 "create.tmpl"
      (withForm (anySnippetCreateForm form) (newTemplateData r s).1) (newTemplateData r s).2).
  { rewrite (snippetCreatePost_decoded app r s f Hdec). cbv zeta.
    subst form. by rewrite Hinvalid. }
  split; [exact Hpost|].
  split; [reflexivity|]. split; [reflexivity|]. split; [reflexivity|].
  split; [intros values v vs Hparse Hv; exact (decodesTo_content r f values v vs Hdec Hparse Hv)|].
  split.
  - unfold snippetCreateForm.Valid, validator.Valid in Hinvalid.
    by apply bool_decide_eq_false in Hinvalid.
  - rewrite Hpost, storeCalls_render, db_render, storeCalls_newTemplateData, db_newTemplateData.
    by split.
Qed.

(** An empty title next to a content: the page comes back at 422 with the
    content as it was typed, and nothing is inserted. *)
Lemma snippetCreatePost_invalid_rerenders_witness :
  let r := Sample.request "POST" "/snippet/create"
             [("title", ""); ("content", "O snail"); ("expires", "7")] in
  statusOf (resp (snippetCreatePost Sample.app r Sample.loaded)) = Some 422 ∧
  bodyOf (resp (snippetCreatePost Sample.app r Sample.loaded)) = "title=;content=O snail" ∧
  storeCalls (snippetCreatePost Sample.app r Sample.loaded) = [] ∧
  db (snippetCreatePost Sample.app r Sample.loaded) = Sample.database.
Proof.
  intros r.
  pose (f := {| snippetCreateForm.Title := ""; snippetCreateForm.Content := "O snail";
                snippetCreateForm.Expires := 7;
                snippetCreateForm.Validator := validator.zero |}).
  assert (Hdec : decodesTo r f).
  { eexists. split; [reflexivity|]. vm_compute. reflexivity. }
  assert (Hinvalid : snippetCreateForm.Valid (snippetCreateChecks f) = false)
    by (vm_compute; reflexivity).
  destruct (snippetCreatePost_invalid_rerenders Sample.app r Sample.loaded f Hdec Hinvalid)
    as (Hpost & _ & _ & _ & _ & _ & Hcalls & Hdb).
  split; [by rewrite Hpost|]. split; [by rewrite Hpost|].
  split; [exact Hcalls | exact Hdb].
Defined.

Lemma resp_http_Redirect_POST r url code s :
  Method r = "POST" →
  resp (http_Redirect r url code s) = resp s ++ [HeaderSet "Location" url; WriteHeader code].
Proof.
  intros Hm. unfold http_Redirect. rewrite Hm.
  rewrite !(bool_decide_eq_false_2 ("POST" = _)) by discriminate.
  rewrite !andb_false_r. simpl. by rewrite <- app_assoc.
Qed.

Lemma session_http_Redirect r url code s :
  session (http_Redirect r url code s) = session s.
Proof. unfold http_Redirect. frame. Qed.

Lemma db_http_Redirect r url code s : db (http_Redirect r url code s) = db s.
Proof. unfold http_Redirect. frame. Qed.

(** C7. For every POST submission that decodes to a form which passes the
    checks: the handler calls Insert with the fields of the form; when
    Insert returns an id and no error, the session gets the flash message
    and the calls on the response writer are the Location header
    /snippet/view/ followed by that id in decimal, and the status 303; when
    Insert returns an error, the calls are those of the generic 500, there
    is no redirect and no flash message. *)
Theorem snippetCreatePost_valid_redirects (app : application) (r : Request) (s : World)
    (f : snippetCreateForm.t) (d : models.DB) (id : Z) (err : option error) :
  decodesTo r f →
  snippetCreateForm.Valid (snippetCreateChecks f) = true →
  Method r = "POST" →
  models.SnippetModelInterface.Insert (snippets app)
    (snippetCreateForm.Title f) (snippetCreateForm.Content f)
    (snippetCreateForm.Expires f) (db s) = (d, (id, err)) →
  let s' := snippetCreatePost app r s in
  db s' = d ∧
  storeCalls s' = storeCalls s ++ [CallInsert (snippetCreateForm.Title f)
                                      (snippetCreateForm.Content f)
                                      (snippetCreateForm.Expires f)] ∧
  match err with
  | None =>
      session s' = <["flash" := VString "Snippet successfully created!"]> (session s) ∧
      resp s' = resp s ++ [HeaderSet "Location" ("/snippet/view/" +:+ pretty id);
                           WriteHeader 303]
  | Some e =>
      session s' = session s ∧
      resp s' = resp s ++ generic500 ∧
      errorLog s' = errorLog s ++ [Error e]
  end.
Proof.
  intros Hdec Hvalid Hpost Hins s'. subst s'.
  rewrite (snippetCreatePost_decoded app r s f Hdec). cbv zeta.
  rewrite Hvalid. cbn [negb].
  destruct (snippetCreateChecks_fields f) as (-> & -> & ->).
  rewrite Hins. cbn [fst snd].
  destruct err as [e|].
  - repeat split.
  - rewrite db_http_Redirect, session_http_Redirect, resp_http_Redirect_POST by assumption.
    split; [reflexivity|]. split; [|split; reflexivity].
    unfold http_Redirect. frame.
Qed.

(** The mock of the snippet model returns the id 2: the redirect goes to
    /snippet/view/2. *)
Lemma snippetCreatePost_valid_redirects_witness :
  let r := Sample.request "POST" "/snippet/create"
             [("title", "T"); ("content", "C"); ("expires", "7")] in
  let app := {| snippets := mocks.SnippetModel_impl 0; users := users Sample.app |} in
  statusOf (resp (snippetCreatePost app r Sample.loaded)) = Some 303 ∧
  headerOf (resp (snippetCreatePost app r Sample.loaded)) ∅ !! "Location"
    = Some "/snippet/view/2" ∧
  session (snippetCreatePost app r Sample.loaded) !! "flash"
    = Some (VString "Snippet successfully created!").
Proof.
  intros r app.
  pose (f := {| snippetCreateForm.Title := "T"; snippetCreateForm.Content := "C";
                snippetCreateForm.Expires := 7;
                snippetCreateForm.Validator := validator.zero |}).
  assert (Hdec : decodesTo r f).
  { eexists. split; [reflexivity|]. vm_compute. reflexivity. }
  assert (Hvalid : snippetCreateForm.Valid (snippetCreateChecks f) = true)
    by (vm_compute; reflexivity).
  destruct (snippetCreatePost_valid_redirects app r Sample.loaded f Sample.database 2 None
              Hdec Hvalid eq_refl eq_refl) as (_ & _ & Hsession & Hresp).
  rewrite Hresp, Hsession. split; [reflexivity|]. split; [reflexivity|].
  apply lookup_insert_eq.
Defined.

(** ** userSignupPost *)

Lemma Decode_userSignupForm (values : form.Values) (f : userSignupForm.t) :
  form.Decode (anyUserSignupForm userSignupForm.zero) values = (anyUserSignupForm f, None) →
  userSignupForm.Validator f = validator.zero.
Proof. unfold form.Decode. by intros [= <-]. Qed.

(** C2 (the code departs from the claim). For every POST signup whose
    fields pass the checks and for which the insert of the user yields
    ErrDuplicateEmail: the handler renders the signup page at 422 with the
    message "Email address is already in use" under the key email, and then,
    as the block that handles the error of the insert does not return, it
    goes on to put the success flash message into the session and to call
    the redirect to /user/login with status 303 on the same response
    writer. *)
Theorem userSignupPost_duplicate_falls_through (app : application) (EmailRX : string → bool)
    (r : Request) (s : World) (f : userSignupForm.t) (d : models.DB) :
  signupDecodesTo r f →
  userSignupForm.Valid (userSignupChecks EmailRX f) = true →
  Method r = "POST" →
  models.UserModelInterface.Insert (users app)
    (userSignupForm.Name f) (userSignupForm.Email f) (userSignupForm.Password f) (db s)
    = (d, Some ErrDuplicateEmail) →
  let form := userSignupForm.AddFieldError "email" "Email address is already in use"
                (userSignupChecks EmailRX f) in
  let s0 := setDB d (CallUserInsert (userSignupForm.Name f) (userSignupForm.Email f)
                       (userSignupForm.Password f)) s in
  let rendered := render 422 "signup.tmpl"
                    (withForm (anyUserSignupForm form) (newTemplateData r s0).1)
                    (newTemplateData r s0).2 in
  let s' := userSignupPost app EmailRX r s in
  validator.FieldErrors (userSignupForm.Validator form) !! "email"
    = Some ["Email address is already in use"] ∧
  resp s' = resp rendered ++ [HeaderSet "Location" "/user/login"; WriteHeader 303] ∧
  session s' !! "flash" = Some (VString "Your signup was succesful. Please log in").
Proof.
  intros (values & Hparse & Hdec) Hvalid Hm Hins form s0 rendered s'.
  pose proof (Decode_userSignupForm values f Hdec) as Hzero.
  split.
  - subst form. unfold userSignupForm.Valid, validator.Valid in Hvalid.
    apply bool_decide_eq_true in Hvalid.
    cbn [userSignupForm.AddFieldError userSignupForm.Validator validator.AddFieldError
         validator.FieldErrors].
    rewrite Hvalid, lookup_empty. simpl. apply lookup_insert_eq.
  - assert (Hs' : s' = http_Redirect r "/user/login" http.StatusSeeOther
                    (sessionManager.Put "flash"
                       (VString "Your signup was succesful. Please log in") rendered)).
    { subst s' rendered s0 form. unfold userSignupPost, decodePostForm.
      rewrite Hparse, Hdec. cbn [theUserSignupForm]. rewrite Hvalid. cbn [negb].
      assert (Hfields : userSignupForm.Name (userSignupChecks EmailRX f) = userSignupForm.Name f ∧
                        userSignupForm.Email (userSignupChecks EmailRX f) = userSignupForm.Email f ∧
                        userSignupForm.Password (userSignupChecks EmailRX f) = userSignupForm.Password f)
        by (repeat split).
      destruct Hfields as (-> & -> & ->). rewrite Hins.
      cbn [errors_Is]. unfold errors_Is. rewrite bool_decide_eq_true_2 by reflexivity.
      by destruct (newTemplateData r _). }
    rewrite Hs'. split.
    + by rewrite resp_http_Redirect_POST.
    + rewrite session_http_Redirect. apply lookup_insert_eq.
Qed.

(** A second signup with the email of the user of the sample database:
    the client receives the 422, and the handler has run on to the flash
    message and to the redirect. *)
Lemma userSignupPost_duplicate_falls_through_witness :
  let r := Sample.request "POST" "/user/signup"
             [("name", "Alice"); ("email", "alice@example.com"); ("password", "pa55word1")] in
  let s' := userSignupPost Sample.app (emailRX Sample.env) r Sample.loaded in
  statusOf (resp s') = Some 422 ∧
  WriteHeader 303 ∈ resp s' ∧
  session s' !! "flash" = Some (VString "Your signup was succesful. Please log in").
Proof.
  intros r s'.
  pose (f := {| userSignupForm.Name := "Alice"; userSignupForm.Email := "alice@example.com";
                userSignupForm.Password := "pa55word1";
                userSignupForm.Validator := validator.zero |}).
  assert (Hdec : signupDecodesTo r f).
  { eexists. split; [reflexivity|]. vm_compute. reflexivity. }
  assert (Hvalid : userSignupForm.Valid (userSignupChecks (emailRX Sample.env) f) = true)
    by (vm_compute; reflexivity).
  destruct (userSignupPost_duplicate_falls_through Sample.app (emailRX Sample.env) r
              Sample.loaded f Sample.database Hdec Hvalid eq_refl eq_refl)
    as (_ & Hresp & Hflash).
  split; [|split; [|exact Hflash]].
  - subst s'. rewrite Hresp. reflexivity.
  - subst s'. rewrite Hresp. apply elem_of_app. right. apply elem_of_cons. right.
    apply list_elem_of_here.
Defined.

(** ** Handlers leave the backstage alone *)

Lemma backstage_w_call cs s : backstage (w_call cs s) = backstage s.
Proof. reflexivity. Qed.

Lemma backstage_serverError err s : backstage (serverError err s) = backstage s.
Proof. reflexivity. Qed.

Lemma backstage_clientError status s : backstage (clientError status s) = backstage s.
Proof. reflexivity. Qed.

Lemma backstage_setDB d call s : backstage (setDB d call s) = backstage s.
Proof. reflexivity. Qed.

Lemma backstage_setSession data s : backstage (setSession data s) = backstage s.
Proof. reflexivity. Qed.

Lemma backstage_Put key val s : backstage (sessionManager.Put key val s) = backstage s.
Proof. reflexivity. Qed.

Lemma backstage_drawToken s : backstage (drawToken s) = backstage s.
Proof. reflexivity. Qed.

Lemma backstage_render status page data s :
  backstage (render status page data s) = backstage s.
Proof. unfold render. frame. Qed.

Lemma backstage_newTemplateData r s : backstage (newTemplateData r s).2 = backstage s.
Proof. unfold newTemplateData, sessionManager.PopString. frame. Qed.

Lemma backstage_http_Redirect r url code s :
  backstage (http_Redirect r url code s) = backstage s.
Proof. unfold http_Redirect. frame. Qed.

Create Rewrite HintDb backstage.
#[local] Hint Rewrite backstage_w_call backstage_serverError backstage_clientError
  backstage_setDB backstage_setSession backstage_Put backstage_drawToken
  backstage_render backstage_newTemplateData backstage_http_Redirect : backstage.

(** The decoder does not refuse a pointer to a form struct, so
    [decodePostForm] does not panic in the handlers. *)
Lemma decodePostForm_snippetCreateForm r f v :
  decodePostForm r (anySnippetCreateForm f) ≠ inr v.
Proof.
  unfold decodePostForm, form.Decode. destruct (ParseForm r); [|discriminate].
  destruct (form.setInt _ _ _) as [n [|e errs]]; discriminate.
Qed.

Lemma decodePostForm_userSignupForm r f v :
  decodePostForm r (anyUserSignupForm f) ≠ inr v.
Proof. unfold decodePostForm, form.Decode. destruct (ParseForm r); discriminate. Qed.

Ltac quiet_step :=
  first
    [ progress autorewrite with backstage
    | reflexivity
    | match goal with
      | |- context [newTemplateData ?r ?s] =>
          let H := fresh in
          pose proof (backstage_newTemplateData r s) as H;
          destruct (newTemplateData r s); simpl in H
      | H : backstage ?a = backstage ?b |- context [backstage ?a] => rewrite H
      | |- context [match ?x with _ => _ end] => destruct x eqn:?
      end ].

Ltac quiet_tac := intros; repeat quiet_step.

Lemma quiet_home app : quiet (home app).
Proof. unfold quiet, home. quiet_tac. Qed.

Lemma quiet_snippetView app : quiet (snippetView app).
Proof. unfold quiet, snippetView. quiet_tac. Qed.

Lemma quiet_snippetCreate : quiet snippetCreate.
Proof. unfold quiet, snippetCreate. quiet_tac. Qed.

Lemma quiet_snippetCreatePost app : quiet (snippetCreatePost app).
Proof.
  unfold quiet, snippetCreatePost. intros r s.
  destruct (decodePostForm r _) as [[dst [err|]]|v] eqn:Hdec.
  - quiet_tac.
  - quiet_tac.
  - by apply decodePostForm_snippetCreateForm in Hdec.
Qed.

Lemma quiet_userSignup : quiet userSignup.
Proof. unfold quiet, userSignup. quiet_tac. Qed.

Lemma quiet_userSignupPost app EmailRX : quiet (userSignupPost app EmailRX).
Proof.
  unfold quiet, userSignupPost. intros r s.
  destruct (decodePostForm r _) as [[dst [err|]]|v] eqn:Hdec.
  - quiet_tac.
  - quiet_tac.
  - by apply decodePostForm_userSignupForm in Hdec.
Qed.

Lemma quiet_userLogin : quiet userLogin.
Proof. unfold quiet, userLogin. quiet_tac. Qed.

Lemma quiet_userLoginPost : quiet userLoginPost.
Proof. unfold quiet, userLoginPost. quiet_tac. Qed.

Lemma quiet_userLogoutPost : quiet userLogoutPost.
Proof. unfold quiet, userLogoutPost. quiet_tac. Qed.

(** ** The interceptors of the dynamic chain *)

Lemma quiet_spec_noSurf env next : quiet next → quiet (spec_noSurf env next).
Proof.
  intros Hnext r s. unfold spec_noSurf.
  repeat first [ rewrite Hnext | quiet_step ].
Qed.

Lemma quiet_spec_authenticate app next : quiet next → quiet (spec_authenticate app next).
Proof.
  intros Hnext r s. unfold spec_authenticate.
  repeat first [ rewrite Hnext | quiet_step ].
Qed.

Lemma quiet_spec_requireAuthentication next :
  quiet next → quiet (spec_requireAuthentication next).
Proof.
  intros Hnext r s. unfold spec_requireAuthentication.
  repeat first [ rewrite Hnext | quiet_step ].
Qed.

(** The constructors of a chain are applied so that the first one is the
    outermost. *)
Lemma alice_Then_nested (c : alice.Chain) (h : http_Handler) :
  alice.Then c h = fold_right (λ constructor h, constructor h) h (alice.constructors c).
Proof.
  unfold alice.Then. rewrite <- fold_left_rev_right, rev_involutive. reflexivity.
Qed.

(** Around a quiet handler, the session middleware loads the session once
    and commits it once, with one token. *)
Lemma spec_LoadAndSave_once env (next : http_Handler) r s :
  quiet next → panicking s = None →
  ∃ token,
    sessionCalls (spec_LoadAndSave env next r s)
      = sessionCalls s ++ [SessionLoad token; SessionCommit token] ∧
    panicking (spec_LoadAndSave env next r s) = None ∧
    templateCache (spec_LoadAndSave env next r s) = templateCache s.
Proof.
  intros Hnext Hpanic. unfold spec_LoadAndSave.
  set (known := match Cookie r with
                | Some token => (λ data, (token, data)) <$> sessionStore s !! token
                | None => None
                end).
  destruct known as [[token data]|].
  - pose proof (Hnext r (setSessionData token data s)) as Hb.
    unfold backstage in Hb. simpl in Hb. injection Hb as Hcache Hcalls Htoken Hstore Hp.
    rewrite Hp, Hpanic. rewrite bool_decide_eq_false_2 by (intros H; by apply H).
    exists token. simpl. rewrite Hcalls, Htoken, Hp, Hcache, <- app_assoc. by repeat split.
  - pose proof (Hnext r (setSessionData (newToken env (randDrawn s)) ∅ (drawToken s))) as Hb.
    unfold backstage in Hb. simpl in Hb. injection Hb as Hcache Hcalls Htoken Hstore Hp.
    rewrite Hp, Hpanic. rewrite bool_decide_eq_false_2 by (intros H; by apply H).
    exists (newToken env (randDrawn s)). simpl.
    rewrite Hcalls, Htoken, Hp, Hcache, <- app_assoc. by repeat split.
Qed.

(** ** routes *)

Lemma lookupRoute_elem_of routes method path rt ps :
  httprouter.lookupRoute routes method path = Some (rt, ps) →
  rt ∈ routes ∧ httprouter.method rt = method.
Proof.
  induction routes as [|rt' routes IH]; [discriminate|]. simpl.
  destruct (bool_decide (httprouter.method rt' = method)) eqn:Hm.
  - destruct (httprouter.matchPath _ _).
    + intros [= <- <-]. apply bool_decide_eq_true in Hm.
      split; [apply list_elem_of_here | exact Hm].
    + intros H. destruct (IH H). split; [by apply list_elem_of_further | done].
  - intros H. destruct (IH H). split; [by apply list_elem_of_further | done].
Qed.

(** The table of the router, with each handler as the chain composes it. *)
Lemma router_table (app : application) (EmailRX : string → bool) (mw : Interceptors) :
  let dyn h := LoadAndSave mw (noSurf mw (authenticate mw h)) in
  let prot h := LoadAndSave mw (noSurf mw (authenticate mw (requireAuthentication mw h))) in
  let route m p h := {| httprouter.method := m; httprouter.pattern := p; httprouter.handle := h |} in
  httprouter.table (router app EmailRX mw) =
    [ route "GET" "/static/*filepath" (fileServer mw);
      route "GET" "/ping" (ping mw);
      route "GET" "/" (dyn (home app));
      route "GET" "/snippet/view/:id" (dyn (snippetView app));
      route "GET" "/user/signup" (dyn userSignup);
      route "POST" "/user/signup" (dyn (userSignupPost app EmailRX));
      route "GET" "/user/login" (dyn userLogin);
      route "POST" "/user/login" (dyn userLoginPost);
      route "GET" "/snippet/create" (prot snippetCreate);
      route "POST" "/snippet/create" (prot (snippetCreatePost app));
      route "POST" "/user/logout" (prot userLogoutPost) ].
Proof. reflexivity. Qed.

(** With the interceptors of the specification, every route but the two
    public ones runs a quiet handler inside session, CSRF guard and
    authenticate. *)
Lemma router_dynamic_routes env app EmailRX rt :
  rt ∈ httprouter.table (router app EmailRX (specInterceptors env app)) →
  httprouter.pattern rt ∉ ["/static/*filepath"; "/ping"] →
  ∃ h, quiet h ∧
       httprouter.handle rt = spec_LoadAndSave env (spec_noSurf env (spec_authenticate app h)).
Proof.
  rewrite router_table. cbv zeta. intros Hin Hpat.
  repeat (apply elem_of_cons in Hin as [->|Hin]).
  - exfalso. apply Hpat. simpl. set_solver.
  - exfalso. apply Hpat. simpl. set_solver.
  - eexists. split; [|reflexivity]. apply quiet_home.
  - eexists. split; [|reflexivity]. apply quiet_snippetView.
  - eexists. split; [|reflexivity]. apply quiet_userSignup.
  - eexists. split; [|reflexivity]. apply quiet_userSignupPost.
  - eexists. split; [|reflexivity]. apply quiet_userLogin.
  - eexists. split; [|reflexivity]. apply quiet_userLoginPost.
  - eexists. split; [|reflexivity]. apply quiet_spec_requireAuthentication, quiet_snippetCreate.
  - eexists. split; [|reflexivity]. apply quiet_spec_requireAuthentication, quiet_snippetCreatePost.
  - eexists. split; [|reflexivity]. apply quiet_spec_requireAuthentication, quiet_userLogoutPost.
  - by apply elem_of_nil in Hin.
Qed.

Lemma routes_nested (app : application) (EmailRX : string → bool) (mw : Interceptors) :
  routes app EmailRX mw =
    recoverPanic mw (logRequest mw (secureHeaders mw
      (httprouter.ServeHTTP (router app EmailRX mw)))).
Proof. reflexivity. Qed.

(** C4. The chain builder applies the constructors so that the first one
    registered is the outermost.  The handler that routes returns is
    recoverPanic around logRequest around secureHeaders around the dispatch
    of the router; the handler of each dynamic route is sessionLoadAndSave
    around the CSRF guard around authenticate around the terminal handler,
    and that of each protected route has requireAuthentication between
    authenticate and the terminal handler.  With the interceptors as the
    specification describes them, every request that the router matches to
    a dynamic or protected route, whatever response it ends with, loads
    the session once and commits it once, inside recoverPanic, which finds
    no panic to recover. *)
Theorem routes_nest_interceptors (env : Env) (app : application) (EmailRX : string → bool)
    (mw : Interceptors) :
  (∀ (c : alice.Chain) (h : http_Handler),
     alice.Then c h = fold_right (λ constructor h, constructor h) h (alice.constructors c)) ∧
  routes app EmailRX mw =
    recoverPanic mw (logRequest mw (secureHeaders mw
      (httprouter.ServeHTTP (router app EmailRX mw)))) ∧
  (let dyn h := LoadAndSave mw (noSurf mw (authenticate mw h)) in
   let prot h := LoadAndSave mw (noSurf mw (authenticate mw (requireAuthentication mw h))) in
   let route m p h := {| httprouter.method := m; httprouter.pattern := p; httprouter.handle := h |} in
   httprouter.table (router app EmailRX mw) =
     [ route "GET" "/static/*filepath" (fileServer mw);
       route "GET" "/ping" (ping mw);
       route "GET" "/" (dyn (home app));
       route "GET" "/snippet/view/:id" (dyn (snippetView app));
       route "GET" "/user/signup" (dyn userSignup);
       route "POST" "/user/signup" (dyn (userSignupPost app EmailRX));
       route "GET" "/user/login" (dyn userLogin);
       route "POST" "/user/login" (dyn userLoginPost);
       route "GET" "/snippet/create" (prot snippetCreate);
       route "POST" "/snippet/create" (prot (snippetCreatePost app));
       route "POST" "/user/logout" (prot userLogoutPost) ]) ∧
  (∀ (r : Request) (s : World) rt ps,
     httprouter.lookupRoute (httprouter.table (router app EmailRX (specInterceptors env app)))
       (Method r) (URLPath r) = Some (rt, ps) →
     httprouter.pattern rt ∉ ["/static/*filepath"; "/ping"] →
     panicking s = None →
     let s' := routes app EmailRX (specInterceptors env app) r s in
     ∃ token, sessionCalls s' = sessionCalls s ++ [SessionLoad token; SessionCommit token] ∧
              panicking s' = None).
Proof.
  split; [apply alice_Then_nested|].
  split; [apply routes_nested|].
  split; [apply router_table|].
  intros r s rt ps Hlookup Hpat Hpanic s'. subst s'.
  rewrite routes_nested.
  destruct (lookupRoute_elem_of _ _ _ _ _ Hlookup) as [Hin _].
  destruct (router_dynamic_routes env app EmailRX rt Hin Hpat) as (h & Hquiet & Hhandle).
  cbn [recoverPanic logRequest secureHeaders specInterceptors].
  unfold spec_recoverPanic, spec_logRequest, spec_secureHeaders, httprouter.ServeHTTP.
  rewrite Hlookup, Hhandle.
  match goal with
  | |- context [spec_LoadAndSave env ?next ?r' ?s0] =>
      destruct (spec_LoadAndSave_once env next r' s0) as (token & Hcalls & Hp & _);
      [ by apply quiet_spec_noSurf, quiet_spec_authenticate | exact Hpanic | ]
  end.
  rewrite Hp. exists token. split; [exact Hcalls | exact Hp].
Qed.


(** The route that the router of any installation finds for a POST to
    /snippet/create. *)
Lemma lookupRoute_POST_snippet_create (app : application) (EmailRX : string → bool)
    (mw : Interceptors) :
  httprouter.lookupRoute (httprouter.table (router app EmailRX mw)) "POST" "/snippet/create"
  = Some ({| httprouter.method := "POST"; httprouter.pattern := "/snippet/create";
             httprouter.handle :=
               LoadAndSave mw (noSurf mw (authenticate mw
                 (requireAuthentication mw (snippetCreatePost app)))) |}, []).
Proof. rewrite router_table. reflexivity. Qed.

(** A submission without title to the create route of the sample
    installation ends in a 422; the session has been loaded once and
    committed once. *)
Lemma routes_nest_interceptors_witness :
  let r := Sample.request "POST" "/snippet/create"
             [("csrf_token", "s3cret"); ("title", ""); ("content", "O snail"); ("expires", "7")] in
  let s' := routes Sample.app (emailRX Sample.env) (specInterceptors Sample.env Sample.app)
              r Sample.world in
  statusOf (resp s') = Some 422 ∧
  ∃ token, sessionCalls s' = [SessionLoad token; SessionCommit token] ∧ panicking s' = None.
Proof.
  intros r s'. split; [vm_compute; reflexivity|].
  destruct (routes_nest_interceptors Sample.env Sample.app (emailRX Sample.env)
              (specInterceptors Sample.env Sample.app)) as (_ & _ & _ & Honce).
  refine (Honce r Sample.world _ [] (lookupRoute_POST_snippet_create _ _ _) _ eq_refl).
  cbn [httprouter.pattern]. intros Hin.
  apply elem_of_cons in Hin as [Hin|Hin]; [discriminate Hin|].
  apply elem_of_cons in Hin as [Hin|Hin]; [discriminate Hin|].
  by apply elem_of_nil in Hin.
Defined.
(** ** The CSRF guard *)

(** The guard turns a state-changing request away when the session has no
    secret that the submitted token matches; the inner handler plays no
    part in the result. *)
Lemma spec_noSurf_rejects env (next : http_Handler) r s :
  safeMethod (Method r) = false →
  (∀ secret, session s !! csrfSecretKey = Some (VString secret) →
             submittedToken r ≠ Some secret) →
  spec_noSurf env next r s = clientError http.StatusBadRequest s.
Proof.
  intros Hsafe Hmis. unfold spec_noSurf. rewrite Hsafe.
  destruct (session s !! csrfSecretKey) as [[secret|n]|] eqn:Hsecret; try reflexivity.
  destruct (submittedToken r) as [token|] eqn:Htoken; try reflexivity.
  rewrite bool_decide_eq_false_2; [reflexivity|].
  intros ->. by apply (Hmis secret).
Qed.

Lemma spec_dynamic_rejects env (inner : http_Handler) r s :
  safeMethod (Method r) = false → csrfMismatch r s → panicking s = None →
  let s' := spec_LoadAndSave env (spec_noSurf env inner) r s in
  ∃ cookie,
    resp s' = resp s ++ http.Error "Bad Request" 400 ++ cookie ∧
    (cookie = [] ∨ ∃ v, cookie = [HeaderSet "Set-Cookie" v]) ∧
    db s' = db s ∧ storeCalls s' = storeCalls s ∧ panicking s' = None.
Proof.
  intros Hsafe Hmis Hpanic s'. subst s'. unfold spec_LoadAndSave.
  destruct (Cookie r) as [token|] eqn:Hcookie;
    [destruct (sessionStore s !! token) as [data|] eqn:Hstore|]; simpl.
  - rewrite spec_noSurf_rejects; [|exact Hsafe|].
    + simpl. rewrite Hpanic. simpl. exists [].
      split; [reflexivity|]. split; [by left|]. by repeat split.
    + simpl. intros secret Hsecret. by apply (Hmis token data secret).
  - rewrite spec_noSurf_rejects; [|exact Hsafe|].
    + simpl. rewrite Hpanic. simpl. eexists.
      split; [rewrite <- app_assoc; reflexivity|].
      split; [right; by eexists|]. by repeat split.
    + simpl. intros secret Hsecret. by rewrite lookup_empty in Hsecret.
  - rewrite spec_noSurf_rejects; [|exact Hsafe|].
    + simpl. rewrite Hpanic. simpl. eexists.
      split; [rewrite <- app_assoc; reflexivity|].
      split; [right; by eexists|]. by repeat split.
    + simpl. intros secret Hsecret. by rewrite lookup_empty in Hsecret.
Qed.

(** Every POST route is registered behind the session middleware and the
    CSRF guard, with authenticate inside the guard. *)
Lemma router_POST_routes app EmailRX mw rt :
  rt ∈ httprouter.table (router app EmailRX mw) → httprouter.method rt = "POST" →
  ∃ h, httprouter.handle rt = LoadAndSave mw (noSurf mw (authenticate mw h)).
Proof.
  rewrite router_table. cbv zeta. intros Hin Hm.
  repeat (apply elem_of_cons in Hin as [->|Hin]); try discriminate Hm;
    try (eexists; reflexivity).
  by apply elem_of_nil in Hin.
Qed.

(** C3. The guard answers a state-changing request whose token does not
    match the secret of the session with the 400 of clientError, whatever
    the inner handler is, which is therefore not invoked.  Every POST route
    that routes registers has its handler inside sessionLoadAndSave and the
    guard, and authenticate inside the guard.  So every POST request that
    the router matches and that does not carry the secret of its session
    ends with the security headers, the 400 response and at most a session
    cookie; the store has not been called and the database is as before. *)
Theorem csrf_guard_rejects (env : Env) (app : application) (EmailRX : string → bool) :
  (∀ (next : http_Handler) r s,
     safeMethod (Method r) = false →
     (∀ secret, session s !! csrfSecretKey = Some (VString secret) →
                submittedToken r ≠ Some secret) →
     spec_noSurf env next r s = clientError http.StatusBadRequest s) ∧
  (∀ mw rt,
     rt ∈ httprouter.table (router app EmailRX mw) → httprouter.method rt = "POST" →
     ∃ h, httprouter.handle rt = LoadAndSave mw (noSurf mw (authenticate mw h))) ∧
  (∀ r s rt ps,
     httprouter.lookupRoute (httprouter.table (router app EmailRX (specInterceptors env app)))
       (Method r) (URLPath r) = Some (rt, ps) →
     Method r = "POST" → csrfMismatch r s → panicking s = None →
     let s' := routes app EmailRX (specInterceptors env app) r s in
     ∃ cookie,
       resp s' = resp s ++ map (λ kv, HeaderSet kv.1 kv.2) (securityHeaders env)
                        ++ http.Error "Bad Request" 400 ++ cookie ∧
       (cookie = [] ∨ ∃ v, cookie = [HeaderSet "Set-Cookie" v]) ∧
       db s' = db s ∧ storeCalls s' = storeCalls s).
Proof.
  split; [intros; by apply spec_noSurf_rejects|].
  split; [intros mw rt; apply router_POST_routes|].
  intros r s rt ps Hlookup Hpost Hmis Hpanic s'. subst s'.
  destruct (lookupRoute_elem_of _ _ _ _ _ Hlookup) as [Hin Hm].
  rewrite Hpost in Hm.
  destruct (router_POST_routes app EmailRX _ rt Hin Hm) as (h & Hhandle).
  cbn [LoadAndSave noSurf authenticate specInterceptors] in Hhandle.
  rewrite routes_nested. cbn [recoverPanic logRequest secureHeaders specInterceptors].
  unfold spec_recoverPanic, spec_logRequest, spec_secureHeaders, httprouter.ServeHTTP.
  rewrite Hlookup, Hhandle.
  match goal with
  | |- context [spec_LoadAndSave env (spec_noSurf env ?inner) ?r' ?s0] =>
      destruct (spec_dynamic_rejects env inner r' s0)
        as (cookie & Hresp & Hcookie & Hdb & Hcalls & Hp)
  end.
  - destruct ps; simpl; by rewrite Hpost.
  - intros token data secret. destruct ps; simpl; apply Hmis.
  - exact Hpanic.
  - cbv zeta in Hresp, Hdb, Hcalls, Hp. rewrite Hp.
    exists cookie. rewrite Hresp, Hdb, Hcalls. simpl. rewrite <- app_assoc.
    by repeat split.
Qed.

(** The route that the router of any installation finds for a POST to
    /user/signup. *)
Lemma lookupRoute_POST_user_signup (app : application) (EmailRX : string → bool)
    (mw : Interceptors) :
  httprouter.lookupRoute (httprouter.table (router app EmailRX mw)) "POST" "/user/signup"
  = Some ({| httprouter.method := "POST"; httprouter.pattern := "/user/signup";
             httprouter.handle :=
               LoadAndSave mw (noSurf mw (authenticate mw (userSignupPost app EmailRX))) |}, []).
Proof. rewrite router_table. reflexivity. Qed.

(** A signup posted with a wrong token to the sample installation: 400,
    and neither a call on the store nor a new user. *)
Lemma csrf_guard_rejects_witness :
  let r := Sample.request "POST" "/user/signup"
             [("csrf_token", "guess"); ("name", "Bob"); ("email", "bob@example.com");
              ("password", "pa55word1")] in
  let s' := routes Sample.app (emailRX Sample.env) (specInterceptors Sample.env Sample.app)
              r Sample.world in
  statusOf (resp s') = Some 400 ∧ db s' = Sample.database ∧ storeCalls s' = [].
Proof.
  intros r s'.
  destruct (csrf_guard_rejects Sample.env Sample.app (emailRX Sample.env)) as (_ & _ & Hreq).
  destruct (Hreq r Sample.world _ [] (lookupRoute_POST_user_signup _ _ _) eq_refl)
    as (cookie & Hresp & Hcookie & Hdb & Hcalls).
  - intros token data secret [= <-] Hdata Hsecret.
    assert (Hstored : sessionStore Sample.world !! "c0ffee" = Some (session Sample.loaded))
      by reflexivity.
    rewrite Hstored in Hdata. apply (inj Some) in Hdata. subst data.
    assert (Hs3 : session Sample.loaded !! csrfSecretKey = Some (VString "s3cret"))
      by reflexivity.
    rewrite Hs3 in Hsecret. injection Hsecret as <-.
    vm_compute. discriminate.
  - reflexivity.
  - subst s'. split; [|split; [exact Hdb | exact Hcalls]].
    rewrite Hresp. reflexivity.
Defined.

(** ** The template cache *)

Lemma templateCache_render status page data s :
  templateCache (render status page data s) = templateCache s.
Proof. unfold render. frame. Qed.

Lemma quiet_keepsCache h : quiet h → keepsCache h.
Proof. intros Hq r s. specialize (Hq r s). unfold backstage in Hq. congruence. Qed.

Lemma keepsCache_spec_recoverPanic next : keepsCache next → keepsCache (spec_recoverPanic next).
Proof.
  intros Hnext r s. unfold spec_recoverPanic.
  destruct (panicking (next r s)); [|apply Hnext].
  destruct (committed _); simpl; apply Hnext.
Qed.

Lemma keepsCache_spec_logRequest next : keepsCache next → keepsCache (spec_logRequest next).
Proof. intros Hnext r s. unfold spec_logRequest. by rewrite Hnext. Qed.

Lemma keepsCache_spec_secureHeaders env next :
  keepsCache next → keepsCache (spec_secureHeaders env next).
Proof. intros Hnext r s. unfold spec_secureHeaders. by rewrite Hnext. Qed.

Lemma keepsCache_spec_LoadAndSave env next :
  keepsCache next → keepsCache (spec_LoadAndSave env next).
Proof.
  intros Hnext r s. unfold spec_LoadAndSave.
  destruct (match Cookie r with
            | Some token => (λ data, (token, data)) <$> sessionStore s !! token
            | None => None
            end) as [[token data]|];
    destruct (bool_decide _); simpl; by rewrite Hnext.
Qed.

(** The dispatch of a router keeps the cache when its handlers do. *)
Lemma keepsCache_ServeHTTP (router : httprouter.Router) :
  (∀ rt, rt ∈ httprouter.table router → keepsCache (httprouter.handle rt)) →
  (∀ h, httprouter.NotFound router = Some h → keepsCache h) →
  keepsCache (httprouter.ServeHTTP router).
Proof.
  intros Htable Hnf r s. unfold httprouter.ServeHTTP.
  destruct (httprouter.lookupRoute _ _ _) as [[rt ps]|] eqn:Hlookup.
  - apply lookupRoute_elem_of in Hlookup as [Hin _]. by apply Htable.
  - destruct (negb _ && negb _); [reflexivity|].
    destruct (_ && negb _); [reflexivity|].
    destruct (httprouter.NotFound router) as [h|] eqn:Hh; [by apply Hnf | reflexivity].
Qed.

(** Serving a request with the handler of [routes] keeps the cache, when
    the file server does. *)
Lemma keepsCache_routes env app EmailRX :
  keepsCache (staticFiles env) →
  keepsCache (routes app EmailRX (specInterceptors env app)).
Proof.
  intros Hstatic. rewrite routes_nested.
  cbn [recoverPanic logRequest secureHeaders specInterceptors].
  apply keepsCache_spec_recoverPanic, keepsCache_spec_logRequest,
    keepsCache_spec_secureHeaders, keepsCache_ServeHTTP.
  - intros rt Hin.
    destruct (decide (httprouter.pattern rt ∈ ["/static/*filepath"; "/ping"])) as [Hpub|Hdyn].
    + rewrite router_table in Hin. cbv zeta in Hin.
      repeat (apply elem_of_cons in Hin as [->|Hin]);
        try (exfalso; revert Hpub; cbn [httprouter.pattern];
             apply (proj1 (bool_decide_eq_false _)); reflexivity).
      * exact Hstatic.
      * intros r s. reflexivity.
      * by apply elem_of_nil in Hin.
    + destruct (router_dynamic_routes env app EmailRX rt Hin Hdyn) as (h & Hq & ->).
      by apply keepsCache_spec_LoadAndSave, quiet_keepsCache, quiet_spec_noSurf,
        quiet_spec_authenticate.
  - intros h [= <-] r s. reflexivity.
Qed.

Lemma ListenAndServe_templateCache (handler : http_Handler) requests s s' :
  keepsCache handler →
  s' ∈ ListenAndServe handler requests s → templateCache s' = templateCache s.
Proof.
  intros Hkeeps. revert s. induction requests as [|r requests IH]; intros s Hin.
  - by apply elem_of_nil in Hin.
  - cbn [ListenAndServe] in Hin. apply elem_of_cons in Hin as [->|Hin].
    + by rewrite Hkeeps.
    + rewrite (IH _ Hin). by rewrite Hkeeps.
Qed.

(** C9. Rendering never changes the template cache, and a page that is
    missing from it is answered with the generic 500 and is still missing
    afterwards.  When main gets as far as serving, the cache has been built,
    once, and the state at the end of every request holds that very cache,
    so that every request finds the same one; this for a file server that
    leaves the cache alone. *)
Theorem templateCache_is_invariant (env : Env) (openDB : models.DB + error)
    (newTemplateCache : gmap string Template + error) (hash : string → string)
    (year : Z) (requests : list Request) (worlds : list World) :
  keepsCache (staticFiles env) →
  (∀ status page data s,
     templateCache (render status page data s) = templateCache s) ∧
  (∀ status page data s,
     templateCache s !! page = None →
     resp (render status page data s) = resp s ++ generic500 ∧
     templateCache (render status page data s) !! page = None) ∧
  (main env openDB newTemplateCache hash year requests = inl worlds →
   ∃ cache, newTemplateCache = inl cache ∧
            ∀ s, s ∈ worlds → templateCache s = cache ∧
                              templateCache (newRequestState s) = cache).
Proof.
  intros Hstatic.
  split; [apply templateCache_render|].
  split.
  - intros status page data s Hnone. rewrite templateCache_render. split; [|exact Hnone].
    unfold render. by rewrite Hnone.
  - unfold main. destruct openDB as [d|err]; [|discriminate].
    destruct newTemplateCache as [cache|err]; [|discriminate].
    intros [= <-]. exists cache. split; [reflexivity|].
    intros s Hin.
    apply (ListenAndServe_templateCache _ _ _ _ (keepsCache_routes env _ _ Hstatic)) in Hin.
    cbn [newRequestState templateCache]. by rewrite Hin.
Qed.

(** The sample installation serves a page that is not in its cache and then
    a signup form: both requests end with the cache that was built at the
    start. *)
Lemma templateCache_is_invariant_witness :
  ∃ worlds,
    main Sample.env (inl Sample.database) (inl Sample.cache) Sample.hash 2024
      [Sample.request "GET" "/snippet/view/2" []; Sample.request "GET" "/user/signup" []]
    = inl worlds ∧
    length worlds = 2%nat ∧
    ∀ s, s ∈ worlds → templateCache s = Sample.cache.
Proof.
  eexists. split; [reflexivity|]. split; [reflexivity|].
  intros s Hin.
  match type of Hin with
  | _ ∈ ?worlds =>
      destruct (templateCache_is_invariant Sample.env (inl Sample.database) (inl Sample.cache)
                  Sample.hash 2024
                  [Sample.request "GET" "/snippet/view/2" [];
                   Sample.request "GET" "/user/signup" []]
                  worlds (λ r s, eq_refl)) as (_ & _ & Hmain)
  end.
  destruct (Hmain eq_refl) as (cache & Hcache & Hall).
  injection Hcache as <-. by apply Hall.
Defined.

(** * Further properties of the code *)

(** ** internal/models/snippets.go: Insert, Get and Latest together *)

Lemma Insert_ok title content expires (d : models.DB) :
  models.driverErr d = None →
  models.SnippetModel.Insert title content expires d =
    ({| models.snippets := models.snippets d ++ [insertedRow title content expires d];
        models.users := models.users d;
        models.UTC_TIMESTAMP := models.UTC_TIMESTAMP d;
        models.AUTO_INCREMENT := models.AUTO_INCREMENT d + 1;
        models.driverErr := models.driverErr d |},
     (models.AUTO_INCREMENT d, None)).
Proof.
  intros Hok. unfold models.SnippetModel.Insert, models.Exec_INSERT. by rewrite Hok.
Qed.

(** The query of [Get] selects nothing for a key that no row has. *)
Lemma Get_filter_absent (d : models.DB) (rows : list models.Snippet) (id : Z) :
  id ∉ models.ID <$> rows →
  filter (λ x, models.SnippetModel.Get_where d id x = true) rows = [].
Proof.
  intros Hnotin. induction rows as [|row rows IH]; [reflexivity|].
  rewrite fmap_cons in Hnotin. apply not_elem_of_cons in Hnotin as [Hne Hnotin].
  rewrite filter_cons. destruct (decide _) as [Hrow|_]; [|by apply IH].
  apply Get_where_true in Hrow as [_ Hid]. congruence.
Qed.

(** With distinct keys, the query of [Get] selects the one row that has the
    key, when it has not expired. *)
Lemma Get_filter_unique (d : models.DB) (rows : list models.Snippet) (s : models.Snippet) :
  NoDup (models.ID <$> rows) → s ∈ rows →
  models.UTC_TIMESTAMP d < models.Expires s →
  filter (λ x, models.SnippetModel.Get_where d (models.ID s) x = true) rows = [s].
Proof.
  intros Hnodup Hin Hlive. induction rows as [|row rows IH]; [by apply elem_of_nil in Hin|].
  rewrite fmap_cons in Hnodup. apply NoDup_cons in Hnodup as [Hnotin Hnodup].
  rewrite filter_cons. apply elem_of_cons in Hin as [<-|Hin].
  - destruct (decide _) as [_|Hno].
    + f_equal. by apply Get_filter_absent.
    + exfalso. apply Hno. by apply Get_where_true.
  - destruct (decide _) as [Hrow|_]; [|by apply IH].
    apply Get_where_true in Hrow as [_ Hid]. exfalso. apply Hnotin. rewrite Hid.
    apply list_elem_of_fmap. by exists s.
Qed.

(** X1. For every database that answers and keeps its keys below the next
    auto-increment key: Insert returns that key without an error, and a Get
    of the key on the database after the insert returns the snippet with
    the title and content given, created at the clock of the database and
    expiring the given number of days later, when that number is at least
    1; when it is 0 or negative the snippet is expired on arrival and Get
    answers ErrNoRecord. *)
Theorem Insert_then_Get (title content : string) (expires : Z) (d : models.DB) :
  models.driverErr d = None →
  (∀ s, s ∈ models.snippets d → models.ID s < models.AUTO_INCREMENT d) →
  let d' := (models.SnippetModel.Insert title content expires d).1 in
  let id := (models.SnippetModel.Insert title content expires d).2.1 in
  (models.SnippetModel.Insert title content expires d).2 = (models.AUTO_INCREMENT d, None) ∧
  (1 ≤ expires →
   models.SnippetModel.Get id d' = (Some (insertedRow title content expires d), None)) ∧
  (expires ≤ 0 → models.SnippetModel.Get id d' = (None, Some ErrNoRecord)).
Proof.
  intros Hok Hfresh d' id. subst d' id. rewrite (Insert_ok _ _ _ _ Hok). cbn [fst snd].
  split; [reflexivity|].
  assert (Hold : filter (λ s, models.SnippetModel.Get_where
                    {| models.snippets := models.snippets d ++ [insertedRow title content expires d];
                       models.users := models.users d;
                       models.UTC_TIMESTAMP := models.UTC_TIMESTAMP d;
                       models.AUTO_INCREMENT := models.AUTO_INCREMENT d + 1;
                       models.driverErr := models.driverErr d |}
                    (models.AUTO_INCREMENT d) s = true) (models.snippets d) = []).
  { induction (models.snippets d) as [|row rows IH]; [reflexivity|].
    rewrite filter_cons. destruct (decide _) as [Hrow|_].
    - apply Get_where_true in Hrow as [_ Hid].
      specialize (Hfresh row (list_elem_of_here _ _)). lia.
    - apply IH. intros s Hs. apply Hfresh. by apply list_elem_of_further. }
  unfold models.SnippetModel.Get. rewrite Query_ok by exact Hok.
  cbn [models.snippets]. rewrite filter_app, Hold, app_nil_l, filter_cons.
  split; intros Hexp.
  - destruct (decide _) as [_|Hno]; [reflexivity|].
    exfalso. apply Hno. apply Get_where_true. simpl. split; [lia | reflexivity].
  - destruct (decide _) as [Hrow|_]; [|reflexivity].
    apply Get_where_true in Hrow as [Hlt _]. simpl in Hlt. lia.
Qed.

(** A snippet for seven days in the sample database gets the key 3 and is
    found under it. *)
Lemma Insert_then_Get_witness :
  let d' := (models.SnippetModel.Insert "O snail" "Climb Mount Fuji" 7 Sample.database).1 in
  (models.SnippetModel.Insert "O snail" "Climb Mount Fuji" 7 Sample.database).2 = (3, None) ∧
  models.SnippetModel.Get 3 d'
    = (Some (insertedRow "O snail" "Climb Mount Fuji" 7 Sample.database), None).
Proof.
  intros d'.
  assert (Hfresh : ∀ s, s ∈ models.snippets Sample.database →
                        models.ID s < models.AUTO_INCREMENT Sample.database).
  { intros s Hs. simpl in Hs.
    apply elem_of_cons in Hs as [->|Hs]; [simpl; lia|].
    apply elem_of_cons in Hs as [->|Hs]; [simpl; lia|].
    by apply elem_of_nil in Hs. }
  destruct (Insert_then_Get "O snail" "Climb Mount Fuji" 7 Sample.database eq_refl Hfresh)
    as (Hid & Hget & _).
  split; [exact Hid|]. apply Hget. lia.
Defined.

(** X2. An insert does not disturb the other snippets: for every database
    that answers, a Get of any key other than the one Insert returns gives
    the same result after the insert as before it. *)
Theorem Insert_leaves_others (title content : string) (expires : Z) (d : models.DB) (id : Z) :
  models.driverErr d = None →
  id ≠ (models.SnippetModel.Insert title content expires d).2.1 →
  models.SnippetModel.Get id (models.SnippetModel.Insert title content expires d).1
    = models.SnippetModel.Get id d.
Proof.
  intros Hok. rewrite (Insert_ok _ _ _ _ Hok). cbn [fst snd]. intros Hne.
  unfold models.SnippetModel.Get. rewrite !Query_ok by exact Hok.
  cbn [models.snippets]. rewrite filter_app, filter_cons.
  destruct (decide _) as [Hrow|_].
  - apply Get_where_true in Hrow as [_ Hid]. simpl in Hid. congruence.
  - by rewrite app_nil_r.
Qed.

Lemma Insert_leaves_others_witness :
  models.SnippetModel.Get 2 (models.SnippetModel.Insert "O snail" "" 7 Sample.database).1
    = (Some Sample.freshSnippet, None).
Proof.
  rewrite (Insert_leaves_others "O snail" "" 7 Sample.database 2 eq_refl).
  - reflexivity.
  - vm_compute. discriminate.
Defined.

(** X3. Insert keeps the keys of the table in order: when they are distinct
    and below the next auto-increment key before the call, they are so
    after it, whether the driver answers or not. *)
Theorem Insert_keeps_keys (title content : string) (expires : Z) (d : models.DB) :
  wellKeyed d → wellKeyed (models.SnippetModel.Insert title content expires d).1.
Proof.
  intros [Hnodup Hfresh]. destruct (models.driverErr d) as [err|] eqn:Herr.
  - unfold models.SnippetModel.Insert, models.Exec_INSERT. rewrite Herr. by split.
  - rewrite (Insert_ok _ _ _ _ Herr). cbn [fst]. split; cbn [models.snippets models.AUTO_INCREMENT].
    + rewrite fmap_app. apply NoDup_app. split; [exact Hnodup|]. split.
      * intros k Hk Hnew. apply list_elem_of_fmap in Hk as (s & -> & Hs).
        apply list_elem_of_singleton in Hnew. specialize (Hfresh s Hs).
        simpl in Hnew. lia.
      * apply NoDup_singleton.
    + intros s Hs. apply elem_of_app in Hs as [Hs|Hs].
      * specialize (Hfresh s Hs). lia.
      * apply list_elem_of_singleton in Hs as ->. simpl. lia.
Qed.

Lemma Insert_keeps_keys_witness :
  wellKeyed (models.SnippetModel.Insert "O snail" "" 7 Sample.database).1.
Proof.
  apply Insert_keeps_keys. split.
  - apply (proj1 (bool_decide_eq_true _)). vm_compute. reflexivity.
  - intros s Hs. simpl in Hs.
    apply elem_of_cons in Hs as [->|Hs]; [simpl; lia|].
    apply elem_of_cons in Hs as [->|Hs]; [simpl; lia|].
    by apply elem_of_nil in Hs.
Defined.

#[local] Instance id_DESC_trans : Transitive models.id_DESC.
Proof. intros a b c. unfold models.id_DESC. lia. Qed.

#[local] Instance id_DESC_total : Total models.id_DESC.
Proof. intros a b. unfold models.id_DESC. lia. Qed.

(** What [Latest] returns when the database answers. *)
Lemma Latest_ok (d : models.DB) :
  models.driverErr d = None →
  models.SnippetModel.Latest d =
    (take 10 (models.ORDER_BY_id_DESC
                (filter (λ s, bool_decide (models.UTC_TIMESTAMP d < models.Expires s) = true)
                        (models.snippets d))), None).
Proof. intros Hok. unfold models.SnippetModel.Latest. by rewrite Query_ok. Qed.

Lemma elem_of_take_list {A} (x : A) (n : nat) (l : list A) : x ∈ take n l → x ∈ l.
Proof. intros Hx. rewrite <- (take_drop n l). apply elem_of_app. by left. Qed.

Lemma Latest_elem_of (d : models.DB) (s : models.Snippet) :
  models.driverErr d = None →
  s ∈ (models.SnippetModel.Latest d).1 →
  s ∈ models.snippets d ∧ models.UTC_TIMESTAMP d < models.Expires s.
Proof.
  intros Hok. rewrite (Latest_ok d Hok). cbn [fst]. intros Hs.
  apply elem_of_take_list in Hs. unfold models.ORDER_BY_id_DESC in Hs.
  rewrite merge_sort_Permutation in Hs.
  apply list_elem_of_filter in Hs as [Hlive Hs].
  apply bool_decide_eq_true in Hlive. by split.
Qed.

(** X4. For every database that answers, Latest returns without an error
    at most ten snippets, each a row of the table that has not expired at
    the clock of the database, in the order of descending id. *)
Theorem Latest_sound (d : models.DB) :
  models.driverErr d = None →
  (models.SnippetModel.Latest d).2 = None ∧
  (length (models.SnippetModel.Latest d).1 ≤ 10)%nat ∧
  StronglySorted (λ a b, models.ID b ≤ models.ID a) (models.SnippetModel.Latest d).1 ∧
  ∀ s, s ∈ (models.SnippetModel.Latest d).1 →
       s ∈ models.snippets d ∧ models.UTC_TIMESTAMP d < models.Expires s.
Proof.
  intros Hok. split; [by rewrite (Latest_ok d Hok)|].
  split; [rewrite (Latest_ok d Hok); cbn [fst]; rewrite length_take; lia|].
  split; [|intros s; by apply Latest_elem_of].
  rewrite (Latest_ok d Hok). cbn [fst].
  match goal with
  | |- StronglySorted _ (take 10 ?l) =>
      apply (StronglySorted_app_1_l models.id_DESC (take 10 l) (drop 10 l));
      rewrite take_drop
  end.
  apply (StronglySorted_merge_sort models.id_DESC); apply _.
Qed.

(** Of the two snippets of the sample database only the second has not
    expired; it is what Latest returns. *)
Lemma Latest_sound_witness :
  models.SnippetModel.Latest Sample.database = ([Sample.freshSnippet], None) ∧
  ∀ s, s ∈ (models.SnippetModel.Latest Sample.database).1 →
       models.UTC_TIMESTAMP Sample.database < models.Expires s.
Proof.
  split; [reflexivity|].
  intros s Hs. by apply (Latest_sound Sample.database eq_refl).
Defined.

(** X5. For every database that answers, Latest leaves out a row that has
    not expired only when it returns ten rows, each with an id at least as
    great as that of the row left out: it returns the most recent ten. *)
Theorem Latest_complete (d : models.DB) (s : models.Snippet) :
  models.driverErr d = None →
  s ∈ models.snippets d → models.UTC_TIMESTAMP d < models.Expires s →
  s ∈ (models.SnippetModel.Latest d).1 ∨
  (length (models.SnippetModel.Latest d).1 = 10%nat ∧
   ∀ x, x ∈ (models.SnippetModel.Latest d).1 → models.ID s ≤ models.ID x).
Proof.
  intros Hok Hin Hlive. rewrite (Latest_ok d Hok). cbn [fst].
  set (sorted := models.ORDER_BY_id_DESC _).
  assert (Hsorted : StronglySorted models.id_DESC sorted)
    by (apply (StronglySorted_merge_sort models.id_DESC); apply _).
  assert (Hs : s ∈ sorted).
  { subst sorted. unfold models.ORDER_BY_id_DESC. rewrite merge_sort_Permutation.
    apply list_elem_of_filter. split; [by apply bool_decide_eq_true | exact Hin]. }
  rewrite <- (take_drop 10 sorted) in Hs, Hsorted.
  apply elem_of_app in Hs as [Hs|Hs]; [by left|]. right. split.
  - apply length_take_le.
    destruct (drop 10 sorted) as [|x rest] eqn:Hdrop; [by apply elem_of_nil in Hs|].
    assert (length (drop 10 sorted) = S (length rest)) as Hlen by (by rewrite Hdrop).
    rewrite length_drop in Hlen. lia.
  - intros x Hx. exact (StronglySorted_app_1_elem_of _ _ _ _ _ Hsorted Hx Hs).
Qed.

Lemma Latest_complete_witness :
  Sample.freshSnippet ∈ (models.SnippetModel.Latest Sample.database).1 ∨
  (length (models.SnippetModel.Latest Sample.database).1 = 10%nat ∧
   ∀ x, x ∈ (models.SnippetModel.Latest Sample.database).1 →
        models.ID Sample.freshSnippet ≤ models.ID x).
Proof.
  apply (Latest_complete Sample.database Sample.freshSnippet eq_refl).
  - apply list_elem_of_further, list_elem_of_here.
  - simpl. lia.
Defined.

(** X6. Latest and Get agree: for every database that answers and whose
    keys are distinct, each snippet that Latest returns is the one that Get
    returns for its id. *)
Theorem Latest_agrees_with_Get (d : models.DB) (s : models.Snippet) :
  models.driverErr d = None →
  NoDup (models.ID <$> models.snippets d) →
  s ∈ (models.SnippetModel.Latest d).1 →
  models.SnippetModel.Get (models.ID s) d = (Some s, None).
Proof.
  intros Hok Hnodup Hs. apply (Latest_elem_of d s Hok) in Hs as [Hin Hlive].
  unfold models.SnippetModel.Get. rewrite Query_ok by exact Hok.
  by rewrite (Get_filter_unique d _ s Hnodup Hin Hlive).
Qed.

Lemma Latest_agrees_with_Get_witness :
  models.SnippetModel.Get 2 Sample.database = (Some Sample.freshSnippet, None).
Proof.
  apply (Latest_agrees_with_Get Sample.database Sample.freshSnippet eq_refl).
  - apply (proj1 (bool_decide_eq_true _)). vm_compute. reflexivity.
  - apply list_elem_of_here.
Defined.

(** ** cmd/web/handlers.go on the snippet model of internal/models *)

Lemma session_render status page data s :
  session (render status page data s) = session s.
Proof. unfold render. frame. Qed.

Lemma errorLog_render_ok status page data s ts written :
  templateCache s !! page = Some ts →
  ExecuteTemplate ts "base" data = (written, None) →
  errorLog (render status page data s) = errorLog s.
Proof. intros Hts Hexec. unfold render. by rewrite Hts, Hexec. Qed.

(** A form that passes the checks has one of the three expiry values. *)
Lemma snippetCreateChecks_valid_expires f :
  snippetCreateForm.Validator f = validator.zero →
  snippetCreateForm.Valid (snippetCreateChecks f) = true →
  snippetCreateForm.Expires f ∈ [1; 7; 365].
Proof.
  destruct f as [title content expires v]. simpl. intros ->.
  unfold snippetCreateChecks, snippetCreateForm.Valid.
  cbn [snippetCreateForm.Title snippetCreateForm.Content snippetCreateForm.Expires
       snippetCreateForm.CheckField snippetCreateForm.Validator].
  destruct (validator.PermittedInt expires [1; 7; 365]) eqn:Hperm.
  - intros _. unfold validator.PermittedInt in Hperm. by apply bool_decide_eq_true in Hperm.
  - destruct (validator.NotBlank title), (validator.MaxChars title 100),
      (validator.NotBlank content); intros Hx; vm_compute in Hx; discriminate Hx.
Qed.

(** X7. Creating and finding a snippet: for every POST submission that
    decodes to a form which passes the checks, handled on the MySQL snippet
    model with a database that answers and keeps its keys below the next
    auto-increment key, snippetCreatePost redirects with 303 to
    /snippet/view/ followed by that key, and a Get of the key on the
    database the handler leaves behind returns a snippet with the submitted
    title and content that has not expired. *)
Theorem snippetCreatePost_stores_snippet (app : application) (r : Request) (s : World)
    (f : snippetCreateForm.t) :
  snippets app = models.SnippetModel_impl →
  decodesTo r f →
  snippetCreateForm.Valid (snippetCreateChecks f) = true →
  Method r = "POST" →
  models.driverErr (db s) = None →
  (∀ row, row ∈ models.snippets (db s) → models.ID row < models.AUTO_INCREMENT (db s)) →
  let s' := snippetCreatePost app r s in
  let id := models.AUTO_INCREMENT (db s) in
  resp s' = resp s ++ [HeaderSet "Location" ("/snippet/view/" +:+ pretty id); WriteHeader 303] ∧
  ∃ row, models.SnippetModel.Get id (db s') = (Some row, None) ∧
         models.ID row = id ∧
         models.Title row = snippetCreateForm.Title f ∧
         models.Content row = snippetCreateForm.Content f ∧
         models.UTC_TIMESTAMP (db s') < models.Expires row.
Proof.
  intros Happ Hdec Hvalid Hpost Hok Hfresh s' id. subst s' id.
  pose proof (snippetCreateChecks_valid_expires f (decodesTo_Validator r f Hdec) Hvalid) as Hexp.
  rewrite (snippetCreatePost_decoded app r s f Hdec). cbv zeta.
  rewrite Hvalid, Happ. cbn [negb models.SnippetModelInterface.Insert models.SnippetModel_impl].
  destruct (snippetCreateChecks_fields f) as (-> & -> & ->).
  rewrite (Insert_ok _ _ _ _ Hok). cbn [fst snd].
  rewrite resp_http_Redirect_POST, db_http_Redirect by exact Hpost.
  split; [reflexivity|].
  cbn [db sessionManager.Put setSession setDB].
  exists (insertedRow (snippetCreateForm.Title f) (snippetCreateForm.Content f)
            (snippetCreateForm.Expires f) (db s)).
  assert (1 ≤ snippetCreateForm.Expires f) as Hpos.
  { repeat (apply elem_of_cons in Hexp as [->|Hexp]); try lia. by apply elem_of_nil in Hexp. }
  split; [|simpl; repeat split; lia].
  unfold models.SnippetModel.Get. rewrite Query_ok by exact Hok.
  cbn [models.snippets]. rewrite filter_app, filter_cons.
  rewrite Get_filter_absent.
  - destruct (decide _) as [_|Hno]; [reflexivity|].
    exfalso. apply Hno. apply Get_where_true. simpl. split; [lia | reflexivity].
  - intros Hin. apply list_elem_of_fmap in Hin as (row & Hid & Hrow).
    specialize (Hfresh row Hrow). lia.
Qed.

Lemma Sample_database_fresh row :
  row ∈ models.snippets Sample.database → models.ID row < models.AUTO_INCREMENT Sample.database.
Proof.
  intros Hs. simpl in Hs.
  apply elem_of_cons in Hs as [->|Hs]; [simpl; lia|].
  apply elem_of_cons in Hs as [->|Hs]; [simpl; lia|].
  by apply elem_of_nil in Hs.
Qed.

(** The submission of the specification's example, on the sample database:
    the redirect goes to /snippet/view/3. *)
Lemma snippetCreatePost_stores_snippet_witness :
  let r := Sample.request "POST" "/snippet/create"
             [("title", "T"); ("content", "C"); ("expires", "7")] in
  let s' := snippetCreatePost Sample.app r Sample.loaded in
  headerOf (resp s') ∅ !! "Location" = Some "/snippet/view/3" ∧
  ∃ row, models.SnippetModel.Get 3 (db s') = (Some row, None) ∧
         models.Title row = "T" ∧ models.Content row = "C".
Proof.
  intros r s'.
  pose (f := {| snippetCreateForm.Title := "T"; snippetCreateForm.Content := "C";
                snippetCreateForm.Expires := 7;
                snippetCreateForm.Validator := validator.zero |}).
  assert (Hdec : decodesTo r f).
  { eexists. split; [reflexivity|]. vm_compute. reflexivity. }
  assert (Hvalid : snippetCreateForm.Valid (snippetCreateChecks f) = true)
    by (vm_compute; reflexivity).
  destruct (snippetCreatePost_stores_snippet Sample.app r Sample.loaded f eq_refl Hdec Hvalid
              eq_refl eq_refl Sample_database_fresh) as (Hresp & row & Hget & _ & Ht & Hc & _).
  split.
  - subst s'. rewrite Hresp. reflexivity.
  - exists row. by repeat split.
Defined.

(** X8. When the database does not answer: for every POST submission that
    decodes to a form which passes the checks, handled on the MySQL snippet
    model whose driver reports an error, snippetCreatePost writes the
    generic 500, logs the error of the driver, and leaves the tables and the
    session (no flash message) as they were. *)
Theorem snippetCreatePost_driver_failure (app : application) (r : Request) (s : World)
    (f : snippetCreateForm.t) (err : error) :
  snippets app = models.SnippetModel_impl →
  decodesTo r f →
  snippetCreateForm.Valid (snippetCreateChecks f) = true →
  models.driverErr (db s) = Some err →
  let s' := snippetCreatePost app r s in
  resp s' = resp s ++ generic500 ∧
  errorLog s' = errorLog s ++ [Error err] ∧
  db s' = db s ∧ session s' = session s.
Proof.
  intros Happ Hdec Hvalid Herr s'. subst s'.
  rewrite (snippetCreatePost_decoded app r s f Hdec). cbv zeta.
  rewrite Hvalid, Happ. cbn [negb models.SnippetModelInterface.Insert models.SnippetModel_impl].
  unfold models.SnippetModel.Insert, models.Exec_INSERT. rewrite Herr. cbn [fst snd].
  by repeat split.
Qed.

Lemma snippetCreatePost_driver_failure_witness :
  let r := Sample.request "POST" "/snippet/create"
             [("title", "T"); ("content", "C"); ("expires", "7")] in
  statusOf (resp (snippetCreatePost Sample.app r Offline.loaded)) = Some 500 ∧
  db (snippetCreatePost Sample.app r Offline.loaded) = Offline.database.
Proof.
  intros r.
  pose (f := {| snippetCreateForm.Title := "T"; snippetCreateForm.Content := "C";
                snippetCreateForm.Expires := 7;
                snippetCreateForm.Validator := validator.zero |}).
  assert (Hdec : decodesTo r f).
  { eexists. split; [reflexivity|]. vm_compute. reflexivity. }
  assert (Hvalid : snippetCreateForm.Valid (snippetCreateChecks f) = true)
    by (vm_compute; reflexivity).
  destruct (snippetCreatePost_driver_failure Sample.app r Offline.loaded f
              (errorString "invalid connection") eq_refl Hdec Hvalid eq_refl)
    as (Hresp & _ & Hdb & _).
  split; [by rewrite Hresp | exact Hdb].
Defined.

Lemma newTemplateData_setDB r d call s :
  (newTemplateData r (setDB d call s)).1 = (newTemplateData r s).1 ∧
  templateCache (newTemplateData r (setDB d call s)).2 = templateCache s ∧
  resp (newTemplateData r (setDB d call s)).2 = resp s ∧
  db (newTemplateData r (setDB d call s)).2 = d ∧
  session (newTemplateData r (setDB d call s)).2 = session (newTemplateData r s).2.
Proof.
  unfold newTemplateData, sessionManager.PopString. simpl.
  destruct (session s !! "flash") as [[str|n]|]; by repeat split.
Qed.

(** X9. A snippet that has expired, or that does not exist, cannot be
    viewed: for every request whose id parameter Atoi reads as an integer
    that is at least 1, handled on the MySQL snippet model with a database
    that answers and in which every row with that id has expired, snippetView
    makes one Get call and answers with the 404 of notFound; the database
    and the session, with a flash message it may hold, are as before. *)
Theorem snippetView_expired_is_404 (app : application) (r : Request) (s : World) (id : Z) :
  snippets app = models.SnippetModel_impl →
  strconv.Atoi (ByName (Params r) "id") = (id, None) →
  1 ≤ id →
  models.driverErr (db s) = None →
  (∀ row, row ∈ models.snippets (db s) → models.ID row = id →
          models.Expires row ≤ models.UTC_TIMESTAMP (db s)) →
  let s' := snippetView app r s in
  resp s' = resp s ++ http.Error "Not Found" 404 ∧
  storeCalls s' = storeCalls s ++ [CallGet id] ∧
  db s' = db s ∧ session s' = session s.
Proof.
  intros Happ Hatoi Hid Hok Hexp s'. subst s'. unfold snippetView.
  rewrite Hatoi, Happ.
  rewrite bool_decide_eq_false_2 by (intros H; by apply H).
  rewrite bool_decide_eq_false_2 by lia.
  cbn [orb models.SnippetModelInterface.Get models.SnippetModel_impl].
  unfold models.SnippetModel.Get. rewrite Query_ok, Get_filter_expired by assumption.
  simpl. by repeat split.
Qed.

(** The first snippet of the sample database has expired: viewing it gives
    the 404. *)
Lemma snippetView_expired_is_404_witness :
  let r := withParams [("id", "1")] (Sample.request "GET" "/snippet/view/1" []) in
  statusOf (resp (snippetView Sample.app r Sample.loaded)) = Some 404 ∧
  db (snippetView Sample.app r Sample.loaded) = Sample.database.
Proof.
  intros r.
  destruct (snippetView_expired_is_404 Sample.app r Sample.loaded 1 eq_refl eq_refl)
    as (Hresp & _ & Hdb & _).
  - lia.
  - reflexivity.
  - intros row Hrow Hid. simpl in Hrow.
    apply elem_of_cons in Hrow as [->|Hrow]; [simpl; lia|].
    apply elem_of_cons in Hrow as [->|Hrow]; [discriminate Hid|].
    by apply elem_of_nil in Hrow.
  - split; [by rewrite Hresp | exact Hdb].
Defined.

(** X10. A snippet that has not expired is shown: for every request whose
    id parameter Atoi reads as an integer that is at least 1, handled on the
    MySQL snippet model with a database that answers, has distinct keys and
    holds a row with that id which has not expired, when view.tmpl is in
    the cache and executes without an error on the template data carrying
    that row, snippetView writes the status 200 and the output of the
    template; the database is as before. *)
Theorem snippetView_shows_live_snippet (app : application) (r : Request) (s : World)
    (row : models.Snippet) (ts : Template) (written : string) :
  snippets app = models.SnippetModel_impl →
  strconv.Atoi (ByName (Params r) "id") = (models.ID row, None) →
  1 ≤ models.ID row →
  models.driverErr (db s) = None →
  NoDup (models.ID <$> models.snippets (db s)) →
  row ∈ models.snippets (db s) →
  models.UTC_TIMESTAMP (db s) < models.Expires row →
  templateCache s !! "view.tmpl" = Some ts →
  ExecuteTemplate ts "base" (withSnippet (Some row) (newTemplateData r s).1) = (written, None) →
  let s' := snippetView app r s in
  resp s' = resp s ++ WriteHeader 200 :: WriteTo written ∧
  storeCalls s' = storeCalls s ++ [CallGet (models.ID row)] ∧
  db s' = db s.
Proof.
  intros Happ Hatoi Hid Hok Hnodup Hin Hlive Hts Hexec s'. subst s'. unfold snippetView.
  rewrite Hatoi, Happ.
  rewrite bool_decide_eq_false_2 by (intros H; by apply H).
  rewrite bool_decide_eq_false_2 by lia.
  cbn [orb models.SnippetModelInterface.Get models.SnippetModel_impl].
  unfold models.SnippetModel.Get. rewrite Query_ok by exact Hok.
  rewrite (Get_filter_unique _ _ row Hnodup Hin Hlive). cbn [models.Scan].
  destruct (newTemplateData_setDB r (db s) (CallGet (models.ID row)) s)
    as (Hdata & Hcache & Hresp & Hdb & _).
  pose proof (storeCalls_newTemplateData r (setDB (db s) (CallGet (models.ID row)) s)) as Hcalls.
  destruct (newTemplateData r (setDB _ _ s)) as [data s1]. simpl in Hdata, Hcache, Hresp, Hdb, Hcalls.
  subst data.
  rewrite (resp_render_ok _ _ _ _ ts written), storeCalls_render, db_render;
    [|by rewrite Hcache|exact Hexec].
  by rewrite Hresp, Hdb, Hcalls.
Qed.

(** The second snippet of the sample database, with a page for it in the
    cache. *)
Lemma snippetView_shows_live_snippet_witness :
  let r := withParams [("id", "2")] (Sample.request "GET" "/snippet/view/2" []) in
  let page := {| ExecuteTemplate := λ name data,
                   (from_option models.Title "" (Snippet data), None) |} in
  let s := {| resp := []; errorLog := []; infoLog := [];
              templateCache := <["view.tmpl" := page]> Sample.cache;
              session := session Sample.loaded; sessionToken := "c0ffee";
              sessionStore := sessionStore Sample.world;
              sessionCalls := [SessionLoad "c0ffee"]; db := Sample.database;
              storeCalls := []; panicking := None; timeNowYear := 2024; randDrawn := 0 |} in
  statusOf (resp (snippetView Sample.app r s)) = Some 200 ∧
  bodyOf (resp (snippetView Sample.app r s)) = "Over the wintry forest".
Proof.
  intros r page s.
  destruct (snippetView_shows_live_snippet Sample.app r s Sample.freshSnippet page
              "Over the wintry forest" eq_refl eq_refl) as (Hresp & _).
  - simpl. lia.
  - reflexivity.
  - apply (proj1 (bool_decide_eq_true _)). vm_compute. reflexivity.
  - apply list_elem_of_further, list_elem_of_here.
  - simpl. lia.
  - reflexivity.
  - reflexivity.
  - by rewrite Hresp.
Defined.


(** X11. The home page lists live snippets only: for every request handled
    on the MySQL snippet model with a database that answers, when home.tmpl
    is in the cache and executes without an error, home writes the status
    200 and the output of the template, which was given at most ten
    snippets, each a row of the table that has not expired; the database is
    as before. *)
Theorem home_lists_live_snippets (app : application) (r : Request) (s : World)
    (ts : Template) (written : string) :
  snippets app = models.SnippetModel_impl →
  models.driverErr (db s) = None →
  templateCache s !! "home.tmpl" = Some ts →
  let data := withSnippets (models.SnippetModel.Latest (db s)).1 (newTemplateData r s).1 in
  ExecuteTemplate ts "base" data = (written, None) →
  resp (home app r s) = resp s ++ WriteHeader 200 :: WriteTo written ∧
  db (home app r s) = db s ∧
  (length (Snippets data) ≤ 10)%nat ∧
  ∀ row, row ∈ Snippets data →
         row ∈ models.snippets (db s) ∧ models.UTC_TIMESTAMP (db s) < models.Expires row.
Proof.
  intros Happ Hok Hts data Hexec. subst data.
  split; [|split; [|split]].
  - unfold home. rewrite Happ.
    cbn [models.SnippetModelInterface.Latest models.SnippetModel_impl].
    rewrite (Latest_ok _ Hok) in *. cbn [fst snd] in *.
    destruct (newTemplateData_setDB r (db s) CallLatest s) as (Hdata & Hcache & Hresp & _).
    destruct (newTemplateData r (setDB _ _ s)) as [data s1]. simpl in Hdata, Hcache, Hresp.
    subst data.
    rewrite (resp_render_ok _ _ _ _ ts written); [by rewrite Hresp|by rewrite Hcache|exact Hexec].
  - unfold home. rewrite Happ.
    cbn [models.SnippetModelInterface.Latest models.SnippetModel_impl].
    rewrite (Latest_ok _ Hok). cbn [fst snd].
    destruct (newTemplateData_setDB r (db s) CallLatest s) as (_ & _ & _ & Hdb & _).
    destruct (newTemplateData r (setDB _ _ s)) as [data s1]. simpl in Hdb.
    by rewrite db_render.
  - cbn [Snippets withSnippets]. rewrite (Latest_ok _ Hok). cbn [fst].
    rewrite length_take. lia.
  - intros row Hrow. cbn [Snippets withSnippets] in Hrow. by apply Latest_elem_of.
Qed.

(** The sample installation with a home page that prints the titles. *)
Lemma home_lists_live_snippets_witness :
  let page := {| ExecuteTemplate := λ name data,
                   (foldr (λ row acc, models.Title row +:+ ";" +:+ acc) "" (Snippets data), None) |} in
  let s := {| resp := []; errorLog := []; infoLog := [];
              templateCache := <["home.tmpl" := page]> Sample.cache;
              session := session Sample.loaded; sessionToken := "c0ffee";
              sessionStore := sessionStore Sample.world;
              sessionCalls := [SessionLoad "c0ffee"]; db := Sample.database;
              storeCalls := []; panicking := None; timeNowYear := 2024; randDrawn := 0 |} in
  bodyOf (resp (home Sample.app (Sample.request "GET" "/" []) s)) = "Over the wintry forest;".
Proof.
  intros page s.
  destruct (home_lists_live_snippets Sample.app (Sample.request "GET" "/" []) s page
              "Over the wintry forest;" eq_refl eq_refl eq_refl eq_refl) as (Hresp & _).
  by rewrite Hresp.
Defined.

(** X12. When the database does not answer, home, on the MySQL snippet
    model, writes the generic 500 and logs the error of the driver; no
    template is executed, and the session keeps its flash message for a
    later page. *)
Theorem home_driver_failure (app : application) (r : Request) (s : World) (err : error) :
  snippets app = models.SnippetModel_impl →
  models.driverErr (db s) = Some err →
  resp (home app r s) = resp s ++ generic500 ∧
  errorLog (home app r s) = errorLog s ++ [Error err] ∧
  session (home app r s) = session s ∧
  db (home app r s) = db s.
Proof.
  intros Happ Herr. unfold home. rewrite Happ.
  cbn [models.SnippetModelInterface.Latest models.SnippetModel_impl].
  unfold models.SnippetModel.Latest, models.Query. rewrite Herr. by repeat split.
Qed.

Lemma home_driver_failure_witness :
  let s' := home Sample.app (Sample.request "GET" "/" []) Offline.loaded in
  statusOf (resp s') = Some 500 ∧
  session s' !! "flash" = Some (VString "Snippet successfully created!").
Proof.
  intros s'.
  destruct (home_driver_failure Sample.app (Sample.request "GET" "/" []) Offline.loaded
              (errorString "invalid connection") eq_refl eq_refl) as (Hresp & _ & Hsession & _).
  subst s'. rewrite Hresp, Hsession. split; reflexivity.
Defined.

(** ** cmd/web/helpers.go: the template data and the form decoding *)

(** X13. A flash message is shown once: for every state, message and
    request, after the message has been put into the session under flash,
    newTemplateData returns it in the Flash field and takes it out of the
    session, the other entries of which stay; a second newTemplateData
    returns an empty Flash. *)
Theorem newTemplateData_pops_flash (r r' : Request) (s : World) (message : string) :
  let s1 := sessionManager.Put "flash" (VString message) s in
  Flash (newTemplateData r s1).1 = message ∧
  session (newTemplateData r s1).2 = delete "flash" (session s) ∧
  (∀ key, key ≠ "flash" → session (newTemplateData r s1).2 !! key = session s !! key) ∧
  Flash (newTemplateData r' (newTemplateData r s1).2).1 = "" ∧
  CurrentYear (newTemplateData r s1).1 = timeNowYear s ∧
  IsAuthenticated (newTemplateData r s1).1 = isAuthenticated r ∧
  CSRFToken (newTemplateData r s1).1 = ctxCSRFToken r.
Proof.
  intros s1.
  assert (Hnew : newTemplateData r s1 =
            ({| CurrentYear := timeNowYear s; Snippet := None; Snippets := [];
                Form := anyNil; Flash := message;
                IsAuthenticated := isAuthenticated r; CSRFToken := ctxCSRFToken r |},
             setSession (delete "flash" (session s)) s1)).
  { subst s1. unfold newTemplateData, sessionManager.PopString, sessionManager.Put.
    cbn [session setSession timeNowYear]. rewrite lookup_insert_eq, delete_insert_eq.
    reflexivity. }
  rewrite Hnew. cbn [fst snd Flash CurrentYear IsAuthenticated CSRFToken session setSession].
  split; [reflexivity|]. split; [reflexivity|].
  split; [intros key Hkey; by rewrite lookup_delete_ne|].
  split; [|by repeat split].
  unfold newTemplateData, sessionManager.PopString. cbn [session setSession].
  by rewrite lookup_delete_eq.
Qed.

(** ** cmd/web/handlers.go: refused submissions, signup, and what the handlers leave alone *)

(** X14. A submission that cannot be decoded is refused before anything
    else happens: for every request whose body ParseForm rejects, or whose
    expires field is a non-empty string that does not parse as an integer,
    snippetCreatePost answers with the 400 of clientError and nothing else;
    the store is not called, and the database and the session are as
    before. *)
Theorem snippetCreatePost_bad_request (app : application) (r : Request) (s : World) :
  ((∃ err, ParseForm r = inr err) ∨
   (∃ values v vs, ParseForm r = inl values ∧ values !! "expires" = Some (v :: vs) ∧
                   v ≠ "" ∧ (strconv.ParseInt "ParseInt" v).2 ≠ None)) →
  snippetCreatePost app r s = clientError http.StatusBadRequest s ∧
  resp (snippetCreatePost app r s) = resp s ++ http.Error "Bad Request" 400 ∧
  storeCalls (snippetCreatePost app r s) = storeCalls s ∧
  db (snippetCreatePost app r s) = db s ∧
  session (snippetCreatePost app r s) = session s.
Proof.
  intros Hbad.
  assert (Hpost : snippetCreatePost app r s = clientError http.StatusBadRequest s).
  { unfold snippetCreatePost, decodePostForm.
    destruct Hbad as [[err Hparse]|(values & v & vs & Hparse & Hv & Hne & Hint)].
    - by rewrite Hparse.
    - rewrite Hparse. unfold form.Decode, form.setInt. rewrite Hv.
      rewrite bool_decide_eq_false_2 by exact Hne.
      destruct (strconv.ParseInt "ParseInt" v) as [n [e|]]; [reflexivity|].
      by destruct Hint. }
  rewrite Hpost. by repeat split.
Qed.

(** An expiry of "soon" is not an integer. *)
Lemma snippetCreatePost_bad_request_witness :
  let r := Sample.request "POST" "/snippet/create"
             [("title", "T"); ("content", "C"); ("expires", "soon")] in
  statusOf (resp (snippetCreatePost Sample.app r Sample.loaded)) = Some 400 ∧
  storeCalls (snippetCreatePost Sample.app r Sample.loaded) = [].
Proof.
  intros r.
  destruct (snippetCreatePost_bad_request Sample.app r Sample.loaded)
    as (_ & Hresp & Hcalls & _).
  - right. eexists _, "soon", []. split; [reflexivity|].
    split; [vm_compute; reflexivity|]. split; [discriminate|].
    vm_compute. discriminate.
  - split; [by rewrite Hresp | exact Hcalls].
Defined.

Lemma storeCalls_http_Redirect r url code s :
  storeCalls (http_Redirect r url code s) = storeCalls s.
Proof. unfold http_Redirect. frame. Qed.

Lemma errorLog_http_Redirect r url code s :
  errorLog (http_Redirect r url code s) = errorLog s.
Proof. unfold http_Redirect. frame. Qed.

Lemma userSignupChecks_fields EmailRX f :
  userSignupForm.Name (userSignupChecks EmailRX f) = userSignupForm.Name f ∧
  userSignupForm.Email (userSignupChecks EmailRX f) = userSignupForm.Email f ∧
  userSignupForm.Password (userSignupChecks EmailRX f) = userSignupForm.Password f.
Proof. repeat split. Qed.

(** X15. A signup that fails the checks is not inserted: for every
    submission that decodes to a signup form which the checks find invalid,
    userSignupPost answers with the rendering of signup.tmpl at 422, given
    the form with its name, email and password as they were decoded; the
    user model is not called and the database is as before. *)
Theorem userSignupPost_invalid_rerenders (app : application) (EmailRX : string → bool)
    (r : Request) (s : World) (f : userSignupForm.t) :
  signupDecodesTo r f →
  userSignupForm.Valid (userSignupChecks EmailRX f) = false →
  let form := userSignupChecks EmailRX f in
  userSignupPost app EmailRX r s =
    render 422 "signup.tmpl"
      (withForm (anyUserSignupForm form) (newTemplateData r s).1) (newTemplateData r s).2 ∧
  userSignupForm.Name form = userSignupForm.Name f ∧
  userSignupForm.Email form = userSignupForm.Email f ∧
  userSignupForm.Password form = userSignupForm.Password f ∧
  storeCalls (userSignupPost app EmailRX r s) = storeCalls s ∧
  db (userSignupPost app EmailRX r s) = db s.
Proof.
  intros (values & Hparse & Hdec) Hinvalid form.
  assert (Hpost : userSignupPost app EmailRX r s =
    render 422 "signup.tmpl"
      (withForm (anyUserSignupForm form) (newTemplateData r s).1) (newTemplateData r s).2).
  { unfold userSignupPost, decodePostForm. rewrite Hparse, Hdec.
    cbn [theUserSignupForm]. rewrite Hinvalid. cbn [negb].
    by destruct (newTemplateData r s). }
  split; [exact Hpost|]. split; [reflexivity|]. split; [reflexivity|]. split; [reflexivity|].
  rewrite Hpost, storeCalls_render, db_render, storeCalls_newTemplateData, db_newTemplateData.
  by split.
Qed.

(** A password of five characters: the form comes back at 422 and no user
    is inserted. *)
Lemma userSignupPost_invalid_rerenders_witness :
  let r := Sample.request "POST" "/user/signup"
             [("name", "Bob"); ("email", "bob@example.com"); ("password", "12345")] in
  let s' := userSignupPost Sample.app (emailRX Sample.env) r Sample.loaded in
  statusOf (resp s') = Some 422 ∧ storeCalls s' = [] ∧ db s' = Sample.database.
Proof.
  intros r s'.
  pose (f := {| userSignupForm.Name := "Bob"; userSignupForm.Email := "bob@example.com";
                userSignupForm.Password := "12345";
                userSignupForm.Validator := validator.zero |}).
  assert (Hdec : signupDecodesTo r f).
  { eexists. split; [reflexivity|]. vm_compute. reflexivity. }
  assert (Hinvalid : userSignupForm.Valid (userSignupChecks (emailRX Sample.env) f) = false)
    by (vm_compute; reflexivity).
  destruct (userSignupPost_invalid_rerenders Sample.app (emailRX Sample.env) r Sample.loaded f
              Hdec Hinvalid) as (Hpost & _ & _ & _ & Hcalls & Hdb).
  split; [|split; [exact Hcalls | exact Hdb]].
  subst s'. by rewrite Hpost.
Defined.

(** X16. A signup that is accepted: for every POST submission that decodes
    to a signup form which passes the checks and for which the insert of
    the user returns no error, userSignupPost calls the insert once with the
    name, email and password of the form, puts the flash message into the
    session, and the calls on the response writer are the Location header
    /user/login and the status 303 and no others. *)
Theorem userSignupPost_success_redirects (app : application) (EmailRX : string → bool)
    (r : Request) (s : World) (f : userSignupForm.t) (d : models.DB) :
  signupDecodesTo r f →
  userSignupForm.Valid (userSignupChecks EmailRX f) = true →
  Method r = "POST" →
  models.UserModelInterface.Insert (users app)
    (userSignupForm.Name f) (userSignupForm.Email f) (userSignupForm.Password f) (db s)
    = (d, None) →
  let s' := userSignupPost app EmailRX r s in
  resp s' = resp s ++ [HeaderSet "Location" "/user/login"; WriteHeader 303] ∧
  session s' = <["flash" := VString "Your signup was succesful. Please log in"]> (session s) ∧
  db s' = d ∧
  storeCalls s' = storeCalls s ++ [CallUserInsert (userSignupForm.Name f)
                                      (userSignupForm.Email f) (userSignupForm.Password f)] ∧
  errorLog s' = errorLog s.
Proof.
  intros (values & Hparse & Hdec) Hvalid Hpost Hins s'. subst s'.
  unfold userSignupPost, decodePostForm. rewrite Hparse, Hdec.
  cbn [theUserSignupForm]. rewrite Hvalid. cbn [negb].
  destruct (userSignupChecks_fields EmailRX f) as (-> & -> & ->). rewrite Hins.
  rewrite resp_http_Redirect_POST, session_http_Redirect, db_http_Redirect,
    storeCalls_http_Redirect, errorLog_http_Redirect by exact Hpost.
  by repeat split.
Qed.

(** Bob signs up with the sample installation. *)
Lemma userSignupPost_success_redirects_witness :
  let r := Sample.request "POST" "/user/signup"
             [("name", "Bob"); ("email", "bob@example.com"); ("password", "pa55word1")] in
  let s' := userSignupPost Sample.app (emailRX Sample.env) r Sample.loaded in
  statusOf (resp s') = Some 303 ∧
  length (models.users (db s')) = 2%nat.
Proof.
  intros r s'.
  pose (f := {| userSignupForm.Name := "Bob"; userSignupForm.Email := "bob@example.com";
                userSignupForm.Password := "pa55word1";
                userSignupForm.Validator := validator.zero |}).
  assert (Hdec : signupDecodesTo r f).
  { eexists. split; [reflexivity|]. vm_compute. reflexivity. }
  assert (Hvalid : userSignupForm.Valid (userSignupChecks (emailRX Sample.env) f) = true)
    by (vm_compute; reflexivity).
  destruct (userSignupPost_success_redirects Sample.app (emailRX Sample.env) r Sample.loaded f
              _ Hdec Hvalid eq_refl eq_refl) as (Hresp & _ & Hdb & _).
  subst s'. rewrite Hresp, Hdb. split; reflexivity.
Defined.

(** X17. Reading pages does not write: on the MySQL snippet model, home and
    snippetView leave the database as it is for every request and state;
    and the handlers of the two forms and of the login pages make no call
    on the store and leave the database as it is. *)
Theorem pages_leave_database (app : application) (r : Request) (s : World) :
  snippets app = models.SnippetModel_impl →
  db (home app r s) = db s ∧
  db (snippetView app r s) = db s ∧
  (storeCalls (snippetCreate r s) = storeCalls s ∧ db (snippetCreate r s) = db s) ∧
  (storeCalls (userSignup r s) = storeCalls s ∧ db (userSignup r s) = db s) ∧
  (storeCalls (userLogin r s) = storeCalls s ∧ db (userLogin r s) = db s) ∧
  (storeCalls (userLoginPost r s) = storeCalls s ∧ db (userLoginPost r s) = db s) ∧
  (storeCalls (userLogoutPost r s) = storeCalls s ∧ db (userLogoutPost r s) = db s).
Proof.
  intros Happ. split; [|split; [|split; [|split]]].
  - unfold home. rewrite Happ.
    cbn [models.SnippetModelInterface.Latest models.SnippetModel_impl].
    destruct (models.SnippetModel.Latest (db s)) as [rows [err|]]; [reflexivity|].
    pose proof (db_newTemplateData r (setDB (db s) CallLatest s)) as Hdb.
    destruct (newTemplateData r _) as [data s1]. simpl in Hdb. by rewrite db_render.
  - unfold snippetView. destruct (strconv.Atoi _) as [id err].
    destruct (_ || _); [reflexivity|]. rewrite Happ.
    cbn [models.SnippetModelInterface.Get models.SnippetModel_impl].
    destruct (models.SnippetModel.Get id (db s)) as [snippet [e|]].
    + by destruct (errors_Is e ErrNoRecord).
    + pose proof (db_newTemplateData r (setDB (db s) (CallGet id) s)) as Hdb.
      destruct (newTemplateData r _) as [data s1]. simpl in Hdb. by rewrite db_render.
  - unfold snippetCreate.
    pose proof (db_newTemplateData r s) as Hdb.
    pose proof (storeCalls_newTemplateData r s) as Hcalls.
    destruct (newTemplateData r s) as [data s1]. simpl in Hdb, Hcalls.
    by rewrite storeCalls_render, db_render.
  - unfold userSignup.
    pose proof (db_newTemplateData r s) as Hdb.
    pose proof (storeCalls_newTemplateData r s) as Hcalls.
    destruct (newTemplateData r s) as [data s1]. simpl in Hdb, Hcalls.
    by rewrite storeCalls_render, db_render.
  - by repeat split.
Qed.

Lemma pages_leave_database_witness :
  db (home Sample.app (Sample.request "GET" "/" []) Sample.loaded) = Sample.database.
Proof.
  by destruct (pages_leave_database Sample.app (Sample.request "GET" "/" []) Sample.loaded
                 eq_refl) as (Hhome & _).
Defined.

(** X18. No handler of handlers.go panics, changes the template cache,
    calls the session backend or changes the stored sessions: each of the
    nine leaves these parts of the state as it finds them, for every request
    and state. *)
Theorem handlers_keep_backstage (app : application) (EmailRX : string → bool) :
  quiet (home app) ∧ quiet (snippetView app) ∧ quiet snippetCreate ∧
  quiet (snippetCreatePost app) ∧ quiet userSignup ∧
  quiet (userSignupPost app EmailRX) ∧ quiet userLogin ∧ quiet userLoginPost ∧
  quiet userLogoutPost.
Proof.
  split; [apply quiet_home|]. split; [apply quiet_snippetView|].
  split; [apply quiet_snippetCreate|]. split; [apply quiet_snippetCreatePost|].
  split; [apply quiet_userSignup|]. split; [apply quiet_userSignupPost|].
  split; [apply quiet_userLogin|]. split; [apply quiet_userLoginPost|].
  apply quiet_userLogoutPost.
Qed.

(** ** The first version of the handlers *)

(** X19. The first snippetCreate accepts POST only: for every request with
    another method it sets the header Allow to POST, answers with the 405 of
    clientError and makes no call on the store; for a POST it inserts the
    fixed snippet for seven days and, when the insert returns an id and no
    error, redirects with 303 to /snippet/view?id= followed by that id. *)
Theorem early_snippetCreate_method_guard (app : application) (r : early.Request') (s : World) :
  (Method (early.base r) ≠ "POST" →
   resp (early.snippetCreate app r s)
     = resp s ++ HeaderSet "Allow" "POST" :: http.Error "Method Not Allowed" 405 ∧
   storeCalls (early.snippetCreate app r s) = storeCalls s ∧
   db (early.snippetCreate app r s) = db s) ∧
  (Method (early.base r) = "POST" →
   storeCalls (early.snippetCreate app r s)
     = storeCalls s ++ [CallInsert "0 snail" early.haiku 7] ∧
   ∀ d id, models.SnippetModelInterface.Insert (snippets app) "0 snail" early.haiku 7 (db s)
             = (d, (id, None)) →
           resp (early.snippetCreate app r s)
             = resp s ++ [HeaderSet "Location" ("/snippet/view?id=" +:+ pretty id);
                          WriteHeader 303] ∧
           db (early.snippetCreate app r s) = d).
Proof.
  unfold early.snippetCreate. split.
  - intros Hm. rewrite bool_decide_eq_true_2 by exact Hm. simpl.
    rewrite <- app_assoc. by repeat split.
  - intros Hm. rewrite bool_decide_eq_false_2 by (intros H; by apply H).
    split.
    + destruct (models.SnippetModelInterface.Insert _ _ _ _ _) as [d [id [e|]]];
        [reflexivity|]. by rewrite storeCalls_http_Redirect.
    + intros d id Hins. rewrite Hins.
      by rewrite resp_http_Redirect_POST, db_http_Redirect.
Qed.

Lemma early_snippetCreate_method_guard_witness :
  let r := {| early.base := Sample.request "GET" "/snippet/create" []; early.URLQuery := ∅ |} in
  statusOf (resp (early.snippetCreate Sample.app r Sample.loaded)) = Some 405 ∧
  headerOf (resp (early.snippetCreate Sample.app r Sample.loaded)) ∅ !! "Allow" = Some "POST" ∧
  db (early.snippetCreate Sample.app r Sample.loaded) = Sample.database.
Proof.
  intros r.
  destruct (proj1 (early_snippetCreate_method_guard Sample.app r Sample.loaded))
    as (Hresp & _ & Hdb).
  - discriminate.
  - rewrite Hresp. split; [reflexivity|]. split; [reflexivity | exact Hdb].
Defined.

(** X20. The first home answers for the root only: for every request whose
    path is not "/" it answers with the 404 of notFound without asking the
    snippet model; for the root it asks for the latest snippets once. *)
Theorem early_home_path_guard (app : application) (r : early.Request') (s : World) :
  (URLPath (early.base r) ≠ "/" →
   early.home app r s = notFound s ∧
   storeCalls (early.home app r s) = storeCalls s ∧
   db (early.home app r s) = db s) ∧
  (URLPath (early.base r) = "/" →
   storeCalls (early.home app r s) = storeCalls s ++ [CallLatest]).
Proof.
  unfold early.home. split.
  - intros Hp. rewrite bool_decide_eq_true_2 by exact Hp. by repeat split.
  - intros Hp. rewrite bool_decide_eq_false_2 by (intros H; by apply H).
    destruct (models.SnippetModelInterface.Latest _ _) as [d [rows [e|]]]; [reflexivity|].
    by rewrite storeCalls_render.
Qed.

Lemma early_home_path_guard_witness :
  let r := {| early.base := Sample.request "GET" "/favicon.ico" []; early.URLQuery := ∅ |} in
  statusOf (resp (early.home Sample.app r Sample.loaded)) = Some 404 ∧
  storeCalls (early.home Sample.app r Sample.loaded) = [].
Proof.
  intros r.
  destruct (proj1 (early_home_path_guard Sample.app r Sample.loaded)) as (Hhome & Hcalls & _).
  - discriminate.
  - split; [by rewrite Hhome | exact Hcalls].
Defined.

(** X21. The first snippetView takes the id from the query string: when
    the value of id is missing, is refused by Atoi or is below 1, the answer
    is the 404 of notFound and the store is not called; otherwise the only
    call on the store is one Get with that id. *)
Theorem early_snippetView_guards_id (app : application) (r : early.Request') (s : World) :
  (((strconv.Atoi (early.Values_Get (early.URLQuery r) "id")).2 ≠ None ∨
    (strconv.Atoi (early.Values_Get (early.URLQuery r) "id")).1 < 1) →
   early.snippetView app r s = notFound s ∧
   storeCalls (early.snippetView app r s) = storeCalls s) ∧
  (early.URLQuery r !! "id" = None → early.snippetView app r s = notFound s) ∧
  (∀ id, strconv.Atoi (early.Values_Get (early.URLQuery r) "id") = (id, None) → 1 ≤ id →
         storeCalls (early.snippetView app r s) = storeCalls s ++ [CallGet id]).
Proof.
  unfold early.snippetView. split; [|split].
  - destruct (strconv.Atoi _) as [id err]. simpl. intros Hbad.
    assert (Hguard : bool_decide (err ≠ None) || bool_decide (id < 1) = true).
    { apply orb_true_iff. destruct Hbad as [H|H]; [left|right]; by apply bool_decide_eq_true. }
    rewrite Hguard. by split.
  - intros Hnone. unfold early.Values_Get. rewrite Hnone. reflexivity.
  - intros id Hatoi Hid. rewrite Hatoi.
    rewrite bool_decide_eq_false_2 by (intros H; by apply H).
    rewrite bool_decide_eq_false_2 by lia. cbn [orb].
    destruct (models.SnippetModelInterface.Get _ _ _) as [d [snippet [e|]]].
    + by destruct (errors_Is e ErrNoRecord).
    + by rewrite storeCalls_render.
Qed.

Lemma early_snippetView_guards_id_witness :
  let r := {| early.base := Sample.request "GET" "/snippet/view" [];
              early.URLQuery := {["id" := ["-3"]]} |} in
  statusOf (resp (early.snippetView Sample.app r Sample.loaded)) = Some 404 ∧
  storeCalls (early.snippetView Sample.app r Sample.loaded) = [].
Proof.
  intros r.
  destruct (proj1 (early_snippetView_guards_id Sample.app r Sample.loaded)) as (Hview & Hcalls).
  - right. vm_compute. reflexivity.
  - split; [by rewrite Hview | exact Hcalls].
Defined.

(** ** internal/models/mocks *)

(** X22. On the mock of the snippet model only the snippet 1 can be viewed:
    for every request whose id parameter Atoi reads as an integer that is
    at least 1 and is not 1, snippetView answers with the 404 of notFound;
    for the id 1 it goes on to render view.tmpl with the mock snippet; in
    both cases the database is as before. *)
Theorem mock_snippetView (u : models.UserModelInterface.t) (t0 : Z) (r : Request)
    (s : World) (id : Z) :
  let app := {| snippets := mocks.SnippetModel_impl t0; users := u |} in
  strconv.Atoi (ByName (Params r) "id") = (id, None) →
  1 ≤ id →
  db (snippetView app r s) = db s ∧
  (id ≠ 1 → resp (snippetView app r s) = resp s ++ http.Error "Not Found" 404) ∧
  (id = 1 →
   snippetView app r s =
     render 200 "view.tmpl"
       (withSnippet (Some (mocks.mockSnippet t0))
          (newTemplateData r (setDB (db s) (CallGet 1) s)).1)
       (newTemplateData r (setDB (db s) (CallGet 1) s)).2).
Proof.
  intros app Hatoi Hid. subst app. unfold snippetView. rewrite Hatoi.
  rewrite bool_decide_eq_false_2 by (intros H; by apply H).
  rewrite bool_decide_eq_false_2 by lia.
  cbn [orb snippets models.SnippetModelInterface.Get mocks.SnippetModel_impl].
  unfold mocks.SnippetModel.Get. destruct (decide (id = 1)) as [->|Hne].
  - split; [|split; [done|]].
    + pose proof (db_newTemplateData r (setDB (db s) (CallGet 1) s)) as Hdb.
      destruct (newTemplateData r _) as [data s1]. simpl in Hdb. by rewrite db_render.
    + intros _. by destruct (newTemplateData r _).
  - split; [reflexivity|]. split; [reflexivity | done].
Qed.

Lemma mock_snippetView_witness :
  let r := withParams [("id", "2")] (Sample.request "GET" "/snippet/view/2" []) in
  let app := {| snippets := mocks.SnippetModel_impl 0; users := users Sample.app |} in
  statusOf (resp (snippetView app r Sample.loaded)) = Some 404.
Proof.
  intros r app.
  destruct (mock_snippetView (users Sample.app) 0 r Sample.loaded 2 eq_refl) as (_ & Hresp & _).
  - lia.
  - subst app. rewrite Hresp; [reflexivity | lia].
Defined.

(** ** snippetView when the store fails *)

(** X23. Only ErrNoRecord is a 404: for every implementation of the snippet
    model and every request whose id parameter Atoi reads as an integer that
    is at least 1, when Get returns an error other than ErrNoRecord,
    snippetView writes the generic 500, whose body does not depend on the
    error, and logs the message of the error; no template is executed and
    the session is as before. *)
Theorem snippetView_store_error (app : application) (r : Request) (s : World)
    (id : Z) (d : models.DB) (snippet : option models.Snippet) (err : error) :
  strconv.Atoi (ByName (Params r) "id") = (id, None) →
  1 ≤ id →
  models.SnippetModelInterface.Get (snippets app) id (db s) = (d, (snippet, Some err)) →
  err ≠ ErrNoRecord →
  resp (snippetView app r s) = resp s ++ generic500 ∧
  errorLog (snippetView app r s) = errorLog s ++ [Error err] ∧
  session (snippetView app r s) = session s ∧
  db (snippetView app r s) = d.
Proof.
  intros Hatoi Hid Hget Hne. unfold snippetView. rewrite Hatoi.
  rewrite bool_decide_eq_false_2 by (intros H; by apply H).
  rewrite bool_decide_eq_false_2 by lia. cbn [orb]. rewrite Hget.
  unfold errors_Is. rewrite bool_decide_eq_false_2 by exact Hne.
  by repeat split.
Qed.

(** The database of the sample installation out of reach. *)
Lemma snippetView_store_error_witness :
  let r := withParams [("id", "2")] (Sample.request "GET" "/snippet/view/2" []) in
  statusOf (resp (snippetView Sample.app r Offline.loaded)) = Some 500 ∧
  errorLog (snippetView Sample.app r Offline.loaded) = ["invalid connection"].
Proof.
  intros r.
  destruct (snippetView_store_error Sample.app r Offline.loaded 2 Offline.database None
              (errorString "invalid connection") eq_refl) as (Hresp & Hlog & _).
  - lia.
  - reflexivity.
  - discriminate.
  - split; [by rewrite Hresp | exact Hlog].
Defined.
